(** * Verification of the transformer stream prefetcher and of the
      bandwidth-aware Transformer/Pythia selector (ChampSim, DPC4).

    Shallow embedding of
    - [src/prefetcher/transformer_stream/transformer_stream.cc]
      (the prefetcher and its header [transformer_stream.h]);
    - [src/prefetcher/transformer_pythia_selector_bw/transformer_pythia_selector_bw.h]
      and its implementation [src/unnamed/part_002].

    Modelling conventions.
    - Fixed-width integers are [Z]; wrap-around of unsigned counters is written
      out with [u32] / [u64], int32 casts with [to_i32].
    - [std::array] tables are lists, read with [!!!] and written with stdpp's
      list insert [<[i:=x]>]; every index the code writes is in range.
    - A [champsim::block_number] is the 58-bit block part of a 64-bit address
      ([LOG2_BLOCK_SIZE = 6]); adding a signed offset wraps modulo 2^58 and
      [champsim::offset a b] is the signed difference [b - a].
    - The host is consulted through [host]: the MSHR occupancy ratio, whether
      [prefetch_line] accepts a block, and [get_dram_bw()].  Doubles of the
      selector are exact rationals [Q]; [std::log] is a section variable. *)

From Stdlib Require Import ZArith QArith Lia.
From stdpp Require Import base list.

Open Scope Z_scope.

(* ------------------------------------------------------------------------- *)
(** ** Machine integers and block numbers *)

Definition u32 (z : Z) : Z := z mod 2 ^ 32.
Definition u64 (z : Z) : Z := z mod 2 ^ 64.
Definition to_i32 (z : Z) : Z :=
  let w := z mod 2 ^ 32 in if w <? 2 ^ 31 then w else w - 2 ^ 32.
Definition INT_MAX : Z := 2 ^ 31 - 1.
Definition UINT64_MAX : Z := 2 ^ 64 - 1.

Definition LOG2_BLOCK_SIZE : Z := 6.
Definition BLOCK_BITS : Z := 64 - LOG2_BLOCK_SIZE.

(** [block_number + offset] *)
Definition blk_add (b d : Z) : Z := (b + d) mod 2 ^ BLOCK_BITS.
(** [champsim::offset(a, b)] *)
Definition offset (a b : Z) : Z := b - a.
(** [champsim::block_number{addr}] *)
Definition block_of_address (addr : Z) : Z := Z.shiftr addr LOG2_BLOCK_SIZE.

(** Host callbacks seen by one hook invocation. *)
Record host := {
  mshr_occupancy_ratio : Q;
  prefetch_line_accepts : Z -> bool;
  dram_bw : Z
}.

Inductive access_type := LOAD | RFO | PREFETCH | WRITE | TRANSLATION.

(* ------------------------------------------------------------------------- *)
(** ** [namespace transformer_config] *)

Definition TRAINING_TABLE_SIZE : nat := 32.
Definition STREAM_TABLE_SIZE : nat := 32.
Definition REGION_SIZE_BLOCKS : Z := 4.
Definition CONFIRMATION_THRESHOLD : Z := 3.
Definition DEAD_STREAM_THRESHOLD : Z := 1000.
Definition SHORT_STREAM_THRESHOLD : Z := 4.
Definition BASE_PREFETCH_DEGREE : Z := 2.
Definition CLEANUP_INTERVAL : Z := 256.
Definition MAX_STREAM_GROUPS : nat := 8.
Definition MAX_STREAMS_PER_GROUP : nat := 8.
Definition DENSE_STRIDE_MAX : Z := 2.
Definition MEDIUM_STRIDE_MAX : Z := 16.
Definition DENSE_LENGTH_MIN : Z := 8.
Definition MEDIUM_LENGTH_MIN : Z := 4.
Definition DENSE_PREFETCH_DEGREE : Z := 4.
Definition MEDIUM_PREFETCH_DEGREE : Z := 2.
Definition SPARSE_PREFETCH_DEGREE : Z := 1.
Definition REUSE_WINDOW_SIZE : Z := 2000.
Definition MAX_CONFIDENCE : Z := 8.
Definition CONFIDENCE_BOOST_ON_REUSE : Z := 2.
Definition FAST_TRACK_CONFIDENCE : Z := 4.
Definition PATTERN_HISTORY_SIZE : nat := 16.
Definition PHASE_WINDOW_SIZE : Z := 64.
Definition PHASE_TRANSITION_THRESHOLD : Z := 4.
Definition MIN_PREFETCH_DEGREE : Z := 1.
Definition PHASE_RECOVERY_WINDOW : Z := 32.
Definition CONSERVATIVE_LOOKAHEAD : Z := 1.
Definition AGGRESSIVE_LOOKAHEAD : Z := 4.
Definition STRIDE_STABILITY_THRESHOLD : Z := 3.

(* ------------------------------------------------------------------------- *)
(** ** Enumerations *)

Module StreamDirection.
Inductive t := UNKNOWN | POSITIVE | NEGATIVE.
(** the [int8_t] value of the enumerator *)
Definition val (d : t) : Z :=
    match d with UNKNOWN => 0 | POSITIVE => 1 | NEGATIVE => -1 end.
Definition eqb (a b : t) : bool := Z.eqb (val a) (val b).
End StreamDirection.

Module StreamClass.
Inductive t := UNKNOWN | DENSE | MEDIUM | SPARSE.
End StreamClass.

(* ------------------------------------------------------------------------- *)
(** ** Table entries *)

Record TrainingEntry := {
  te_valid : bool;
  te_region_base : Z;
  te_last_miss_block : Z;
  te_second_last_miss_block : Z;
  te_third_last_miss_block : Z;
  te_miss_count : Z;
  te_direction : StreamDirection.t;
  te_stride : Z;
  te_last_access_timestamp : Z;
  te_pattern_confidence : Z
}.

Record TransformerStreamEntry := {
  se_valid : bool;
  se_active : bool;
  se_stream_start_block : Z;
  se_stream_end_block : Z;
  se_current_prefetch_block : Z;
  se_direction : StreamDirection.t;
  se_stride : Z;
  se_last_trigger_timestamp : Z;
  se_stream_length : Z;
  se_stream_class : StreamClass.t;
  se_reactivation_count : Z;
  se_confidence_score : Z;
  se_accesses_in_window : Z;
  se_window_start_timestamp : Z;
  se_group_id : Z;
  se_consistent_stride_count : Z
}.

Record StreamGroup := {
  sg_valid : bool;
  sg_stride : Z;
  sg_direction : StreamDirection.t;
  sg_member_count : Z;
  sg_group_confidence : Z;
  sg_last_seen_timestamp : Z;
  sg_typical_class : StreamClass.t;
  sg_members : list Z
}.

Record PhaseState := {
  ph_window_start_timestamp : Z;
  ph_streams_terminated_in_window : Z;
  ph_misses_in_window : Z;
  ph_successful_prefetches_in_window : Z;
  ph_current_prefetch_degree : Z;
  ph_in_phase_transition : bool;
  ph_recovery_counter : Z
}.

Record PatternHistoryEntry := {
  pa_valid : bool;
  pa_direction : StreamDirection.t;
  pa_stride : Z;
  pa_region_base : Z;
  pa_termination_timestamp : Z;
  pa_stream_length : Z;
  pa_stream_class : StreamClass.t
}.

(** Default member initialisers of the structs. *)
Definition default_training_entry : TrainingEntry :=
  {| te_valid := false; te_region_base := 0; te_last_miss_block := 0;
     te_second_last_miss_block := 0; te_third_last_miss_block := 0;
     te_miss_count := 0; te_direction := StreamDirection.UNKNOWN; te_stride := 1;
     te_last_access_timestamp := 0; te_pattern_confidence := 0 |}.

Definition default_stream_entry : TransformerStreamEntry :=
  {| se_valid := false; se_active := true; se_stream_start_block := 0;
     se_stream_end_block := 0; se_current_prefetch_block := 0;
     se_direction := StreamDirection.POSITIVE; se_stride := 1;
     se_last_trigger_timestamp := 0; se_stream_length := 0;
     se_stream_class := StreamClass.UNKNOWN; se_reactivation_count := 0;
     se_confidence_score := 1; se_accesses_in_window := 0;
     se_window_start_timestamp := 0; se_group_id := -1;
     se_consistent_stride_count := 0 |}.

Definition default_stream_group : StreamGroup :=
  {| sg_valid := false; sg_stride := 0; sg_direction := StreamDirection.UNKNOWN;
     sg_member_count := 0; sg_group_confidence := 0; sg_last_seen_timestamp := 0;
     sg_typical_class := StreamClass.UNKNOWN;
     sg_members := repeat (-1) MAX_STREAMS_PER_GROUP |}.

Definition default_phase_state : PhaseState :=
  {| ph_window_start_timestamp := 0; ph_streams_terminated_in_window := 0;
     ph_misses_in_window := 0; ph_successful_prefetches_in_window := 0;
     ph_current_prefetch_degree := BASE_PREFETCH_DEGREE;
     ph_in_phase_transition := false; ph_recovery_counter := 0 |}.

Definition default_pattern : PatternHistoryEntry :=
  {| pa_valid := false; pa_direction := StreamDirection.UNKNOWN; pa_stride := 0;
     pa_region_base := 0; pa_termination_timestamp := 0; pa_stream_length := 0;
     pa_stream_class := StreamClass.UNKNOWN |}.

#[global] Instance TrainingEntry_inhabited : Inhabited TrainingEntry :=
  populate default_training_entry.
#[global] Instance StreamEntry_inhabited : Inhabited TransformerStreamEntry :=
  populate default_stream_entry.
#[global] Instance StreamGroup_inhabited : Inhabited StreamGroup :=
  populate default_stream_group.
#[global] Instance Pattern_inhabited : Inhabited PatternHistoryEntry :=
  populate default_pattern.

(** Field assignments [entry.f = v] used by the code. *)
Definition set_se_group_id (gi : Z) (e : TransformerStreamEntry) :=
  {| se_valid := se_valid e; se_active := se_active e;
     se_stream_start_block := se_stream_start_block e;
     se_stream_end_block := se_stream_end_block e;
     se_current_prefetch_block := se_current_prefetch_block e;
     se_direction := se_direction e; se_stride := se_stride e;
     se_last_trigger_timestamp := se_last_trigger_timestamp e;
     se_stream_length := se_stream_length e; se_stream_class := se_stream_class e;
     se_reactivation_count := se_reactivation_count e;
     se_confidence_score := se_confidence_score e;
     se_accesses_in_window := se_accesses_in_window e;
     se_window_start_timestamp := se_window_start_timestamp e;
     se_group_id := gi; se_consistent_stride_count := se_consistent_stride_count e |}.

Definition set_se_stream_class (c : StreamClass.t) (e : TransformerStreamEntry) :=
  {| se_valid := se_valid e; se_active := se_active e;
     se_stream_start_block := se_stream_start_block e;
     se_stream_end_block := se_stream_end_block e;
     se_current_prefetch_block := se_current_prefetch_block e;
     se_direction := se_direction e; se_stride := se_stride e;
     se_last_trigger_timestamp := se_last_trigger_timestamp e;
     se_stream_length := se_stream_length e; se_stream_class := c;
     se_reactivation_count := se_reactivation_count e;
     se_confidence_score := se_confidence_score e;
     se_accesses_in_window := se_accesses_in_window e;
     se_window_start_timestamp := se_window_start_timestamp e;
     se_group_id := se_group_id e;
     se_consistent_stride_count := se_consistent_stride_count e |}.

Definition set_se_active (b : bool) (e : TransformerStreamEntry) :=
  {| se_valid := se_valid e; se_active := b;
     se_stream_start_block := se_stream_start_block e;
     se_stream_end_block := se_stream_end_block e;
     se_current_prefetch_block := se_current_prefetch_block e;
     se_direction := se_direction e; se_stride := se_stride e;
     se_last_trigger_timestamp := se_last_trigger_timestamp e;
     se_stream_length := se_stream_length e; se_stream_class := se_stream_class e;
     se_reactivation_count := se_reactivation_count e;
     se_confidence_score := se_confidence_score e;
     se_accesses_in_window := se_accesses_in_window e;
     se_window_start_timestamp := se_window_start_timestamp e;
     se_group_id := se_group_id e;
     se_consistent_stride_count := se_consistent_stride_count e |}.

Definition set_se_last_trigger_timestamp (t : Z) (e : TransformerStreamEntry) :=
  {| se_valid := se_valid e; se_active := se_active e;
     se_stream_start_block := se_stream_start_block e;
     se_stream_end_block := se_stream_end_block e;
     se_current_prefetch_block := se_current_prefetch_block e;
     se_direction := se_direction e; se_stride := se_stride e;
     se_last_trigger_timestamp := t;
     se_stream_length := se_stream_length e; se_stream_class := se_stream_class e;
     se_reactivation_count := se_reactivation_count e;
     se_confidence_score := se_confidence_score e;
     se_accesses_in_window := se_accesses_in_window e;
     se_window_start_timestamp := se_window_start_timestamp e;
     se_group_id := se_group_id e;
     se_consistent_stride_count := se_consistent_stride_count e |}.

Definition set_se_confidence_score (c : Z) (e : TransformerStreamEntry) :=
  {| se_valid := se_valid e; se_active := se_active e;
     se_stream_start_block := se_stream_start_block e;
     se_stream_end_block := se_stream_end_block e;
     se_current_prefetch_block := se_current_prefetch_block e;
     se_direction := se_direction e; se_stride := se_stride e;
     se_last_trigger_timestamp := se_last_trigger_timestamp e;
     se_stream_length := se_stream_length e; se_stream_class := se_stream_class e;
     se_reactivation_count := se_reactivation_count e;
     se_confidence_score := c;
     se_accesses_in_window := se_accesses_in_window e;
     se_window_start_timestamp := se_window_start_timestamp e;
     se_group_id := se_group_id e;
     se_consistent_stride_count := se_consistent_stride_count e |}.

Definition set_se_valid (b : bool) (e : TransformerStreamEntry) :=
  {| se_valid := b; se_active := se_active e;
     se_stream_start_block := se_stream_start_block e;
     se_stream_end_block := se_stream_end_block e;
     se_current_prefetch_block := se_current_prefetch_block e;
     se_direction := se_direction e; se_stride := se_stride e;
     se_last_trigger_timestamp := se_last_trigger_timestamp e;
     se_stream_length := se_stream_length e; se_stream_class := se_stream_class e;
     se_reactivation_count := se_reactivation_count e;
     se_confidence_score := se_confidence_score e;
     se_accesses_in_window := se_accesses_in_window e;
     se_window_start_timestamp := se_window_start_timestamp e;
     se_group_id := se_group_id e;
     se_consistent_stride_count := se_consistent_stride_count e |}.

Definition set_sg_valid (b : bool) (g : StreamGroup) :=
  {| sg_valid := b; sg_stride := sg_stride g; sg_direction := sg_direction g;
     sg_member_count := sg_member_count g; sg_group_confidence := sg_group_confidence g;
     sg_last_seen_timestamp := sg_last_seen_timestamp g;
     sg_typical_class := sg_typical_class g; sg_members := sg_members g |}.

Definition set_sg_last_seen_timestamp (t : Z) (g : StreamGroup) :=
  {| sg_valid := sg_valid g; sg_stride := sg_stride g; sg_direction := sg_direction g;
     sg_member_count := sg_member_count g; sg_group_confidence := sg_group_confidence g;
     sg_last_seen_timestamp := t;
     sg_typical_class := sg_typical_class g; sg_members := sg_members g |}.

Definition set_sg_typical_class (c : StreamClass.t) (g : StreamGroup) :=
  {| sg_valid := sg_valid g; sg_stride := sg_stride g; sg_direction := sg_direction g;
     sg_member_count := sg_member_count g; sg_group_confidence := sg_group_confidence g;
     sg_last_seen_timestamp := sg_last_seen_timestamp g;
     sg_typical_class := c; sg_members := sg_members g |}.

Definition set_sg_group_confidence (c : Z) (g : StreamGroup) :=
  {| sg_valid := sg_valid g; sg_stride := sg_stride g; sg_direction := sg_direction g;
     sg_member_count := sg_member_count g; sg_group_confidence := c;
     sg_last_seen_timestamp := sg_last_seen_timestamp g;
     sg_typical_class := sg_typical_class g; sg_members := sg_members g |}.

Definition set_sg_members (ms : list Z) (cnt : Z) (g : StreamGroup) :=
  {| sg_valid := sg_valid g; sg_stride := sg_stride g; sg_direction := sg_direction g;
     sg_member_count := cnt; sg_group_confidence := sg_group_confidence g;
     sg_last_seen_timestamp := sg_last_seen_timestamp g;
     sg_typical_class := sg_typical_class g; sg_members := ms |}.

(* ------------------------------------------------------------------------- *)
(** ** The prefetcher object [struct transformer_stream] *)

Record tstate := {
  training_table : list TrainingEntry;
  stream_table : list TransformerStreamEntry;
  stream_groups : list StreamGroup;
  pattern_history : list PatternHistoryEntry;
  pattern_history_head : Z;
  phase_state : PhaseState;
  current_timestamp : Z;
  cleanup_counter : Z
}.

Definition set_training_table (l : list TrainingEntry) (st : tstate) :=
  {| training_table := l; stream_table := stream_table st;
     stream_groups := stream_groups st; pattern_history := pattern_history st;
     pattern_history_head := pattern_history_head st; phase_state := phase_state st;
     current_timestamp := current_timestamp st; cleanup_counter := cleanup_counter st |}.

Definition set_stream_table (l : list TransformerStreamEntry) (st : tstate) :=
  {| training_table := training_table st; stream_table := l;
     stream_groups := stream_groups st; pattern_history := pattern_history st;
     pattern_history_head := pattern_history_head st; phase_state := phase_state st;
     current_timestamp := current_timestamp st; cleanup_counter := cleanup_counter st |}.

Definition set_stream_groups (l : list StreamGroup) (st : tstate) :=
  {| training_table := training_table st; stream_table := stream_table st;
     stream_groups := l; pattern_history := pattern_history st;
     pattern_history_head := pattern_history_head st; phase_state := phase_state st;
     current_timestamp := current_timestamp st; cleanup_counter := cleanup_counter st |}.

Definition set_pattern_history (l : list PatternHistoryEntry) (head : Z) (st : tstate) :=
  {| training_table := training_table st; stream_table := stream_table st;
     stream_groups := stream_groups st; pattern_history := l;
     pattern_history_head := head; phase_state := phase_state st;
     current_timestamp := current_timestamp st; cleanup_counter := cleanup_counter st |}.

Definition set_phase_state (p : PhaseState) (st : tstate) :=
  {| training_table := training_table st; stream_table := stream_table st;
     stream_groups := stream_groups st; pattern_history := pattern_history st;
     pattern_history_head := pattern_history_head st; phase_state := p;
     current_timestamp := current_timestamp st; cleanup_counter := cleanup_counter st |}.

Definition set_counters (ts cleanup : Z) (st : tstate) :=
  {| training_table := training_table st; stream_table := stream_table st;
     stream_groups := stream_groups st; pattern_history := pattern_history st;
     pattern_history_head := pattern_history_head st; phase_state := phase_state st;
     current_timestamp := ts; cleanup_counter := cleanup |}.

(** [table[i] = f(table[i])] *)
Definition upd_training (st : tstate) (i : nat) (f : TrainingEntry -> TrainingEntry) :=
  set_training_table (<[i := f (training_table st !!! i)]> (training_table st)) st.
Definition upd_stream (st : tstate) (i : nat)
    (f : TransformerStreamEntry -> TransformerStreamEntry) :=
  set_stream_table (<[i := f (stream_table st !!! i)]> (stream_table st)) st.
Definition upd_group (st : tstate) (i : nat) (f : StreamGroup -> StreamGroup) :=
  set_stream_groups (<[i := f (stream_groups st !!! i)]> (stream_groups st)) st.

(** A [for (i = 0; i < size; ++i) if (p(table[i])) return i; return -1;] loop. *)
Fixpoint find_first_from {A} (p : A -> bool) (l : list A) (i : Z) : Z :=
  match l with
  | [] => -1
  | x :: l' => if p x then i else find_first_from p l' (i + 1)
  end.
Definition find_first {A} (p : A -> bool) (l : list A) : Z := find_first_from p l 0.

(** [prefetcher_initialize] *)
Definition initial_stream_entry : TransformerStreamEntry :=
  set_se_active false default_stream_entry.

Definition tstate_init : tstate :=
  {| training_table := repeat default_training_entry TRAINING_TABLE_SIZE;
     stream_table := repeat initial_stream_entry STREAM_TABLE_SIZE;
     stream_groups := repeat default_stream_group MAX_STREAM_GROUPS;
     pattern_history := repeat default_pattern PATTERN_HISTORY_SIZE;
     pattern_history_head := 0;
     phase_state := default_phase_state;
     current_timestamp := 0; cleanup_counter := 0 |}.

(* ------------------------------------------------------------------------- *)
(** ** Region computation and direction/stride detection *)

Definition compute_region_base (block : Z) : Z :=
  Z.land block (Z.lnot (REGION_SIZE_BLOCKS - 1)).

Definition is_noise (gap1 gap2 : Z) : bool :=
  if ((gap1 =? 1) && (gap2 <? 0)) || ((gap1 =? -1) && (gap2 >? 0)) ||
     ((gap2 =? 1) && (gap1 <? 0)) || ((gap2 =? -1) && (gap1 >? 0))
  then (Z.abs gap1 <=? 1) || (Z.abs gap2 <=? 1)
  else false.

Definition detect_direction (gap1 gap2 : Z) : StreamDirection.t :=
  if (gap1 >? 0) && (gap2 >? 0) then StreamDirection.POSITIVE
  else if (gap1 <? 0) && (gap2 <? 0) then StreamDirection.NEGATIVE
  else StreamDirection.UNKNOWN.

Definition detect_stride (gap1 gap2 : Z) : Z :=
  let abs_gap1 := Z.abs gap1 in
  let abs_gap2 := Z.abs gap2 in
  if negb (abs_gap1 =? abs_gap2) then 0
  else if abs_gap1 <? 1 then 0
  else to_i32 abs_gap1.

(* ------------------------------------------------------------------------- *)
(** ** Pattern history (enhancement 3) *)

Definition record_pattern (st : tstate) (e : TransformerStreamEntry) : tstate :=
  let head := pattern_history_head st in
  let p := {| pa_valid := true; pa_direction := se_direction e; pa_stride := se_stride e;
              pa_region_base := se_stream_start_block e;
              pa_termination_timestamp := current_timestamp st;
              pa_stream_length := se_stream_length e;
              pa_stream_class := se_stream_class e |} in
  set_pattern_history (<[Z.to_nat head := p]> (pattern_history st))
    ((head + 1) mod Z.of_nat PATTERN_HISTORY_SIZE) st.

Definition find_matching_pattern (st : tstate) (dir : StreamDirection.t) (stride : Z)
    (region : Z) : Z :=
  let region_base := compute_region_base region in
  find_first (fun pattern =>
      pa_valid pattern &&
      negb (u64 (current_timestamp st - pa_termination_timestamp pattern)
              >? REUSE_WINDOW_SIZE) &&
      StreamDirection.eqb (pa_direction pattern) dir && (pa_stride pattern =? stride) &&
      (Z.abs (offset region_base (compute_region_base (pa_region_base pattern)))
         <=? REGION_SIZE_BLOCKS * 4))
    (pattern_history st).

Definition get_pattern_confidence (st : tstate) (dir : StreamDirection.t) (stride : Z)
    (region : Z) : Z :=
  let pattern_idx := find_matching_pattern st dir stride region in
  if pattern_idx <? 0 then 0 else
  let pattern := pattern_history st !!! Z.to_nat pattern_idx in
  let base_confidence := 1 + (if pa_stream_length pattern >=? DENSE_LENGTH_MIN then 2 else 0) in
  let age := u64 (current_timestamp st - pa_termination_timestamp pattern) in
  let base_confidence :=
    if age <? REUSE_WINDOW_SIZE / 4 then base_confidence + 2
    else if age <? REUSE_WINDOW_SIZE / 2 then base_confidence + 1
    else base_confidence in
  Z.min base_confidence (MAX_CONFIDENCE / 2).

Definition can_fast_track_training (e : TrainingEntry) : bool :=
  te_pattern_confidence e >=? FAST_TRACK_CONFIDENCE.

(* ------------------------------------------------------------------------- *)
(** ** Training table *)

Definition find_training_entry (st : tstate) (region_base : Z) : Z :=
  find_first (fun e => te_valid e && (te_region_base e =? region_base)) (training_table st).

(** the LRU scan: [if (ts < oldest_time) { oldest_time = ts; lru_idx = i; }] *)
Fixpoint lru_index (l : list TrainingEntry) (i lru_idx : nat) (oldest_time : Z) : nat :=
  match l with
  | [] => lru_idx
  | e :: l' =>
      if te_last_access_timestamp e <? oldest_time
      then lru_index l' (S i) i (te_last_access_timestamp e)
      else lru_index l' (S i) lru_idx oldest_time
  end.

Definition reset_training_entry (region_base ts : Z) (e : TrainingEntry) : TrainingEntry :=
  {| te_valid := true; te_region_base := region_base;
     te_last_miss_block := te_last_miss_block e;
     te_second_last_miss_block := te_second_last_miss_block e;
     te_third_last_miss_block := te_third_last_miss_block e;
     te_miss_count := 0; te_direction := StreamDirection.UNKNOWN; te_stride := 1;
     te_last_access_timestamp := ts; te_pattern_confidence := 0 |}.

Definition allocate_training_entry (st : tstate) (region_base : Z) : nat * tstate :=
  let free := find_first (fun e => negb (te_valid e)) (training_table st) in
  let idx := if free >=? 0 then Z.to_nat free
             else lru_index (training_table st) 0 0 UINT64_MAX in
  (idx, upd_training st idx (reset_training_entry region_base (current_timestamp st))).

(** An entry with a new miss history, count, direction, stride and confidence. *)
Definition te_train (e : TrainingEntry) (ts l0 l1 l2 mc : Z) (dir : StreamDirection.t)
    (stride conf : Z) : TrainingEntry :=
  {| te_valid := te_valid e; te_region_base := te_region_base e;
     te_last_miss_block := l0; te_second_last_miss_block := l1;
     te_third_last_miss_block := l2; te_miss_count := mc; te_direction := dir;
     te_stride := stride; te_last_access_timestamp := ts; te_pattern_confidence := conf |}.

Definition update_training_entry (st : tstate) (idx : nat) (miss_block : Z) : tstate :=
  let e := training_table st !!! idx in
  let ts := current_timestamp st in
  let e' :=
    if te_miss_count e =? 0 then
      te_train e ts miss_block (te_second_last_miss_block e) (te_third_last_miss_block e)
        1 (te_direction e) (te_stride e)
        (get_pattern_confidence st StreamDirection.UNKNOWN 0 (te_region_base e))
    else if te_miss_count e =? 1 then
      te_train e ts miss_block (te_last_miss_block e) (te_third_last_miss_block e)
        2 (te_direction e) (te_stride e) (te_pattern_confidence e)
    else
      (* shift history *)
      let third := te_second_last_miss_block e in
      let second := te_last_miss_block e in
      let gap1 := offset third second in
      let gap2 := offset second miss_block in
      if is_noise gap1 gap2 then
        te_train e ts miss_block second third (te_miss_count e) (te_direction e)
          (te_stride e) (te_pattern_confidence e)
      else
      let detected_dir := detect_direction gap1 gap2 in
      if StreamDirection.eqb detected_dir StreamDirection.UNKNOWN then
        te_train e ts miss_block second third 1 StreamDirection.UNKNOWN 1
          (te_pattern_confidence e)
      else
      let detected_stride := detect_stride gap1 gap2 in
      if detected_stride <=? 0 then
        te_train e ts miss_block second third 1 StreamDirection.UNKNOWN 1
          (te_pattern_confidence e)
      else
        te_train e ts miss_block second third 3 detected_dir detected_stride
          (get_pattern_confidence st detected_dir detected_stride (te_region_base e)) in
  upd_training st idx (fun _ => e').

(* ------------------------------------------------------------------------- *)
(** ** Stream groups (enhancement 1) *)

Definition find_stream_group (st : tstate) (dir : StreamDirection.t) (stride : Z) : Z :=
  find_first (fun g => sg_valid g && StreamDirection.eqb (sg_direction g) dir &&
                       (sg_stride g =? stride))
    (stream_groups st).

Definition group_class_for_stride (stride : Z) : StreamClass.t :=
  if stride <=? DENSE_STRIDE_MAX then StreamClass.DENSE
  else if stride <=? MEDIUM_STRIDE_MAX then StreamClass.MEDIUM
  else StreamClass.SPARSE.

(** the fields a (re)created group is given *)
Definition fresh_group (dir : StreamDirection.t) (stride ts : Z) (_ : StreamGroup) :=
  {| sg_valid := true; sg_stride := stride; sg_direction := dir; sg_member_count := 0;
     sg_group_confidence := 0; sg_last_seen_timestamp := ts;
     sg_typical_class := group_class_for_stride stride;
     sg_members := repeat (-1) MAX_STREAMS_PER_GROUP |}.

(** [if (member_count == 0 || last_seen < oldest_time) { ...; oldest_idx = i; }] *)
Fixpoint oldest_group (l : list StreamGroup) (i oldest_idx : nat) (oldest_time : Z) : nat :=
  match l with
  | [] => oldest_idx
  | g :: l' =>
      if (sg_member_count g =? 0) || (sg_last_seen_timestamp g <? oldest_time)
      then oldest_group l' (S i) i (sg_last_seen_timestamp g)
      else oldest_group l' (S i) oldest_idx oldest_time
  end.

(** [for (int member_idx : members) if (in range) stream_table[member_idx].group_id = -1;] *)
Definition clear_member_group_ids (members : list Z) (st : tstate) : tstate :=
  fold_left (fun st member_idx =>
      if (0 <=? member_idx) && (member_idx <? Z.of_nat STREAM_TABLE_SIZE)
      then upd_stream st (Z.to_nat member_idx) (set_se_group_id (-1))
      else st)
    members st.

Definition find_or_create_stream_group (st : tstate) (dir : StreamDirection.t) (stride : Z)
    : Z * tstate :=
  let ts := current_timestamp st in
  let existing := find_stream_group st dir stride in
  if existing >=? 0 then
    (existing, upd_group st (Z.to_nat existing) (set_sg_last_seen_timestamp ts))
  else
  let free := find_first (fun g => negb (sg_valid g)) (stream_groups st) in
  if free >=? 0 then (free, upd_group st (Z.to_nat free) (fresh_group dir stride ts))
  else
  let oldest_idx := oldest_group (stream_groups st) 0 0 UINT64_MAX in
  let st1 := clear_member_group_ids (sg_members (stream_groups st !!! oldest_idx)) st in
  (Z.of_nat oldest_idx, upd_group st1 oldest_idx (fresh_group dir stride ts)).

Definition add_stream_to_group (st : tstate) (stream_idx group_idx : Z) : tstate :=
  if (group_idx <? 0) || (group_idx >=? Z.of_nat MAX_STREAM_GROUPS) then st else
  if (stream_idx <? 0) || (stream_idx >=? Z.of_nat STREAM_TABLE_SIZE) then st else
  let g := stream_groups st !!! Z.to_nat group_idx in
  let slot := find_first (fun m => m <? 0) (sg_members g) in
  if slot >=? 0 then
    let st1 := upd_group st (Z.to_nat group_idx)
                 (set_sg_members (<[Z.to_nat slot := stream_idx]> (sg_members g))
                                 (u32 (sg_member_count g + 1))) in
    upd_stream st1 (Z.to_nat stream_idx)
      (fun e => set_se_stream_class (sg_typical_class g) (set_se_group_id group_idx e))
  else
    (* group full: don't add but still track relationship *)
    upd_stream st (Z.to_nat stream_idx) (set_se_group_id group_idx).

Definition remove_stream_from_group (st : tstate) (stream_idx : Z) : tstate :=
  if (stream_idx <? 0) || (stream_idx >=? Z.of_nat STREAM_TABLE_SIZE) then st else
  let si := Z.to_nat stream_idx in
  let group_idx := se_group_id (stream_table st !!! si) in
  if (group_idx <? 0) || (group_idx >=? Z.of_nat MAX_STREAM_GROUPS)
  then upd_stream st si (set_se_group_id (-1)) else
  let gi := Z.to_nat group_idx in
  let g := stream_groups st !!! gi in
  let k := find_first (fun m => m =? stream_idx) (sg_members g) in
  let g1 := if k >=? 0
            then set_sg_members (<[Z.to_nat k := -1]> (sg_members g))
                   (if sg_member_count g >? 0 then sg_member_count g - 1
                    else sg_member_count g) g
            else g in
  let st1 := upd_group st gi (fun _ => g1) in
  let st2 := upd_stream st1 si (set_se_group_id (-1)) in
  (* invalidate empty groups *)
  if sg_member_count g1 =? 0 then upd_group st2 gi (set_sg_valid false) else st2.

Definition is_group_protected (st : tstate) (stream_idx : Z) : bool :=
  if (stream_idx <? 0) || (stream_idx >=? Z.of_nat STREAM_TABLE_SIZE) then false else
  let group_idx := se_group_id (stream_table st !!! Z.to_nat stream_idx) in
  if (group_idx <? 0) || (group_idx >=? Z.of_nat MAX_STREAM_GROUPS) then false else
  sg_member_count (stream_groups st !!! Z.to_nat group_idx) >=? 2.

(* ------------------------------------------------------------------------- *)
(** ** Classification (enhancement 2) *)

Definition classify_stream (e : TransformerStreamEntry) : StreamClass.t :=
  if se_stride e <=? DENSE_STRIDE_MAX then
    (if se_stream_length e >=? DENSE_LENGTH_MIN then StreamClass.DENSE
     else StreamClass.MEDIUM)
  else if se_stride e <=? MEDIUM_STRIDE_MAX then
    (if se_stream_length e >=? MEDIUM_LENGTH_MIN then StreamClass.MEDIUM
     else StreamClass.SPARSE)
  else StreamClass.SPARSE.

Definition get_prefetch_degree_for_class (cls : StreamClass.t) : Z :=
  match cls with
  | StreamClass.DENSE => DENSE_PREFETCH_DEGREE
  | StreamClass.MEDIUM => MEDIUM_PREFETCH_DEGREE
  | StreamClass.SPARSE => SPARSE_PREFETCH_DEGREE
  | StreamClass.UNKNOWN => BASE_PREFETCH_DEGREE
  end.

Definition update_stream_classification (st : tstate) (stream_idx : Z) : tstate :=
  if (stream_idx <? 0) || (stream_idx >=? Z.of_nat STREAM_TABLE_SIZE) then st else
  let si := Z.to_nat stream_idx in
  let e := stream_table st !!! si in
  if negb (se_valid e) then st else
  let cls := classify_stream e in
  let st1 := upd_stream st si (set_se_stream_class cls) in
  let group_idx := se_group_id e in
  if (group_idx >=? 0) && (group_idx <? Z.of_nat MAX_STREAM_GROUPS)
  then upd_group st1 (Z.to_nat group_idx) (set_sg_typical_class cls)
  else st1.

Definition reinforce_stream_confidence (st : tstate) (stream_idx : Z) : tstate :=
  if (stream_idx <? 0) || (stream_idx >=? Z.of_nat STREAM_TABLE_SIZE) then st else
  let si := Z.to_nat stream_idx in
  let e := stream_table st !!! si in
  if negb (se_valid e) then st else
  let st1 := upd_stream st si
               (set_se_confidence_score (Z.min (u32 (se_confidence_score e + 1)) MAX_CONFIDENCE)) in
  let group_idx := se_group_id e in
  if (group_idx >=? 0) && (group_idx <? Z.of_nat MAX_STREAM_GROUPS)
  then upd_group st1 (Z.to_nat group_idx)
         (fun g => set_sg_group_confidence (u64 (sg_group_confidence g + 1)) g)
  else st1.

(* ------------------------------------------------------------------------- *)
(** ** Phase detection (enhancement 4) *)

Definition try_phase_recovery (p : PhaseState) : PhaseState :=
  let r := u32 (ph_recovery_counter p + 1) in
  if r >=? PHASE_RECOVERY_WINDOW then
    {| ph_window_start_timestamp := ph_window_start_timestamp p;
       ph_streams_terminated_in_window := ph_streams_terminated_in_window p;
       ph_misses_in_window := ph_misses_in_window p;
       ph_successful_prefetches_in_window := ph_successful_prefetches_in_window p;
       ph_current_prefetch_degree := BASE_PREFETCH_DEGREE;
       ph_in_phase_transition := false; ph_recovery_counter := 0 |}
  else
    {| ph_window_start_timestamp := ph_window_start_timestamp p;
       ph_streams_terminated_in_window := ph_streams_terminated_in_window p;
       ph_misses_in_window := ph_misses_in_window p;
       ph_successful_prefetches_in_window := ph_successful_prefetches_in_window p;
       ph_current_prefetch_degree := ph_current_prefetch_degree p;
       ph_in_phase_transition := ph_in_phase_transition p; ph_recovery_counter := r |}.

Definition phase_update (stream_terminated : bool) (ts : Z) (p : PhaseState) : PhaseState :=
  let misses := u32 (ph_misses_in_window p + 1) in
  let terminated := if stream_terminated then u32 (ph_streams_terminated_in_window p + 1)
                    else ph_streams_terminated_in_window p in
  let p1 :=
    if misses >=? PHASE_WINDOW_SIZE then
      let enter := terminated >=? PHASE_TRANSITION_THRESHOLD in
      {| ph_window_start_timestamp := ts;
         ph_streams_terminated_in_window := 0;
         ph_misses_in_window := 0;
         ph_successful_prefetches_in_window := ph_successful_prefetches_in_window p;
         ph_current_prefetch_degree :=
           if enter then MIN_PREFETCH_DEGREE else ph_current_prefetch_degree p;
         ph_in_phase_transition := enter || ph_in_phase_transition p;
         ph_recovery_counter := if enter then 0 else ph_recovery_counter p |}
    else
      {| ph_window_start_timestamp := ph_window_start_timestamp p;
         ph_streams_terminated_in_window := terminated;
         ph_misses_in_window := misses;
         ph_successful_prefetches_in_window := ph_successful_prefetches_in_window p;
         ph_current_prefetch_degree := ph_current_prefetch_degree p;
         ph_in_phase_transition := ph_in_phase_transition p;
         ph_recovery_counter := ph_recovery_counter p |} in
  if ph_in_phase_transition p1 then try_phase_recovery p1 else p1.

Definition update_phase_state (st : tstate) (stream_terminated : bool) : tstate :=
  set_phase_state (phase_update stream_terminated (current_timestamp st) (phase_state st)) st.

(* ------------------------------------------------------------------------- *)
(** ** Cross-dimension control (enhancement 5) *)

Definition is_POSITIVE (d : StreamDirection.t) : bool :=
  StreamDirection.eqb d StreamDirection.POSITIVE.

Definition get_safe_lookahead (e : TransformerStreamEntry) : Z :=
  if se_consistent_stride_count e >=? STRIDE_STABILITY_THRESHOLD then
    match se_stream_class e with
    | StreamClass.DENSE => AGGRESSIVE_LOOKAHEAD
    | _ => BASE_PREFETCH_DEGREE
    end
  else CONSERVATIVE_LOOKAHEAD.

Definition is_at_stride_boundary (e : TransformerStreamEntry) : bool :=
  if is_POSITIVE (se_direction e)
  then offset (se_current_prefetch_block e) (se_stream_end_block e) <=? se_stride e
  else offset (se_stream_end_block e) (se_current_prefetch_block e) <=? se_stride e.

(* ------------------------------------------------------------------------- *)
(** ** Stream table *)

Definition find_stream_for_block (st : tstate) (block : Z) : Z :=
  find_first (fun e =>
      se_valid e &&
      (if is_POSITIVE (se_direction e)
       then (se_stream_start_block e <=? block) && (block <=? se_current_prefetch_block e)
       else (block <=? se_stream_start_block e) && (se_current_prefetch_block e <=? block)))
    (stream_table st).

Definition find_matching_inactive_stream (st : tstate) (dir : StreamDirection.t)
    (stride region_base : Z) : Z :=
  find_first (fun e =>
      se_valid e && negb (se_active e) &&
      StreamDirection.eqb (se_direction e) dir && (se_stride e =? stride) &&
      (Z.abs (offset region_base (compute_region_base (se_stream_start_block e)))
         <=? REGION_SIZE_BLOCKS * 2))
    (stream_table st).

Definition compute_eviction_priority (st : tstate) (stream_idx : Z) : Z :=
  if (stream_idx <? 0) || (stream_idx >=? Z.of_nat STREAM_TABLE_SIZE) then 0 else
  let e := stream_table st !!! Z.to_nat stream_idx in
  if negb (se_valid e) then INT_MAX else
  let priority := match se_stream_class e with
                  | StreamClass.DENSE => 30
                  | StreamClass.MEDIUM => 20
                  | StreamClass.SPARSE => 10
                  | StreamClass.UNKNOWN => 15
                  end in
  let priority := priority + to_i32 (u32 (se_confidence_score e * 2)) in
  let group_idx := se_group_id e in
  let priority :=
    if (group_idx >=? 0) && (group_idx <? Z.of_nat MAX_STREAM_GROUPS)
    then priority +
         to_i32 (u32 (sg_member_count (stream_groups st !!! Z.to_nat group_idx) * 3))
    else priority in
  let priority := if se_active e then priority + 10 else priority in
  let age := u64 (current_timestamp st - se_last_trigger_timestamp e) in
  let priority := if age >? DEAD_STREAM_THRESHOLD / 2 then priority - 5 else priority in
  if age >? DEAD_STREAM_THRESHOLD then priority - 10 else priority.

Fixpoint select_victim_from (st : tstate) (l : list TransformerStreamEntry) (i : nat)
    (victim_idx lowest_priority : Z) : Z :=
  match l with
  | [] => victim_idx
  | e :: l' =>
      if negb (se_valid e) then Z.of_nat i else
      let priority := compute_eviction_priority st (Z.of_nat i) in
      if priority <? lowest_priority
      then select_victim_from st l' (S i) (Z.of_nat i) priority
      else select_victim_from st l' (S i) victim_idx lowest_priority
  end.

Definition select_victim_stream (st : tstate) : Z :=
  select_victim_from st (stream_table st) 0 (-1) INT_MAX.

Definition terminate_stream (st : tstate) (stream_idx : Z) : tstate :=
  if (stream_idx <? 0) || (stream_idx >=? Z.of_nat STREAM_TABLE_SIZE) then st else
  let si := Z.to_nat stream_idx in
  let e := stream_table st !!! si in
  if negb (se_valid e) then st else
  let st1 := record_pattern st e in
  let st2 := remove_stream_from_group st1 stream_idx in
  let st3 := update_phase_state st2 true in
  upd_stream st3 si (fun e => set_se_active false (set_se_valid false e)).

(** one iteration of the loop of [remove_dead_streams] *)
Definition remove_dead_step (st : tstate) (i : nat) : tstate :=
  let e := stream_table st !!! i in
  if negb (se_valid e) then st else
  let age := u64 (current_timestamp st - se_last_trigger_timestamp e) in
  let is_dead := (age >? DEAD_STREAM_THRESHOLD) &&
                 (se_stream_length e <? SHORT_STREAM_THRESHOLD) in
  let is_dead :=
    if is_dead && is_group_protected st (Z.of_nat i)
    then (if se_confidence_score e >=? FAST_TRACK_CONFIDENCE then false else is_dead)
    else is_dead in
  if is_dead then terminate_stream st (Z.of_nat i) else st.

Definition remove_dead_streams (st : tstate) : tstate :=
  fold_left remove_dead_step (seq 0 STREAM_TABLE_SIZE) st.

Definition first_invalid_stream (st : tstate) : Z :=
  find_first (fun e => negb (se_valid e)) (stream_table st).

Definition allocate_stream_entry (st : tstate) : Z * tstate :=
  let i := first_invalid_stream st in
  if i >=? 0 then (i, st) else
  let st1 := remove_dead_streams st in
  let i := first_invalid_stream st1 in
  if i >=? 0 then (i, st1) else
  let victim := select_victim_stream st1 in
  if victim >=? 0 then (victim, terminate_stream st1 victim) else (victim, st1).

(* ------------------------------------------------------------------------- *)
(** ** Prefetch generation *)

(** [current_prefetch_block = next; stream_length++; consistent_stride_count++;] *)
Definition se_advance (next : Z) (e : TransformerStreamEntry) : TransformerStreamEntry :=
  {| se_valid := se_valid e; se_active := se_active e;
     se_stream_start_block := se_stream_start_block e;
     se_stream_end_block := se_stream_end_block e;
     se_current_prefetch_block := next;
     se_direction := se_direction e; se_stride := se_stride e;
     se_last_trigger_timestamp := se_last_trigger_timestamp e;
     se_stream_length := u32 (se_stream_length e + 1);
     se_stream_class := se_stream_class e;
     se_reactivation_count := se_reactivation_count e;
     se_confidence_score := se_confidence_score e;
     se_accesses_in_window := se_accesses_in_window e;
     se_window_start_timestamp := se_window_start_timestamp e;
     se_group_id := se_group_id e;
     se_consistent_stride_count := u32 (se_consistent_stride_count e + 1) |}.

(** The loop [for (i = 0; i < actual_degree; ++i) { ... }] of [generate_prefetches],
    followed by [entry.last_trigger_timestamp = current_timestamp] when the loop is
    left by its condition or by [break]; the [return]s skip that assignment. *)
Fixpoint prefetch_loop (h : host) (fuel : nat) (i : Z) (si : nat) (st : tstate) : tstate :=
  let after_loop st :=
    upd_stream st si (set_se_last_trigger_timestamp (current_timestamp st)) in
  match fuel with
  | O => after_loop st
  | S fuel' =>
      let e := stream_table st !!! si in
      let next_block :=
        blk_add (se_current_prefetch_block e)
                (StreamDirection.val (se_direction e) * se_stride e) in
      let out_of_bounds :=
        if is_POSITIVE (se_direction e) then se_stream_end_block e <? next_block
        else next_block <? se_stream_end_block e in
      if out_of_bounds then upd_stream st si (set_se_active false) else
      if is_at_stride_boundary e && (i >? 0) then after_loop st else
      let mshr_ratio := mshr_occupancy_ratio h in
      if negb (Qle_bool mshr_ratio (3 # 4)) then st else
      if prefetch_line_accepts h next_block then
        let st1 := upd_stream st si (se_advance next_block) in
        let st2 := if se_stream_length (stream_table st1 !!! si) mod 8 =? 0
                   then update_stream_classification st1 (Z.of_nat si) else st1 in
        prefetch_loop h fuel' (i + 1) si st2
      else st
  end.

Definition generate_prefetches (h : host) (st : tstate) (si : nat) : tstate :=
  let e := stream_table st !!! si in
  if negb (se_valid e && se_active e) then st else
  let phase_degree := ph_current_prefetch_degree (phase_state st) in
  let class_degree := get_prefetch_degree_for_class (se_stream_class e) in
  let safe_lookahead := get_safe_lookahead e in
  let actual_degree := Z.min phase_degree (Z.min class_degree safe_lookahead) in
  let actual_degree :=
    if ph_in_phase_transition (phase_state st) then Z.min actual_degree MIN_PREFETCH_DEGREE
    else actual_degree in
  prefetch_loop h (Z.to_nat actual_degree) 0 si st.

(* ------------------------------------------------------------------------- *)
(** ** Stream creation and re-launch *)

Definition create_stream (h : host) (st : tstate) (trained : TrainingEntry) : tstate :=
  let '(idx, st1) := allocate_stream_entry st in
  if idx <? 0 then st1 else
  let i := Z.to_nat idx in
  let e0 := stream_table st1 !!! i in
  let e :=
    {| se_valid := true; se_active := true;
       se_stream_start_block := te_last_miss_block trained;
       se_stream_end_block :=
         blk_add (te_last_miss_block trained)
                 (StreamDirection.val (te_direction trained) * te_stride trained * 64);
       se_current_prefetch_block := te_last_miss_block trained;
       se_direction := te_direction trained; se_stride := te_stride trained;
       se_last_trigger_timestamp := current_timestamp st1;
       se_stream_length := 0; se_stream_class := se_stream_class e0;
       se_reactivation_count := 0;
       se_confidence_score := Z.max 1 (te_pattern_confidence trained);
       se_accesses_in_window := se_accesses_in_window e0;
       se_window_start_timestamp := se_window_start_timestamp e0;
       se_group_id := se_group_id e0;
       se_consistent_stride_count := 0 |} in
  let st2 := upd_stream st1 i (fun _ => set_se_stream_class (classify_stream e) e) in
  let '(group_idx, st3) :=
    find_or_create_stream_group st2 (te_direction trained) (te_stride trained) in
  let st4 := add_stream_to_group st3 idx group_idx in
  generate_prefetches h st4 i.

Definition reactivate_stream (h : host) (st : tstate) (i : nat) (trigger_block : Z)
    : tstate :=
  let e := stream_table st !!! i in
  let new_end :=
    blk_add trigger_block (StreamDirection.val (se_direction e) * se_stride e * 64) in
  let end_block :=
    if is_POSITIVE (se_direction e)
    then (if se_stream_end_block e <? new_end then new_end else se_stream_end_block e)
    else (if new_end <? se_stream_end_block e then new_end else se_stream_end_block e) in
  let e' :=
    {| se_valid := se_valid e; se_active := true;
       se_stream_start_block := se_stream_start_block e;
       se_stream_end_block := end_block;
       se_current_prefetch_block := trigger_block;
       se_direction := se_direction e; se_stride := se_stride e;
       se_last_trigger_timestamp := current_timestamp st;
       se_stream_length := se_stream_length e; se_stream_class := se_stream_class e;
       se_reactivation_count := u32 (se_reactivation_count e + 1);
       se_confidence_score :=
         Z.min (u32 (se_confidence_score e + CONFIDENCE_BOOST_ON_REUSE)) MAX_CONFIDENCE;
       se_accesses_in_window := se_accesses_in_window e;
       se_window_start_timestamp := se_window_start_timestamp e;
       se_group_id := se_group_id e;
       se_consistent_stride_count := se_consistent_stride_count e |} in
  let st1 := upd_stream st i (fun _ => e') in
  let st2 :=
    if se_group_id e' <? 0 then
      let '(group_idx, st') := find_or_create_stream_group st1 (se_direction e') (se_stride e') in
      add_stream_to_group st' (Z.of_nat i) group_idx
    else st1 in
  generate_prefetches h st2 i.

Definition try_relaunch_stream (h : host) (st : tstate) (miss_block : Z)
    (dir : StreamDirection.t) (stride : Z) : bool * tstate :=
  let region := compute_region_base miss_block in
  let match_idx := find_matching_inactive_stream st dir stride region in
  if match_idx >=? 0 then (true, reactivate_stream h st (Z.to_nat match_idx) miss_block)
  else (false, st).

(* ------------------------------------------------------------------------- *)
(** ** Prefetcher interface *)

Definition set_te_valid (b : bool) (e : TrainingEntry) : TrainingEntry :=
  {| te_valid := b; te_region_base := te_region_base e;
     te_last_miss_block := te_last_miss_block e;
     te_second_last_miss_block := te_second_last_miss_block e;
     te_third_last_miss_block := te_third_last_miss_block e;
     te_miss_count := te_miss_count e; te_direction := te_direction e;
     te_stride := te_stride e; te_last_access_timestamp := te_last_access_timestamp e;
     te_pattern_confidence := te_pattern_confidence e |}.

(** the assignments of the stream-hit path of [prefetcher_cache_operate] *)
Definition se_trigger (ts : Z) (e : TransformerStreamEntry) : TransformerStreamEntry :=
  {| se_valid := se_valid e; se_active := true;
     se_stream_start_block := se_stream_start_block e;
     se_stream_end_block := se_stream_end_block e;
     se_current_prefetch_block := se_current_prefetch_block e;
     se_direction := se_direction e; se_stride := se_stride e;
     se_last_trigger_timestamp := ts;
     se_stream_length := se_stream_length e; se_stream_class := se_stream_class e;
     se_reactivation_count :=
       if se_active e then se_reactivation_count e else u32 (se_reactivation_count e + 1);
     se_confidence_score := se_confidence_score e;
     se_accesses_in_window := u32 (se_accesses_in_window e + 1);
     se_window_start_timestamp := se_window_start_timestamp e;
     se_group_id := se_group_id e;
     se_consistent_stride_count := se_consistent_stride_count e |}.

Definition prefetcher_cache_operate (h : host) (st : tstate) (addr ip : Z)
    (cache_hit useful_prefetch : bool) (type : access_type) (metadata_in : Z)
    : tstate * Z :=
  (* training on cache misses only *)
  if cache_hit then (st, metadata_in) else
  let ts := u64 (current_timestamp st + 1) in
  let st := set_counters ts (cleanup_counter st) st in
  let st := update_phase_state st false in
  let cc := u64 (cleanup_counter st + 1) in
  let st := set_counters ts cc st in
  let st := if cc >=? CLEANUP_INTERVAL then set_counters ts 0 (remove_dead_streams st)
            else st in
  let miss_block := block_of_address addr in
  let region_base := compute_region_base miss_block in
  let stream_idx := find_stream_for_block st miss_block in
  if stream_idx >=? 0 then
    let st := upd_stream st (Z.to_nat stream_idx) (se_trigger ts) in
    let st := reinforce_stream_confidence st stream_idx in
    (generate_prefetches h st (Z.to_nat stream_idx), metadata_in)
  else
  let found := find_training_entry st region_base in
  let '(train_idx, st) :=
    if found <? 0 then allocate_training_entry st region_base
    else (Z.to_nat found, st) in
  let st := update_training_entry st train_idx miss_block in
  let trained := training_table st !!! train_idx in
  let ready := (te_miss_count trained >=? CONFIRMATION_THRESHOLD) ||
               ((te_miss_count trained >=? 2) && can_fast_track_training trained) in
  if ready && negb (StreamDirection.eqb (te_direction trained) StreamDirection.UNKNOWN) &&
     (te_stride trained >=? 1) then
    let '(relaunched, st) :=
      try_relaunch_stream h st miss_block (te_direction trained) (te_stride trained) in
    let st := if relaunched then st else create_stream h st trained in
    (upd_training st train_idx (set_te_valid false), metadata_in)
  else (st, metadata_in).

Definition prefetcher_cache_fill (st : tstate) (addr set way : Z) (prefetch : bool)
    (evicted_addr metadata_in : Z) : tstate * Z :=
  (st, metadata_in).

(** background prefetching for active streams *)
Definition prefetcher_cycle_operate (h : host) (st : tstate) : tstate :=
  fold_left (fun st i =>
      let e := stream_table st !!! i in
      if se_valid e && se_active e then generate_prefetches h st i else st)
    (seq 0 STREAM_TABLE_SIZE) st.

(** The states the prefetcher can be in: after [prefetcher_initialize], then any
    sequence of host calls. *)
Inductive treachable : tstate -> Prop :=
| treach_init : treachable tstate_init
| treach_operate h st addr ip hit useful type md :
    treachable st ->
    treachable (fst (prefetcher_cache_operate h st addr ip hit useful type md))
| treach_fill st addr set way pf evicted md :
    treachable st -> treachable (fst (prefetcher_cache_fill st addr set way pf evicted md))
| treach_cycle h st : treachable st -> treachable (prefetcher_cycle_operate h st).

(** A host that accepts every prefetch and has an idle MSHR. *)
Definition idle_host : host :=
  {| mshr_occupancy_ratio := 0; prefetch_line_accepts := fun _ => true; dram_bw := 0 |}.

(** demand misses at the given block numbers, one [prefetcher_cache_operate] each *)
Definition miss_run (h : host) (blocks : list Z) (st : tstate) : tstate :=
  fold_left (fun st b =>
      fst (prefetcher_cache_operate h st (Z.shiftl b LOG2_BLOCK_SIZE) 0 false false LOAD 0))
    blocks st.

(* ========================================================================= *)
(** * The bandwidth-aware selector [transformer_pythia_selector_bw] *)

(** The prefetcher interface the selector drives: [prefetcher_cache_operate],
    [prefetcher_cache_fill] and [prefetcher_cycle_operate] of a module. *)
Class Prefetcher (S : Type) := {
  pf_cache_operate : host -> S -> Z -> Z -> bool -> bool -> access_type -> Z -> S * Z;
  pf_cache_fill : host -> S -> Z -> Z -> Z -> bool -> Z -> Z -> S * Z;
  pf_cycle_operate : host -> S -> S
}.

#[global] Instance transformer_stream_prefetcher : Prefetcher tstate := {
  pf_cache_operate := prefetcher_cache_operate;
  pf_cache_fill := fun _ st addr set way pf evicted md =>
                     prefetcher_cache_fill st addr set way pf evicted md;
  pf_cycle_operate := prefetcher_cycle_operate
}.

Definition BW_UTIL_THRESHOLD : Q := 9 # 10.
Definition MIN_ACCURACY_THRESHOLD : Q := 1 # 10.
Definition METADATA_TRANSFORMER_BIT : Z := Z.shiftl 1 30.
Definition METADATA_PYTHIA_BIT : Z := Z.shiftl 1 31.
Definition METADATA_SOURCE_MASK : Z := Z.lor METADATA_TRANSFORMER_BIT METADATA_PYTHIA_BIT.
(** [~METADATA_SOURCE_MASK] as a [uint32_t] *)
Definition METADATA_PRESERVE_MASK : Z := Z.land (Z.lnot METADATA_SOURCE_MASK) (2 ^ 32 - 1).
Definition POLICY_MAX : Z := 1024.
Definition POLICY_MIN : Z := -1024.

(** [x < y] and [x > y] on doubles *)
Definition qltb (x y : Q) : bool := negb (Qle_bool y x).

Record sampler_entry := {
  transformer_useful : Z; transformer_issued : Z;
  pythia_useful : Z; pythia_issued : Z
}.
(** [struct dedicated_set_stats] has the same four counters. *)
Definition dedicated_set_stats : Type := sampler_entry.

Definition zero_stats : sampler_entry :=
  {| transformer_useful := 0; transformer_issued := 0; pythia_useful := 0; pythia_issued := 0 |}.
#[global] Instance sampler_entry_inhabited : Inhabited sampler_entry := populate zero_stats.

Definition incr_transformer_useful (s : sampler_entry) :=
  {| transformer_useful := u64 (transformer_useful s + 1); transformer_issued := transformer_issued s;
     pythia_useful := pythia_useful s; pythia_issued := pythia_issued s |}.
Definition incr_transformer_issued (s : sampler_entry) :=
  {| transformer_useful := transformer_useful s; transformer_issued := u64 (transformer_issued s + 1);
     pythia_useful := pythia_useful s; pythia_issued := pythia_issued s |}.
Definition incr_pythia_useful (s : sampler_entry) :=
  {| transformer_useful := transformer_useful s; transformer_issued := transformer_issued s;
     pythia_useful := u64 (pythia_useful s + 1); pythia_issued := pythia_issued s |}.
Definition incr_pythia_issued (s : sampler_entry) :=
  {| transformer_useful := transformer_useful s; transformer_issued := transformer_issued s;
     pythia_useful := pythia_useful s; pythia_issued := u64 (pythia_issued s + 1) |}.

(** Set dueling as a function of the cache geometry. *)
Definition get_set_sample_rate (NUM_SET : Z) : Z :=
  if (NUM_SET <? 1024) && (NUM_SET >=? 256) then 16
  else if NUM_SET >=? 64 then 8
  else if NUM_SET >=? 8 then 4
  else 32.

(** [champsim::lg2] *)
Definition lg2 (n : Z) : Z := Z.log2 n.

Definition get_set_sample_category (NUM_SET set : Z) : Z :=
  let r := get_set_sample_rate NUM_SET in
  let m := r - 1 in
  Z.land (r + Z.land set m - Z.land (Z.shiftr set (lg2 r)) m) m.

Definition get_num_sampled_sets (NUM_SET : Z) : Z := Z.quot NUM_SET (get_set_sample_rate NUM_SET).

Definition is_sampler_set (NUM_SET s : Z) : bool := get_set_sample_category NUM_SET s =? 0.
Definition is_transformer_dedicated_set (NUM_SET s : Z) : bool :=
  get_set_sample_category NUM_SET s =? 1.
Definition is_pythia_dedicated_set (NUM_SET s : Z) : bool :=
  get_set_sample_category NUM_SET s =? 2.

Definition tag_metadata_transformer (m : Z) : Z :=
  Z.lor (Z.land m METADATA_PRESERVE_MASK) METADATA_TRANSFORMER_BIT.
Definition tag_metadata_pythia (m : Z) : Z :=
  Z.lor (Z.land m METADATA_PRESERVE_MASK) METADATA_PYTHIA_BIT.

Section Selector.
Context {T P : Type} `{PT : Prefetcher T} `{PP : Prefetcher P}.
(** [std::log] *)
Variable ln : Q -> Q.

Record selector := {
    pref_transformer : T;
    pref_pythia : P;
    NUM_SET : Z;
    NUM_WAY : Z;
    prefetch_allowed_count : Z;
    prefetch_throttled_count : Z;
    high_bw_events : Z;
    low_accuracy_events : Z;
    samplers : list sampler_entry;
    dedicated_stats : dedicated_set_stats;
    policy_selector : Z;
    transformer_selected_count : Z;
    pythia_selected_count : Z;
    sampler_transformer_wins : Z;
    sampler_pythia_wins : Z;
    (** the function-local [static uint64_t cycles] of [prefetcher_cycle_operate] *)
    cycles : Z
  }.
Definition set_pref_transformer (pref_transformer' : T) (s : selector) : selector :=
{| pref_transformer := pref_transformer';
     pref_pythia := pref_pythia s;
     NUM_SET := NUM_SET s;
     NUM_WAY := NUM_WAY s;
     prefetch_allowed_count := prefetch_allowed_count s;
     prefetch_throttled_count := prefetch_throttled_count s;
     high_bw_events := high_bw_events s;
     low_accuracy_events := low_accuracy_events s;
     samplers := samplers s;
     dedicated_stats := dedicated_stats s;
     policy_selector := policy_selector s;
     transformer_selected_count := transformer_selected_count s;
     pythia_selected_count := pythia_selected_count s;
     sampler_transformer_wins := sampler_transformer_wins s;
     sampler_pythia_wins := sampler_pythia_wins s;
     cycles := cycles s |}.

Definition set_pref_pythia (pref_pythia' : P) (s : selector) : selector :=
{| pref_transformer := pref_transformer s;
     pref_pythia := pref_pythia';
     NUM_SET := NUM_SET s;
     NUM_WAY := NUM_WAY s;
     prefetch_allowed_count := prefetch_allowed_count s;
     prefetch_throttled_count := prefetch_throttled_count s;
     high_bw_events := high_bw_events s;
     low_accuracy_events := low_accuracy_events s;
     samplers := samplers s;
     dedicated_stats := dedicated_stats s;
     policy_selector := policy_selector s;
     transformer_selected_count := transformer_selected_count s;
     pythia_selected_count := pythia_selected_count s;
     sampler_transformer_wins := sampler_transformer_wins s;
     sampler_pythia_wins := sampler_pythia_wins s;
     cycles := cycles s |}.

Definition set_prefetch_allowed_count (prefetch_allowed_count' : Z) (s : selector) : selector :=
{| pref_transformer := pref_transformer s;
     pref_pythia := pref_pythia s;
     NUM_SET := NUM_SET s;
     NUM_WAY := NUM_WAY s;
     prefetch_allowed_count := prefetch_allowed_count';
     prefetch_throttled_count := prefetch_throttled_count s;
     high_bw_events := high_bw_events s;
     low_accuracy_events := low_accuracy_events s;
     samplers := samplers s;
     dedicated_stats := dedicated_stats s;
     policy_selector := policy_selector s;
     transformer_selected_count := transformer_selected_count s;
     pythia_selected_count := pythia_selected_count s;
     sampler_transformer_wins := sampler_transformer_wins s;
     sampler_pythia_wins := sampler_pythia_wins s;
     cycles := cycles s |}.

Definition set_prefetch_throttled_count (prefetch_throttled_count' : Z) (s : selector) : selector :=
{| pref_transformer := pref_transformer s;
     pref_pythia := pref_pythia s;
     NUM_SET := NUM_SET s;
     NUM_WAY := NUM_WAY s;
     prefetch_allowed_count := prefetch_allowed_count s;
     prefetch_throttled_count := prefetch_throttled_count';
     high_bw_events := high_bw_events s;
     low_accuracy_events := low_accuracy_events s;
     samplers := samplers s;
     dedicated_stats := dedicated_stats s;
     policy_selector := policy_selector s;
     transformer_selected_count := transformer_selected_count s;
     pythia_selected_count := pythia_selected_count s;
     sampler_transformer_wins := sampler_transformer_wins s;
     sampler_pythia_wins := sampler_pythia_wins s;
     cycles := cycles s |}.

Definition set_high_bw_events (high_bw_events' : Z) (s : selector) : selector :=
{| pref_transformer := pref_transformer s;
     pref_pythia := pref_pythia s;
     NUM_SET := NUM_SET s;
     NUM_WAY := NUM_WAY s;
     prefetch_allowed_count := prefetch_allowed_count s;
     prefetch_throttled_count := prefetch_throttled_count s;
     high_bw_events := high_bw_events';
     low_accuracy_events := low_accuracy_events s;
     samplers := samplers s;
     dedicated_stats := dedicated_stats s;
     policy_selector := policy_selector s;
     transformer_selected_count := transformer_selected_count s;
     pythia_selected_count := pythia_selected_count s;
     sampler_transformer_wins := sampler_transformer_wins s;
     sampler_pythia_wins := sampler_pythia_wins s;
     cycles := cycles s |}.

Definition set_low_accuracy_events (low_accuracy_events' : Z) (s : selector) : selector :=
{| pref_transformer := pref_transformer s;
     pref_pythia := pref_pythia s;
     NUM_SET := NUM_SET s;
     NUM_WAY := NUM_WAY s;
     prefetch_allowed_count := prefetch_allowed_count s;
     prefetch_throttled_count := prefetch_throttled_count s;
     high_bw_events := high_bw_events s;
     low_accuracy_events := low_accuracy_events';
     samplers := samplers s;
     dedicated_stats := dedicated_stats s;
     policy_selector := policy_selector s;
     transformer_selected_count := transformer_selected_count s;
     pythia_selected_count := pythia_selected_count s;
     sampler_transformer_wins := sampler_transformer_wins s;
     sampler_pythia_wins := sampler_pythia_wins s;
     cycles := cycles s |}.

Definition set_samplers (samplers' : list sampler_entry) (s : selector) : selector :=
{| pref_transformer := pref_transformer s;
     pref_pythia := pref_pythia s;
     NUM_SET := NUM_SET s;
     NUM_WAY := NUM_WAY s;
     prefetch_allowed_count := prefetch_allowed_count s;
     prefetch_throttled_count := prefetch_throttled_count s;
     high_bw_events := high_bw_events s;
     low_accuracy_events := low_accuracy_events s;
     samplers := samplers';
     dedicated_stats := dedicated_stats s;
     policy_selector := policy_selector s;
     transformer_selected_count := transformer_selected_count s;
     pythia_selected_count := pythia_selected_count s;
     sampler_transformer_wins := sampler_transformer_wins s;
     sampler_pythia_wins := sampler_pythia_wins s;
     cycles := cycles s |}.

Definition set_dedicated_stats (dedicated_stats' : dedicated_set_stats) (s : selector) : selector :=
{| pref_transformer := pref_transformer s;
     pref_pythia := pref_pythia s;
     NUM_SET := NUM_SET s;
     NUM_WAY := NUM_WAY s;
     prefetch_allowed_count := prefetch_allowed_count s;
     prefetch_throttled_count := prefetch_throttled_count s;
     high_bw_events := high_bw_events s;
     low_accuracy_events := low_accuracy_events s;
     samplers := samplers s;
     dedicated_stats := dedicated_stats';
     policy_selector := policy_selector s;
     transformer_selected_count := transformer_selected_count s;
     pythia_selected_count := pythia_selected_count s;
     sampler_transformer_wins := sampler_transformer_wins s;
     sampler_pythia_wins := sampler_pythia_wins s;
     cycles := cycles s |}.

Definition set_policy_selector (policy_selector' : Z) (s : selector) : selector :=
{| pref_transformer := pref_transformer s;
     pref_pythia := pref_pythia s;
     NUM_SET := NUM_SET s;
     NUM_WAY := NUM_WAY s;
     prefetch_allowed_count := prefetch_allowed_count s;
     prefetch_throttled_count := prefetch_throttled_count s;
     high_bw_events := high_bw_events s;
     low_accuracy_events := low_accuracy_events s;
     samplers := samplers s;
     dedicated_stats := dedicated_stats s;
     policy_selector := policy_selector';
     transformer_selected_count := transformer_selected_count s;
     pythia_selected_count := pythia_selected_count s;
     sampler_transformer_wins := sampler_transformer_wins s;
     sampler_pythia_wins := sampler_pythia_wins s;
     cycles := cycles s |}.

Definition set_transformer_selected_count (transformer_selected_count' : Z) (s : selector) : selector :=
{| pref_transformer := pref_transformer s;
     pref_pythia := pref_pythia s;
     NUM_SET := NUM_SET s;
     NUM_WAY := NUM_WAY s;
     prefetch_allowed_count := prefetch_allowed_count s;
     prefetch_throttled_count := prefetch_throttled_count s;
     high_bw_events := high_bw_events s;
     low_accuracy_events := low_accuracy_events s;
     samplers := samplers s;
     dedicated_stats := dedicated_stats s;
     policy_selector := policy_selector s;
     transformer_selected_count := transformer_selected_count';
     pythia_selected_count := pythia_selected_count s;
     sampler_transformer_wins := sampler_transformer_wins s;
     sampler_pythia_wins := sampler_pythia_wins s;
     cycles := cycles s |}.

Definition set_pythia_selected_count (pythia_selected_count' : Z) (s : selector) : selector :=
{| pref_transformer := pref_transformer s;
     pref_pythia := pref_pythia s;
     NUM_SET := NUM_SET s;
     NUM_WAY := NUM_WAY s;
     prefetch_allowed_count := prefetch_allowed_count s;
     prefetch_throttled_count := prefetch_throttled_count s;
     high_bw_events := high_bw_events s;
     low_accuracy_events := low_accuracy_events s;
     samplers := samplers s;
     dedicated_stats := dedicated_stats s;
     policy_selector := policy_selector s;
     transformer_selected_count := transformer_selected_count s;
     pythia_selected_count := pythia_selected_count';
     sampler_transformer_wins := sampler_transformer_wins s;
     sampler_pythia_wins := sampler_pythia_wins s;
     cycles := cycles s |}.

Definition set_sampler_transformer_wins (sampler_transformer_wins' : Z) (s : selector) : selector :=
{| pref_transformer := pref_transformer s;
     pref_pythia := pref_pythia s;
     NUM_SET := NUM_SET s;
     NUM_WAY := NUM_WAY s;
     prefetch_allowed_count := prefetch_allowed_count s;
     prefetch_throttled_count := prefetch_throttled_count s;
     high_bw_events := high_bw_events s;
     low_accuracy_events := low_accuracy_events s;
     samplers := samplers s;
     dedicated_stats := dedicated_stats s;
     policy_selector := policy_selector s;
     transformer_selected_count := transformer_selected_count s;
     pythia_selected_count := pythia_selected_count s;
     sampler_transformer_wins := sampler_transformer_wins';
     sampler_pythia_wins := sampler_pythia_wins s;
     cycles := cycles s |}.

Definition set_sampler_pythia_wins (sampler_pythia_wins' : Z) (s : selector) : selector :=
{| pref_transformer := pref_transformer s;
     pref_pythia := pref_pythia s;
     NUM_SET := NUM_SET s;
     NUM_WAY := NUM_WAY s;
     prefetch_allowed_count := prefetch_allowed_count s;
     prefetch_throttled_count := prefetch_throttled_count s;
     high_bw_events := high_bw_events s;
     low_accuracy_events := low_accuracy_events s;
     samplers := samplers s;
     dedicated_stats := dedicated_stats s;
     policy_selector := policy_selector s;
     transformer_selected_count := transformer_selected_count s;
     pythia_selected_count := pythia_selected_count s;
     sampler_transformer_wins := sampler_transformer_wins s;
     sampler_pythia_wins := sampler_pythia_wins';
     cycles := cycles s |}.

Definition set_cycles (cycles' : Z) (s : selector) : selector :=
{| pref_transformer := pref_transformer s;
     pref_pythia := pref_pythia s;
     NUM_SET := NUM_SET s;
     NUM_WAY := NUM_WAY s;
     prefetch_allowed_count := prefetch_allowed_count s;
     prefetch_throttled_count := prefetch_throttled_count s;
     high_bw_events := high_bw_events s;
     low_accuracy_events := low_accuracy_events s;
     samplers := samplers s;
     dedicated_stats := dedicated_stats s;
     policy_selector := policy_selector s;
     transformer_selected_count := transformer_selected_count s;
     pythia_selected_count := pythia_selected_count s;
     sampler_transformer_wins := sampler_transformer_wins s;
     sampler_pythia_wins := sampler_pythia_wins s;
     cycles := cycles' |}.

Definition get_bandwidth_utilization (h : host) : Q := inject_Z (dram_bw h) / 16.

(** Sum of the four counter kinds, accumulated in [uint64_t]. *)
Definition get_prefetch_accuracy (s : selector) : Q :=
  let d := dedicated_stats s in
  let '(useful, issued) :=
    fold_left (fun '(u, i) (e : sampler_entry) =>
                 (u64 (u + u64 (transformer_useful e + pythia_useful e)),
                  u64 (i + u64 (transformer_issued e + pythia_issued e))))
              (samplers s)
              (u64 (transformer_useful d + pythia_useful d),
               u64 (transformer_issued d + pythia_issued d)) in
  if negb (issued =? 0) then inject_Z useful / inject_Z issued else 1.

Definition should_allow_prefetch (h : host) (s : selector) : bool * selector :=
  let bw := get_bandwidth_utilization h in
  let acc := get_prefetch_accuracy s in
  let bw_ok := qltb bw BW_UTIL_THRESHOLD in
  let acc_ok := qltb bw acc || qltb MIN_ACCURACY_THRESHOLD acc in
  let s1 := if negb bw_ok then set_high_bw_events (u64 (high_bw_events s + 1)) s else s in
  let s2 := if negb acc_ok then set_low_accuracy_events (u64 (low_accuracy_events s1 + 1)) s1 else s1 in
  let allow := bw_ok && acc_ok in
  if allow then (allow, set_prefetch_allowed_count (u64 (prefetch_allowed_count s2 + 1)) s2)
  else (allow, set_prefetch_throttled_count (u64 (prefetch_throttled_count s2 + 1)) s2).

Definition use_transformer_for_set (s : selector) (set : Z) : bool :=
  if is_transformer_dedicated_set (NUM_SET s) set then true
  else if is_pythia_dedicated_set (NUM_SET s) set || is_sampler_set (NUM_SET s) set
  then negb (get_set_sample_category (NUM_SET s) set =? 2)
  else policy_selector s >=? 0.

Definition use_pythia_for_set (s : selector) (set : Z) : bool := negb (use_transformer_for_set s set).

(** The counter attribution shared by [prefetcher_cache_operate] (useful
    counters) and [prefetcher_cache_fill] (issued counters): [incr_t] and
    [incr_p] bump the Transformer and the Pythia counter of an entry. *)
Definition credit (incr_t incr_p : sampler_entry -> sampler_entry) (s : selector) (set : Z)
  : selector :=
  if is_sampler_set (NUM_SET s) set then
    let idx := Z.quot set (get_set_sample_rate (NUM_SET s)) in
    if idx <? Z.of_nat (length (samplers s)) then
      let i := Z.to_nat idx in
      set_samplers (<[i := incr_t (samplers s !!! i)]> (samplers s)) s
    else s
  else if is_transformer_dedicated_set (NUM_SET s) set then
    set_dedicated_stats (incr_t (dedicated_stats s)) s
  else if is_pythia_dedicated_set (NUM_SET s) set then
    set_dedicated_stats (incr_p (dedicated_stats s)) s
  else if policy_selector s >=? 0 then set_dedicated_stats (incr_t (dedicated_stats s)) s
  else set_dedicated_stats (incr_p (dedicated_stats s)) s.

Definition selector_cache_operate (h : host) (s : selector) (addr ip : Z)
  (cache_hit useful_prefetch : bool) (type : access_type) (metadata_in : Z) : selector * Z :=
  let set := Z.land (Z.shiftr addr LOG2_BLOCK_SIZE) (NUM_SET s - 1) in
  let s1 := if useful_prefetch && cache_hit
            then credit incr_transformer_useful incr_pythia_useful s set else s in
  let '(allow, s2) := should_allow_prefetch h s1 in
  if negb allow then (s2, metadata_in)
  else if is_sampler_set (NUM_SET s2) set || use_transformer_for_set s2 set then
    let s3 := set_transformer_selected_count (u64 (transformer_selected_count s2 + 1)) s2 in
    let '(t', md) := pf_cache_operate h (pref_transformer s3) addr ip cache_hit useful_prefetch
                       type metadata_in in
    (set_pref_transformer t' s3, tag_metadata_transformer md)
  else
    let s3 := set_pythia_selected_count (u64 (pythia_selected_count s2 + 1)) s2 in
    let '(p', md) := pf_cache_operate h (pref_pythia s3) addr ip cache_hit useful_prefetch
                       type metadata_in in
    (set_pref_pythia p' s3, tag_metadata_pythia md).

Definition selector_cache_fill (h : host) (s : selector) (addr set way : Z) (prefetch : bool)
  (evicted_addr metadata_in : Z) : selector * Z :=
  let s1 := if prefetch then credit incr_transformer_issued incr_pythia_issued s set else s in
  let '(t', _) := pf_cache_fill h (pref_transformer s1) addr set way prefetch evicted_addr
                    metadata_in in
  let s2 := set_pref_transformer t' s1 in
  let '(p', _) := pf_cache_fill h (pref_pythia s2) addr set way prefetch evicted_addr
                    metadata_in in
  (set_pref_pythia p' s2, metadata_in).

Definition update_policy_selector (s : selector) : selector :=
  let d := dedicated_stats s in
  let '(t_u, t_i, p_u, p_i) :=
    fold_left (fun '(tu, ti, pu, pi) (e : sampler_entry) =>
                 (u64 (tu + transformer_useful e), u64 (ti + transformer_issued e),
                  u64 (pu + pythia_useful e), u64 (pi + pythia_issued e)))
              (samplers s)
              (transformer_useful d, transformer_issued d, pythia_useful d, pythia_issued d) in
  if (t_i <? 100) || (p_i <? 100) then s
  else
    let t_s := ((inject_Z t_u / inject_Z t_i) * (1 + ln (1 + inject_Z t_u)))%Q in
    let p_s := ((inject_Z p_u / inject_Z p_i) * (1 + ln (1 + inject_Z p_u)))%Q in
    if qltb (p_s * (105 # 100))%Q t_s then
      set_sampler_transformer_wins (u64 (sampler_transformer_wins s + 1))
        (set_policy_selector (Z.min (policy_selector s + 1) POLICY_MAX) s)
    else if qltb (t_s * (105 # 100))%Q p_s then
      set_sampler_pythia_wins (u64 (sampler_pythia_wins s + 1))
        (set_policy_selector (Z.max (policy_selector s - 1) POLICY_MIN) s)
    else s.

Definition selector_cycle_operate (h : host) (s : selector) : selector :=
  let c := u64 (cycles s + 1) in
  let s1 := set_cycles c s in
  let s2 := if Z.modulo c 5000 =? 0 then update_policy_selector s1 else s1 in
  let s3 := set_pref_transformer (pf_cycle_operate h (pref_transformer s2)) s2 in
  set_pref_pythia (pf_cycle_operate h (pref_pythia s3)) s3.

(** [prefetcher_initialize]: the geometry comes from the cache, the two
    prefetchers are constructed and initialised ([t0], [p0]), all counters
    start at their in-class initialisers and [cycles] at 0. *)
Definition selector_initialize (num_set num_way : Z) (t0 : T) (p0 : P) : selector :=
  {| pref_transformer := t0;
     pref_pythia := p0;
     NUM_SET := num_set;
     NUM_WAY := num_way;
     prefetch_allowed_count := 0;
     prefetch_throttled_count := 0;
     high_bw_events := 0;
     low_accuracy_events := 0;
     samplers := repeat zero_stats (Z.to_nat (get_num_sampled_sets num_set));
     dedicated_stats := zero_stats;
     policy_selector := 0;
     transformer_selected_count := 0;
     pythia_selected_count := 0;
     sampler_transformer_wins := 0;
     sampler_pythia_wins := 0;
     cycles := 0 |}.

(** States reachable from an initialised selector by the host's calls. *)
Inductive sel_reachable : selector -> Prop :=
| sreach_init num_set num_way t0 p0 :
    sel_reachable (selector_initialize num_set num_way t0 p0)
| sreach_operate h s addr ip hit useful ty md :
    sel_reachable s ->
    sel_reachable (fst (selector_cache_operate h s addr ip hit useful ty md))
| sreach_fill h s addr set way pf ev md :
    sel_reachable s ->
    sel_reachable (fst (selector_cache_fill h s addr set way pf ev md))
| sreach_cycle h s :
    sel_reachable s -> sel_reachable (selector_cycle_operate h s).

End Selector.

Arguments selector : clear implicits.

Definition nonneg_slots (l : list Z) : list Z := List.filter (fun m => 0 <=? m) l.
Arguments nonneg_slots : simpl never.

Definition PInv (p : PhaseState) : Prop :=
  0 <= ph_misses_in_window p < PHASE_WINDOW_SIZE /\
  (ph_in_phase_transition p = true ->
   ph_recovery_counter p = ph_misses_in_window p + 1 /\
   ph_recovery_counter p < PHASE_RECOVERY_WINDOW).

Definition stream_view (e : TransformerStreamEntry) : bool * Z := (se_valid e, se_group_id e).
Definition group_view (g : StreamGroup) : bool * Z * list Z :=
  (sg_valid g, sg_member_count g, sg_members g).
Definition sview (st : tstate) : list (bool * Z) := stream_view <$> stream_table st.
Definition gview (st : tstate) : list (bool * Z * list Z) := group_view <$> stream_groups st.

Definition group_ok (sv : list (bool * Z)) (g : nat) (x : bool * Z * list Z) : Prop :=
  let '(v, cnt, ms) := x in
  length ms = MAX_STREAMS_PER_GROUP /\
  cnt = Z.of_nat (length (nonneg_slots ms)) /\
  (v = false -> cnt = 0) /\
  List.NoDup (nonneg_slots ms) /\
  (forall m, In m ms -> 0 <= m -> sv !! Z.to_nat m = Some (true, Z.of_nat g)).

Record ginv (sv : list (bool * Z)) (gv : list (bool * Z * list Z)) : Prop := {
  ginv_slen : length sv = STREAM_TABLE_SIZE;
  ginv_glen : length gv = MAX_STREAM_GROUPS;
  ginv_ok : forall g x, gv !! g = Some x -> group_ok sv g x
}.

Definition unlisted (gv : list (bool * Z * list Z)) (m : Z) : Prop :=
  forall g x, gv !! g = Some x -> ~ In m x.2.

Definition tinv (st : tstate) : Prop := ginv (sview st) (gview st) /\ PInv (phase_state st).

Definition same_view (st st' : tstate) : Prop :=
  sview st' = sview st /\ gview st' = gview st /\ phase_state st' = phase_state st.

Definition blocksN (n : nat) : list Z :=
  flat_map (fun k => [1000 * k; 1000 * k + 1; 1000 * k + 2]) (map Z.of_nat (seq 1 n)).

Instance idle_prefetcher : Prefetcher unit := {
  pf_cache_operate := fun _ s _ _ _ _ _ md => (s, md);
  pf_cache_fill := fun _ s _ _ _ _ _ md => (s, md);
  pf_cycle_operate := fun _ s => s }.

Definition busy_host : host :=
  {| mshr_occupancy_ratio := 0; prefetch_line_accepts := fun _ => true; dram_bw := 15 |}.


(** list lemmas *)


(** the fields by which [remove_dead_streams] judges a stream *)
Definition se_age_key (e : TransformerStreamEntry) : Z * Z :=
  (se_last_trigger_timestamp e, se_stream_length e).

(** the fields of a stream that only creation, termination and grouping change *)
Definition stream_identity (e : TransformerStreamEntry) :=
  (se_valid e, se_direction e, se_stride e, se_stream_start_block e,
   se_stream_end_block e, se_group_id e).

(** what the background prefetch loop leaves unchanged *)
Definition background_frame (st st' : tstate) : Prop :=
  training_table st' = training_table st /\ pattern_history st' = pattern_history st /\
  pattern_history_head st' = pattern_history_head st /\ phase_state st' = phase_state st /\
  current_timestamp st' = current_timestamp st /\ cleanup_counter st' = cleanup_counter st /\
  gview st' = gview st /\ stream_identity <$> stream_table st' = stream_identity <$> stream_table st.

(** every stream has stride >= 1, and so has every valid recorded pattern *)
Definition strides_ok (st : tstate) : Prop :=
  (forall i, 1 <= se_stride (stream_table st !!! i)) /\
  (forall i, pa_valid (pattern_history st !!! i) = true ->
             1 <= pa_stride (pattern_history st !!! i)).

(** every valid training entry has pattern confidence 0 *)
Definition conf_zero (st : tstate) : Prop :=
  forall i, te_valid (training_table st !!! i) = true ->
            te_pattern_confidence (training_table st !!! i) = 0.

(** a step that keeps the training table and preserves [strides_ok] *)
Definition streamside (st st' : tstate) : Prop :=
  training_table st' = training_table st /\ (strides_ok st -> strides_ok st').

Lemma nonneg_slots_cons a l : nonneg_slots (a :: l) = if 0 <=? a then a :: nonneg_slots l else nonneg_slots l.
Proof. reflexivity. Qed.

Lemma nonneg_slots_insert_len (l : list Z) (k : nat) (x y : Z) :
  l !! k = Some x ->
  (length (nonneg_slots (<[k := y]> l)) + (if (0 <=? x)%Z then 1 else 0) =
   length (nonneg_slots l) + (if (0 <=? y)%Z then 1 else 0))%nat.
Proof.
  revert k. induction l as [|a l IH]; intros [|k] Hk; simpl in *; try discriminate.
  - injection Hk as ->. rewrite !nonneg_slots_cons. destruct (0 <=? x), (0 <=? y); simpl; lia.
  - specialize (IH k Hk). rewrite !nonneg_slots_cons. destruct (0 <=? a); simpl; lia.
Qed.

Lemma in_insert_inv (l : list Z) (k : nat) (y m : Z) :
  In m (<[k := y]> l) -> m = y \/ In m l.
Proof.
  revert k. induction l as [|a l IH]; intros [|k]; simpl; try tauto.
  - intros [->|H]; tauto.
  - intros [->|H]; [tauto|]. destruct (IH k H); tauto.
Qed.

Lemma in_nonneg_slots (l : list Z) m : In m (nonneg_slots l) <-> In m l /\ 0 <= m.
Proof. unfold nonneg_slots. rewrite filter_In. rewrite Z.leb_le. tauto. Qed.

Lemma nonneg_slots_insert_nodup (l : list Z) (k : nat) (x y : Z) :
  List.NoDup (nonneg_slots l) -> l !! k = Some x -> (0 <= y -> ~ In y l) ->
  List.NoDup (nonneg_slots (<[k := y]> l)).
Proof.
  revert k. induction l as [|a l IH]; intros [|k] Hnd Hk Hy; simpl in *; try discriminate.
  - rewrite nonneg_slots_cons in *. destruct (0 <=? a) eqn:Ea, (0 <=? y) eqn:Ey.
    + inversion Hnd; subst. constructor; [|assumption].
      rewrite in_nonneg_slots. apply Z.leb_le in Ey. intros [Hin _]. apply (Hy Ey). right. exact Hin.
    + inversion Hnd; subst. assumption.
    + constructor; [|assumption]. rewrite in_nonneg_slots. apply Z.leb_le in Ey. intros [Hin _].
      apply (Hy Ey). right. exact Hin.
    + assumption.
  - rewrite nonneg_slots_cons in *. destruct (0 <=? a) eqn:Ea.
    + inversion Hnd; subst. constructor.
      * rewrite in_nonneg_slots. intros [Hin _]. destruct (in_insert_inv _ _ _ _ Hin) as [->|Hin'].
        -- apply Z.leb_le in Ea. apply (Hy Ea). left. reflexivity.
        -- match goal with H : ~ In a (nonneg_slots l) |- _ => apply H end.
           apply in_nonneg_slots. split; [exact Hin'|]. apply Z.leb_le. exact Ea.
      * apply (IH k); auto. intros Hy0 Hin. apply (Hy Hy0). right. exact Hin.
    + apply (IH k); auto. intros Hy0 Hin. apply (Hy Hy0). right. exact Hin.
Qed.

Lemma nodup_nonneg_slots_insert_gone (l : list Z) (k : nat) (x y : Z) :
  List.NoDup (nonneg_slots l) -> l !! k = Some x -> 0 <= x -> y <> x -> ~ In x (<[k := y]> l).
Proof.
  revert k. induction l as [|a l IH]; intros [|k] Hnd Hk Hx Hyx; simpl in *; try discriminate.
  - injection Hk as ->. rewrite nonneg_slots_cons in Hnd.
    replace (0 <=? x) with true in Hnd by (symmetry; apply Z.leb_le; exact Hx).
    inversion Hnd; subst. intros [H|H]; [congruence|].
    match goal with H' : ~ In x (nonneg_slots l) |- _ => apply H' end. apply in_nonneg_slots. tauto.
  - rewrite nonneg_slots_cons in Hnd. intros [H|H].
    + subst a. replace (0 <=? x) with true in Hnd by (symmetry; apply Z.leb_le; exact Hx).
      inversion Hnd; subst.
      match goal with H' : ~ In x (nonneg_slots l) |- _ => apply H' end.
      apply in_nonneg_slots. split; [|exact Hx].
      apply list_elem_of_In. eapply list_elem_of_lookup_2. exact Hk.
    + destruct (0 <=? a); [inversion Hnd; subst|]; eapply IH; eauto.
Qed.

Lemma nonneg_slots_repeat_neg n : nonneg_slots (repeat (-1) n) = [].
Proof. induction n; simpl; auto. Qed.

Lemma nonneg_slots_len_le l : (length (nonneg_slots l) <= length l)%nat.
Proof. induction l as [|a l IH]; [reflexivity|]. rewrite nonneg_slots_cons. destruct (0 <=? a); simpl; lia. Qed.

(** [find_first] *)
Lemma find_first_from_spec {A} (p : A -> bool) (l : list A) (i : Z) :
  (find_first_from p l i = -1 /\ forall x, In x l -> p x = false) \/
  (exists k x, find_first_from p l i = i + Z.of_nat k /\ l !! k = Some x /\ p x = true).
Proof.
  revert i. induction l as [|a l IH]; intros i; simpl.
  - left. split; [reflexivity|tauto].
  - destruct (p a) eqn:Ea.
    + right. exists 0%nat, a. split; [lia|]. auto.
    + destruct (IH (i + 1)) as [[H1 H2]|(k&x&H1&H2&H3)].
      * left. split; [exact H1|]. intros x [->|Hx]; auto.
      * right. exists (S k), x. split; [lia|]. auto.
Qed.

Lemma find_first_spec {A} (p : A -> bool) (l : list A) :
  (find_first p l = -1 /\ forall x, In x l -> p x = false) \/
  (exists k x, find_first p l = Z.of_nat k /\ l !! k = Some x /\ p x = true).
Proof. apply find_first_from_spec. Qed.

Lemma find_first_nonneg {A} (p : A -> bool) (l : list A) :
  0 <= find_first p l ->
  exists x, l !! Z.to_nat (find_first p l) = Some x /\ p x = true.
Proof.
  intros H. destruct (find_first_spec p l) as [[E _]|(k&x&E&Hk&Hp)]; [lia|].
  exists x. rewrite E, Nat2Z.id. auto.
Qed.

Lemma oldest_group_lt (l : list StreamGroup) i oi ot n :
  (oi < n)%nat -> (i + length l <= n)%nat -> (oldest_group l i oi ot < n)%nat.
Proof.
  revert i oi ot. induction l as [|g l IH]; intros i oi ot H1 H2; simpl in *; [lia|].
  destruct (_ || _); apply IH; lia.
Qed.

Lemma select_victim_from_range st (l : list TransformerStreamEntry) i v lp n :
  -1 <= v < Z.of_nat n -> (i + length l <= n)%nat ->
  -1 <= select_victim_from st l i v lp < Z.of_nat n.
Proof.
  revert i v lp. induction l as [|e l IH]; intros i v lp H1 H2; simpl in *; [lia|].
  destruct (negb (se_valid e)); [lia|].
  destruct (_ <? _); apply IH; lia.
Qed.

Lemma u32_small x : 0 <= x < 2 ^ 32 -> u32 x = x.
Proof. intros H. unfold u32. apply Z.mod_small. exact H. Qed.

(** phase *)


Lemma phase_update_pinv b ts p : PInv p -> PInv (phase_update b ts p).
Proof.
  destruct p as [ws term miss succ deg tr rec]. unfold PInv. simpl.
  intros [Hm Ht]. unfold phase_update, PHASE_WINDOW_SIZE, PHASE_RECOVERY_WINDOW in *. simpl.
  rewrite (u32_small (miss + 1)) by lia.
  destruct (miss + 1 >=? 64) eqn:Ew; simpl.
  - destruct (_ >=? PHASE_TRANSITION_THRESHOLD) eqn:Ee; simpl.
    + unfold try_phase_recovery. simpl. rewrite u32_small by lia.
      unfold PHASE_RECOVERY_WINDOW. simpl. split; [lia|]. intros; lia.
    + destruct tr; simpl.
      * specialize (Ht eq_refl). rewrite Z.geb_leb in Ew; apply Z.leb_le in Ew. lia.
      * split; [lia|discriminate].
  - rewrite Z.geb_leb in Ew; apply Z.leb_gt in Ew. destruct tr; simpl.
    + specialize (Ht eq_refl). unfold try_phase_recovery. simpl.
      rewrite u32_small by lia. unfold PHASE_RECOVERY_WINDOW.
      destruct (rec + 1 >=? 32) eqn:Er; simpl.
      * split; [lia|discriminate].
      * rewrite Z.geb_leb in Er; apply Z.leb_gt in Er. split; [lia|]. intros _. lia.
    + split; [lia|discriminate].
Qed.

(** views of the stream table and of the groups *)


Lemma insert_view_id {A B} `{Inhabited A} (view : A -> B) (f : A -> A) (l : list A) i :
  (forall e, view (f e) = view e) ->
  <[i := view (f (l !!! i))]> (view <$> l) = view <$> l.
Proof.
  intros Hf. rewrite Hf. destruct (decide (i < length l)%nat) as [Hi|Hi].
  - apply list_insert_id. rewrite list_lookup_fmap.
    rewrite (list_lookup_lookup_total_lt l i Hi). reflexivity.
  - apply list_insert_ge. rewrite length_fmap. lia.
Qed.

Lemma sview_upd_stream st i f :
  sview (upd_stream st i f) = <[i := stream_view (f (stream_table st !!! i))]> (sview st).
Proof. unfold sview, upd_stream. simpl. apply list_fmap_insert. Qed.

Lemma gview_upd_group st i f :
  gview (upd_group st i f) = <[i := group_view (f (stream_groups st !!! i))]> (gview st).
Proof. unfold gview, upd_group. simpl. apply list_fmap_insert. Qed.

Lemma sview_upd_stream_id st i f :
  (forall e, stream_view (f e) = stream_view e) -> sview (upd_stream st i f) = sview st.
Proof. intros Hf. rewrite sview_upd_stream. apply insert_view_id. exact Hf. Qed.

Lemma gview_upd_group_id st i f :
  (forall g, group_view (f g) = group_view g) -> gview (upd_group st i f) = gview st.
Proof. intros Hf. rewrite gview_upd_group. apply insert_view_id. exact Hf. Qed.

Lemma tinv_frame st st' :
  sview st' = sview st -> gview st' = gview st -> phase_state st' = phase_state st ->
  tinv st -> tinv st'.
Proof. unfold tinv. intros -> -> ->. tauto. Qed.

(** same views and phase *)


Lemma same_view_refl st : same_view st st.
Proof. repeat split. Qed.

Lemma same_view_trans st1 st2 st3 : same_view st1 st2 -> same_view st2 st3 -> same_view st1 st3.
Proof. unfold same_view. intros (?&?&?) (?&?&?). repeat split; congruence. Qed.

Lemma same_view_upd_stream st i f :
  (forall e, stream_view (f e) = stream_view e) -> same_view st (upd_stream st i f).
Proof. intros Hf. split; [apply sview_upd_stream_id; exact Hf|]. split; reflexivity. Qed.

Lemma same_view_upd_group st i f :
  (forall g, group_view (f g) = group_view g) -> same_view st (upd_group st i f).
Proof. intros Hf. split; [reflexivity|]. split; [apply gview_upd_group_id; exact Hf|reflexivity]. Qed.

Lemma same_view_tinv st st' : same_view st st' -> tinv st -> tinv st'.
Proof. intros (?&?&?). apply tinv_frame; assumption. Qed.

Lemma update_stream_classification_view st i :
  same_view st (update_stream_classification st i).
Proof.
  unfold update_stream_classification.
  destruct (_ || _); [apply same_view_refl|]. cbv zeta.
  destruct (negb _); [apply same_view_refl|].
  destruct (_ && _).
  - eapply same_view_trans; [|apply same_view_upd_group; intros; reflexivity].
    apply same_view_upd_stream; intros; reflexivity.
  - apply same_view_upd_stream; intros; reflexivity.
Qed.

Lemma reinforce_stream_confidence_view st i :
  same_view st (reinforce_stream_confidence st i).
Proof.
  unfold reinforce_stream_confidence.
  destruct (_ || _); [apply same_view_refl|]. cbv zeta.
  destruct (negb _); [apply same_view_refl|].
  destruct (_ && _).
  - eapply same_view_trans; [|apply same_view_upd_group; intros; reflexivity].
    apply same_view_upd_stream; intros; reflexivity.
  - apply same_view_upd_stream; intros; reflexivity.
Qed.

Lemma prefetch_loop_view h fuel i si st : same_view st (prefetch_loop h fuel i si st).
Proof.
  revert i st. induction fuel as [|fuel IH]; intros i st; cbn [prefetch_loop].
  - apply same_view_upd_stream; intros; reflexivity.
  - repeat case_match; try apply same_view_refl;
      try (apply same_view_upd_stream; intros; reflexivity).
    all: eapply same_view_trans; [|apply IH].
    all: first [ apply same_view_upd_stream; intros; reflexivity
               | eapply same_view_trans; [|apply update_stream_classification_view];
                 apply same_view_upd_stream; intros; reflexivity ].
Qed.

Lemma generate_prefetches_view h st si : same_view st (generate_prefetches h st si).
Proof.
  unfold generate_prefetches. cbv zeta. case_match; [apply same_view_refl|].
  apply prefetch_loop_view.
Qed.

(** the group invariant on views *)
Lemma ginv_listed sv gv g v c ms m :
  ginv sv gv -> gv !! g = Some (v, c, ms) -> In m ms -> 0 <= m ->
  sv !! Z.to_nat m = Some (true, Z.of_nat g).
Proof. intros Hi Hg Hm Hm0. destruct (ginv_ok _ _ Hi g _ Hg) as (_&_&_&_&H). auto. Qed.

Lemma ginv_not_listed_elsewhere sv gv s b gid g x :
  ginv sv gv -> sv !! s = Some (b, gid) -> gv !! g = Some x -> gid <> Z.of_nat g ->
  ~ In (Z.of_nat s) x.2.
Proof.
  intros Hi Hs Hg Hne Hin. destruct x as [[v c] ms]. simpl in Hin.
  pose proof (ginv_listed _ _ _ _ _ _ _ Hi Hg Hin ltac:(lia)) as H.
  rewrite Nat2Z.id, Hs in H. congruence.
Qed.

Lemma unlisted_of_view sv gv m b gid :
  ginv sv gv -> 0 <= m -> sv !! Z.to_nat m = Some (b, gid) -> (b = false \/ gid < 0) ->
  unlisted gv m.
Proof.
  intros Hi Hm Hs Hb g [[v c] ms] Hg Hin. simpl in Hin.
  pose proof (ginv_listed _ _ _ _ _ _ _ Hi Hg Hin Hm) as H. rewrite Hs in H.
  injection H as -> ->. lia.
Qed.

Lemma group_ok_insert_other sv g x s y :
  group_ok sv g x -> ~ In (Z.of_nat s) x.2 -> group_ok (<[s := y]> sv) g x.
Proof.
  destruct x as [[v c] ms]. simpl. intros (H1&H2&H3&H4&H5) Hs. repeat split; auto.
  intros m Hm Hm0. rewrite list_lookup_insert_ne; [auto|].
  intros ->. apply Hs. rewrite Z2Nat.id by lia. exact Hm.
Qed.

Lemma ginv_stream_unlisted sv gv s y :
  ginv sv gv -> unlisted gv (Z.of_nat s) -> ginv (<[s := y]> sv) gv.
Proof.
  intros Hi Hu. constructor.
  - rewrite length_insert. apply Hi.
  - apply Hi.
  - intros g x Hg. apply group_ok_insert_other; [apply (ginv_ok _ _ Hi g x Hg)|].
    apply (Hu g x Hg).
Qed.

Lemma ginv_update sv gv s y gi x' :
  ginv sv gv -> (gi < length gv)%nat ->
  (forall g x, g <> gi -> gv !! g = Some x -> ~ In (Z.of_nat s) x.2) ->
  group_ok (<[s := y]> sv) gi x' ->
  ginv (<[s := y]> sv) (<[gi := x']> gv).
Proof.
  intros Hi Hgi Hoth Hok. constructor.
  - rewrite length_insert. apply Hi.
  - rewrite length_insert. apply Hi.
  - intros g x Hg. destruct (decide (g = gi)) as [->|Hne].
    + rewrite list_lookup_insert_eq in Hg by exact Hgi. injection Hg as <-. exact Hok.
    + rewrite list_lookup_insert_ne in Hg by congruence.
      apply group_ok_insert_other; [apply (ginv_ok _ _ Hi g x Hg)|]. apply (Hoth g x Hne Hg).
Qed.

Lemma ginv_update_group sv gv gi x' :
  ginv sv gv -> (gi < length gv)%nat -> group_ok sv gi x' -> ginv sv (<[gi := x']> gv).
Proof.
  intros Hi Hgi Hok. constructor.
  - apply Hi.
  - rewrite length_insert. apply Hi.
  - intros g x Hg. destruct (decide (g = gi)) as [->|Hne].
    + rewrite list_lookup_insert_eq in Hg by exact Hgi. injection Hg as <-. exact Hok.
    + rewrite list_lookup_insert_ne in Hg by congruence. apply (ginv_ok _ _ Hi g x Hg).
Qed.

Lemma lookup_lt {A} (l : list A) i x : l !! i = Some x -> (i < length l)%nat.
Proof. intros H. apply lookup_lt_is_Some_1. rewrite H. eauto. Qed.

Lemma ginv_remove_found sv gv s gi v c ms k ve :
  ginv sv gv -> gv !! gi = Some (v, c, ms) -> sv !! s = Some (ve, Z.of_nat gi) ->
  ms !! k = Some (Z.of_nat s) ->
  let c1 := if c >? 0 then c - 1 else c in
  let ms1 := <[k := -1]> ms in
  let v1 := if c1 =? 0 then false else v in
  ginv (<[s := (ve, -1)]> sv) (<[gi := (v1, c1, ms1)]> gv) /\
  unlisted (<[gi := (v1, c1, ms1)]> gv) (Z.of_nat s).
Proof.
  intros Hi Hg Hs Hk. cbv zeta.
  destruct (ginv_ok _ _ Hi gi _ Hg) as (Hlen&Hc&Hv&Hnd&Hm).
  pose proof (nonneg_slots_insert_len ms k (Z.of_nat s) (-1) Hk) as Hl.
  replace (0 <=? Z.of_nat s) with true in Hl by (symmetry; apply Z.leb_le; lia).
  simpl in Hl.
  assert (Hc1 : (if c >? 0 then c - 1 else c) = Z.of_nat (length (nonneg_slots (<[k := -1]> ms)))).
  { destruct (Z.gtb_spec c 0); lia. }
  assert (Hgone : ~ In (Z.of_nat s) (<[k := -1]> ms))
    by (apply (nodup_nonneg_slots_insert_gone ms k (Z.of_nat s) (-1)); auto; lia).
  assert (Hgi : (gi < length gv)%nat) by (eapply lookup_lt; eauto).
  split.
  - apply ginv_update; auto.
    + intros g x Hne Hgx. eapply ginv_not_listed_elsewhere; eauto. lia.
    + repeat split.
      * rewrite length_insert. exact Hlen.
      * exact Hc1.
      * intros Hv1. destruct (Z.eqb_spec (if c >? 0 then c - 1 else c) 0); [assumption|].
        subst v. rewrite Hv in Hc1 by reflexivity. destruct (Z.gtb_spec 0 0); lia.
      * apply (nonneg_slots_insert_nodup ms k (Z.of_nat s) (-1)); auto; lia.
      * intros m Hin Hm0. destruct (in_insert_inv _ _ _ _ Hin) as [->|Hin']; [lia|].
        rewrite list_lookup_insert_ne; [apply Hm; auto|].
        intros E. apply Hgone. rewrite E, Z2Nat.id by lia. exact Hin.
  - intros g x Hgx. destruct (decide (g = gi)) as [->|Hne].
    + rewrite list_lookup_insert_eq in Hgx by exact Hgi. injection Hgx as <-. exact Hgone.
    + rewrite list_lookup_insert_ne in Hgx by congruence.
      eapply ginv_not_listed_elsewhere; eauto. lia.
Qed.

Lemma ginv_remove_notfound sv gv s gi v c ms ve :
  ginv sv gv -> gv !! gi = Some (v, c, ms) -> sv !! s = Some (ve, Z.of_nat gi) ->
  ~ In (Z.of_nat s) ms ->
  let v1 := if c =? 0 then false else v in
  ginv (<[s := (ve, -1)]> sv) (<[gi := (v1, c, ms)]> gv) /\
  unlisted (<[gi := (v1, c, ms)]> gv) (Z.of_nat s).
Proof.
  intros Hi Hg Hs Hn. cbv zeta.
  destruct (ginv_ok _ _ Hi gi _ Hg) as (Hlen&Hc&Hv&Hnd&Hm).
  assert (Hgi : (gi < length gv)%nat) by (eapply lookup_lt; eauto).
  split.
  - apply ginv_update; auto.
    + intros g x Hne Hgx. eapply ginv_not_listed_elsewhere; eauto. lia.
    + repeat split; auto.
      * intros Hv1. destruct (Z.eqb_spec c 0); [assumption|]. subst v. auto.
      * intros m Hin Hm0. rewrite list_lookup_insert_ne; [apply Hm; auto|].
        intros E. apply Hn. rewrite E, Z2Nat.id by lia. exact Hin.
  - intros g x Hgx. destruct (decide (g = gi)) as [->|Hne].
    + rewrite list_lookup_insert_eq in Hgx by exact Hgi. injection Hgx as <-. exact Hn.
    + rewrite list_lookup_insert_ne in Hgx by congruence.
      eapply ginv_not_listed_elsewhere; eauto. lia.
Qed.

Lemma ginv_add_slot sv gv s gi c ms k m0 gid :
  ginv sv gv -> gv !! gi = Some (true, c, ms) -> sv !! s = Some (true, gid) ->
  unlisted gv (Z.of_nat s) -> ms !! k = Some m0 -> m0 < 0 ->
  ginv (<[s := (true, Z.of_nat gi)]> sv) (<[gi := (true, u32 (c + 1), <[k := Z.of_nat s]> ms)]> gv).
Proof.
  intros Hi Hg Hs Hu Hk Hm0.
  destruct (ginv_ok _ _ Hi gi _ Hg) as (Hlen&Hc&Hv&Hnd&Hm).
  assert (Hgi : (gi < length gv)%nat) by (eapply lookup_lt; eauto).
  assert (Hsl : (s < length sv)%nat) by (eapply lookup_lt; eauto).
  assert (Hnin : ~ In (Z.of_nat s) ms) by (apply (Hu gi _ Hg)).
  pose proof (nonneg_slots_insert_len ms k m0 (Z.of_nat s) Hk) as Hl.
  replace (0 <=? m0) with false in Hl by (symmetry; apply Z.leb_gt; lia).
  replace (0 <=? Z.of_nat s) with true in Hl by (symmetry; apply Z.leb_le; lia).
  pose proof (nonneg_slots_len_le ms) as Hle.
  apply ginv_update; auto.
  - intros g x Hne Hgx. apply (Hu g x Hgx).
  - repeat split.
    + rewrite length_insert. exact Hlen.
    + rewrite u32_small.
      * rewrite Hc. lia.
      * unfold MAX_STREAMS_PER_GROUP in Hlen. lia.
    + discriminate.
    + apply (nonneg_slots_insert_nodup ms k m0 (Z.of_nat s)); auto.
    + intros m Hin Hmm. destruct (in_insert_inv _ _ _ _ Hin) as [->|Hin'].
      * rewrite Nat2Z.id. apply list_lookup_insert_eq. exact Hsl.
      * rewrite list_lookup_insert_ne; [apply Hm; auto|].
        intros E. apply Hnin. rewrite E, Z2Nat.id by lia. exact Hin'.
Qed.

(** tstate-level facts *)
Lemma sview_lookup st i :
  (i < length (stream_table st))%nat ->
  sview st !! i = Some (stream_view (stream_table st !!! i)).
Proof.
  intros Hi. unfold sview. rewrite list_lookup_fmap, (list_lookup_lookup_total_lt _ _ Hi). reflexivity.
Qed.

Lemma gview_lookup st i :
  (i < length (stream_groups st))%nat ->
  gview st !! i = Some (group_view (stream_groups st !!! i)).
Proof.
  intros Hi. unfold gview. rewrite list_lookup_fmap, (list_lookup_lookup_total_lt _ _ Hi). reflexivity.
Qed.

Lemma ginv_slen_st st : ginv (sview st) (gview st) -> length (stream_table st) = STREAM_TABLE_SIZE.
Proof. intros Hi. pose proof (ginv_slen _ _ Hi) as H. unfold sview in H. rewrite length_fmap in H. exact H. Qed.

Lemma ginv_glen_st st : ginv (sview st) (gview st) -> length (stream_groups st) = MAX_STREAM_GROUPS.
Proof. intros Hi. pose proof (ginv_glen _ _ Hi) as H. unfold gview in H. rewrite length_fmap in H. exact H. Qed.

Lemma stream_groups_upd_stream st i f : stream_groups (upd_stream st i f) = stream_groups st.
Proof. reflexivity. Qed.
Lemma stream_table_upd_group st i f : stream_table (upd_group st i f) = stream_table st.
Proof. reflexivity. Qed.
Lemma gview_upd_stream st i f : gview (upd_stream st i f) = gview st.
Proof. reflexivity. Qed.
Lemma sview_upd_group st i f : sview (upd_group st i f) = sview st.
Proof. reflexivity. Qed.
Lemma phase_upd_stream st i f : phase_state (upd_stream st i f) = phase_state st.
Proof. reflexivity. Qed.
Lemma phase_upd_group st i f : phase_state (upd_group st i f) = phase_state st.
Proof. reflexivity. Qed.
Lemma stream_view_set_group_id g e : stream_view (set_se_group_id g e) = (se_valid e, g).
Proof. reflexivity. Qed.
Lemma group_view_set_members ms c g : group_view (set_sg_members ms c g) = (sg_valid g, c, ms).
Proof. reflexivity. Qed.
Lemma group_view_set_valid b g : group_view (set_sg_valid b g) = (b, sg_member_count g, sg_members g).
Proof. reflexivity. Qed.
Lemma sg_member_count_set_members ms c g : sg_member_count (set_sg_members ms c g) = c.
Proof. reflexivity. Qed.
Lemma sg_members_set_members ms c g : sg_members (set_sg_members ms c g) = ms.
Proof. reflexivity. Qed.
Lemma stream_groups_upd_group st i f :
  stream_groups (upd_group st i f) = <[i := f (stream_groups st !!! i)]> (stream_groups st).
Proof. reflexivity. Qed.
Lemma stream_table_upd_stream st i f :
  stream_table (upd_stream st i f) = <[i := f (stream_table st !!! i)]> (stream_table st).
Proof. reflexivity. Qed.



Lemma remove_stream_from_group_inv st si :
  ginv (sview st) (gview st) -> 0 <= si < Z.of_nat STREAM_TABLE_SIZE ->
  let st' := remove_stream_from_group st si in
  ginv (sview st') (gview st') /\ unlisted (gview st') si /\ phase_state st' = phase_state st.
Proof.
  intros Hi Hsi. cbv zeta. unfold remove_stream_from_group.
  replace ((si <? 0) || (si >=? Z.of_nat STREAM_TABLE_SIZE)) with false
    by (symmetry; apply orb_false_iff; split; [apply Z.ltb_ge|rewrite Z.geb_leb; apply Z.leb_gt]; lia).
  cbv zeta.
  pose proof (ginv_slen_st _ Hi) as Hsl. pose proof (ginv_glen_st _ Hi) as Hgl.
  assert (Hs : (Z.to_nat si < length (stream_table st))%nat)
    by (rewrite Hsl; unfold STREAM_TABLE_SIZE in *; lia).
  pose proof (sview_lookup _ _ Hs) as Hsv.
  set (e := stream_table st !!! Z.to_nat si) in *.
  unfold stream_view in Hsv.
  destruct ((se_group_id e <? 0) || (se_group_id e >=? Z.of_nat MAX_STREAM_GROUPS)) eqn:Er.
  - assert (Hun : unlisted (gview st) si).
    { intros g x Hg. replace si with (Z.of_nat (Z.to_nat si)) by lia.
      eapply ginv_not_listed_elsewhere; eauto.
      pose proof (lookup_lt _ _ _ Hg) as Hlt. rewrite (ginv_glen _ _ Hi) in Hlt.
      unfold MAX_STREAM_GROUPS in *.
      apply orb_true_iff in Er. destruct Er as [Er|Er];
        [apply Z.ltb_lt in Er|rewrite Z.geb_leb in Er; apply Z.leb_le in Er]; lia. }
    rewrite sview_upd_stream. fold e. rewrite ?stream_groups_upd_stream, ?stream_table_upd_group, ?gview_upd_stream,
      ?sview_upd_group, ?phase_upd_stream, ?phase_upd_group, ?stream_view_set_group_id,
      ?group_view_set_members, ?group_view_set_valid, ?sg_member_count_set_members,
      ?sg_members_set_members.
    split; [|split; [exact Hun|reflexivity]].
    apply ginv_stream_unlisted; [exact Hi|]. rewrite Z2Nat.id by lia. exact Hun.
  - apply orb_false_iff in Er. destruct Er as [Er1 Er2].
    apply Z.ltb_ge in Er1. rewrite Z.geb_leb in Er2. apply Z.leb_gt in Er2.
    set (gi := Z.to_nat (se_group_id e)).
    assert (Hgi : (gi < length (stream_groups st))%nat)
      by (rewrite Hgl; unfold gi, MAX_STREAM_GROUPS in *; lia).
    pose proof (gview_lookup _ _ Hgi) as Hgv.
    set (G := stream_groups st !!! gi) in *.
    assert (Hsv' : sview st !! Z.to_nat si = Some (se_valid e, Z.of_nat gi))
      by (rewrite Hsv; unfold gi; rewrite Z2Nat.id by lia; reflexivity).
    unfold group_view in Hgv.
    destruct (find_first_spec (fun m => m =? si) (sg_members G)) as [[Hk Hall]|(kk&x&Hk&Hx&Hxe)].
    + rewrite Hk. change (-1 >=? 0) with false. cbv iota.
      assert (Hn : ~ In (Z.of_nat (Z.to_nat si)) (sg_members G)).
      { rewrite Z2Nat.id by lia. intros Hin. specialize (Hall _ Hin). simpl in Hall.
        rewrite Z.eqb_refl in Hall. discriminate. }
      destruct (ginv_remove_notfound _ _ _ _ _ _ _ _ Hi Hgv Hsv' Hn) as [H1 H2].
      rewrite Z2Nat.id in H2 by lia.
      destruct (sg_member_count G =? 0) eqn:E.
      * rewrite gview_upd_group, sview_upd_group, sview_upd_stream, gview_upd_stream, gview_upd_group.
        rewrite ?stream_groups_upd_stream, ?stream_table_upd_group, ?gview_upd_stream,
      ?sview_upd_group, ?phase_upd_stream, ?phase_upd_group, ?stream_view_set_group_id,
      ?group_view_set_members, ?group_view_set_valid, ?sg_member_count_set_members,
      ?sg_members_set_members. fold e.
        rewrite stream_groups_upd_group, list_lookup_total_insert_eq by exact Hgi.
        rewrite list_insert_insert_eq. rewrite ?stream_groups_upd_stream, ?stream_table_upd_group, ?gview_upd_stream,
      ?sview_upd_group, ?phase_upd_stream, ?phase_upd_group, ?stream_view_set_group_id,
      ?group_view_set_members, ?group_view_set_valid, ?sg_member_count_set_members,
      ?sg_members_set_members.
        fold G. split; [exact H1|split; [exact H2|reflexivity]].
      * rewrite sview_upd_stream, gview_upd_stream, gview_upd_group.
        rewrite ?stream_groups_upd_stream, ?stream_table_upd_group, ?gview_upd_stream,
      ?sview_upd_group, ?phase_upd_stream, ?phase_upd_group, ?stream_view_set_group_id,
      ?group_view_set_members, ?group_view_set_valid, ?sg_member_count_set_members,
      ?sg_members_set_members. fold e. fold G.
        rewrite (list_insert_id (gview st)) in H1, H2 by exact Hgv.
        rewrite (list_insert_id (gview st)) by exact Hgv.
        split; [exact H1|split; [exact H2|reflexivity]].
    + rewrite Hk. replace (Z.of_nat kk >=? 0) with true by (symmetry; rewrite Z.geb_leb; apply Z.leb_le; lia).
      cbv iota. rewrite Nat2Z.id.
      simpl in Hxe. apply Z.eqb_eq in Hxe. subst x.
      replace si with (Z.of_nat (Z.to_nat si)) in Hx by lia.
      destruct (ginv_remove_found _ _ _ _ _ _ _ _ _ Hi Hgv Hsv' Hx) as [H1 H2].
      cbv zeta in H1, H2. rewrite Z2Nat.id in H2 by lia.
      set (c1 := if sg_member_count G >? 0 then sg_member_count G - 1 else sg_member_count G) in *.
      rewrite sg_member_count_set_members.
      destruct (c1 =? 0) eqn:E.
      * rewrite gview_upd_group, sview_upd_group, sview_upd_stream, gview_upd_stream, gview_upd_group.
        rewrite ?stream_groups_upd_stream, ?stream_table_upd_group, ?gview_upd_stream,
      ?sview_upd_group, ?phase_upd_stream, ?phase_upd_group, ?stream_view_set_group_id,
      ?group_view_set_members, ?group_view_set_valid, ?sg_member_count_set_members,
      ?sg_members_set_members. fold e.
        rewrite stream_groups_upd_group, list_lookup_total_insert_eq by exact Hgi.
        rewrite list_insert_insert_eq. rewrite ?stream_groups_upd_stream, ?stream_table_upd_group, ?gview_upd_stream,
      ?sview_upd_group, ?phase_upd_stream, ?phase_upd_group, ?stream_view_set_group_id,
      ?group_view_set_members, ?group_view_set_valid, ?sg_member_count_set_members,
      ?sg_members_set_members.
        fold G. split; [exact H1|split; [exact H2|reflexivity]].
      * rewrite sview_upd_stream, gview_upd_stream, gview_upd_group.
        rewrite ?stream_groups_upd_stream, ?stream_table_upd_group, ?gview_upd_stream,
      ?sview_upd_group, ?phase_upd_stream, ?phase_upd_group, ?stream_view_set_group_id,
      ?group_view_set_members, ?group_view_set_valid, ?sg_member_count_set_members,
      ?sg_members_set_members. fold e. fold G.
        split; [exact H1|split; [exact H2|reflexivity]].
Qed.

Lemma record_pattern_view st e : same_view st (record_pattern st e).
Proof. split; [reflexivity|split; reflexivity]. Qed.

Lemma update_phase_state_tinv st b : tinv st -> tinv (update_phase_state st b).
Proof. intros [Hg Hp]. split; [exact Hg|apply phase_update_pinv; exact Hp]. Qed.

Lemma stream_view_deactivate b e :
  stream_view (set_se_active b (set_se_valid false e)) = (false, se_group_id e).
Proof. reflexivity. Qed.

Lemma range_false z n : 0 <= z < Z.of_nat n -> ((z <? 0) || (z >=? Z.of_nat n)) = false.
Proof.
  intros H. apply orb_false_iff. split; [apply Z.ltb_ge|rewrite Z.geb_leb; apply Z.leb_gt]; lia.
Qed.

Lemma range_true z n : ((z <? 0) || (z >=? Z.of_nat n)) = true -> z < 0 \/ Z.of_nat n <= z.
Proof.
  intros H. apply orb_true_iff in H.
  destruct H as [H|H]; [apply Z.ltb_lt in H|rewrite Z.geb_leb in H; apply Z.leb_le in H]; lia.
Qed.

Lemma terminate_stream_tinv st si :
  tinv st ->
  tinv (terminate_stream st si) /\
  (0 <= si < Z.of_nat STREAM_TABLE_SIZE ->
   exists gid, sview (terminate_stream st si) !! Z.to_nat si = Some (false, gid)).
Proof.
  intros [Hg Hp]. unfold terminate_stream.
  destruct ((si <? 0) || (si >=? Z.of_nat STREAM_TABLE_SIZE)) eqn:Er.
  { split; [split; assumption|]. intros H. rewrite range_false in Er by exact H. discriminate. }
  assert (Hsi : 0 <= si < Z.of_nat STREAM_TABLE_SIZE)
    by (apply orb_false_iff in Er as [E1 E2]; apply Z.ltb_ge in E1;
        rewrite Z.geb_leb in E2; apply Z.leb_gt in E2; lia).
  cbv zeta.
  pose proof (ginv_slen_st _ Hg) as Hsl.
  assert (Hs : (Z.to_nat si < length (stream_table st))%nat)
    by (rewrite Hsl; unfold STREAM_TABLE_SIZE in *; lia).
  pose proof (sview_lookup _ _ Hs) as Hsv.
  destruct (negb (se_valid (stream_table st !!! Z.to_nat si))) eqn:Ev.
  - split; [split; assumption|]. intros _. exists (se_group_id (stream_table st !!! Z.to_nat si)).
    rewrite Hsv. unfold stream_view. apply negb_true_iff in Ev. rewrite Ev. reflexivity.
  - set (st1 := record_pattern st _).
    assert (Hg1 : ginv (sview st1) (gview st1)) by exact Hg.
    destruct (remove_stream_from_group_inv st1 si Hg1 Hsi) as (Hg2&Hu2&Hp2).
    set (st2 := remove_stream_from_group st1 si) in *.
    unfold tinv. rewrite sview_upd_stream, stream_view_deactivate. rewrite ?stream_groups_upd_stream, ?stream_table_upd_group, ?gview_upd_stream,
      ?sview_upd_group, ?phase_upd_stream, ?phase_upd_group, ?stream_view_set_group_id,
      ?group_view_set_members, ?group_view_set_valid, ?sg_member_count_set_members,
      ?sg_members_set_members.
    split.
    + split.
      * apply ginv_stream_unlisted; [exact Hg2|]. rewrite Z2Nat.id by lia. exact Hu2.
      * simpl. apply phase_update_pinv. rewrite Hp2. exact Hp.
    + intros _. eexists. apply list_lookup_insert_eq.
      change (sview (update_phase_state st2 true)) with (sview st2). rewrite (ginv_slen _ _ Hg2). unfold STREAM_TABLE_SIZE in *. lia.
Qed.

Lemma remove_dead_step_tinv st i : tinv st -> tinv (remove_dead_step st i).
Proof.
  intros H. unfold remove_dead_step. cbv zeta.
  destruct (negb _); [exact H|].
  match goal with |- tinv (if ?c then _ else _) => destruct c end;
    [apply terminate_stream_tinv; exact H|exact H].
Qed.

Lemma remove_dead_streams_tinv st : tinv st -> tinv (remove_dead_streams st).
Proof.
  unfold remove_dead_streams. generalize (seq 0 STREAM_TABLE_SIZE) as l.
  intros l. revert st. induction l as [|i l IH]; intros st H; simpl; [exact H|].
  apply IH, remove_dead_step_tinv, H.
Qed.

Lemma first_invalid_stream_spec st :
  0 <= first_invalid_stream st ->
  (Z.to_nat (first_invalid_stream st) < length (stream_table st))%nat /\
  exists gid, sview st !! Z.to_nat (first_invalid_stream st) = Some (false, gid).
Proof.
  intros H. destruct (find_first_nonneg _ _ H) as (x&Hx&Hp).
  fold (first_invalid_stream st) in Hx.
  pose proof (lookup_lt _ _ _ Hx) as Hlt. split; [exact Hlt|].
  exists (se_group_id x). unfold sview. rewrite list_lookup_fmap, Hx. simpl.
  apply negb_true_iff in Hp. unfold stream_view. rewrite Hp. reflexivity.
Qed.

Lemma allocate_stream_entry_spec st :
  tinv st ->
  tinv (allocate_stream_entry st).2 /\
  ((allocate_stream_entry st).1 < 0 \/
   (0 <= (allocate_stream_entry st).1 < Z.of_nat STREAM_TABLE_SIZE /\
    exists gid, sview (allocate_stream_entry st).2 !! Z.to_nat (allocate_stream_entry st).1
                = Some (false, gid))).
Proof.
  intros H. unfold allocate_stream_entry.
  destruct (first_invalid_stream st >=? 0) eqn:E1; cbn [fst snd].
  { rewrite Z.geb_leb, Z.leb_le in E1. split; [exact H|right].
    destruct (first_invalid_stream_spec _ E1) as [Hl Hv].
    rewrite (ginv_slen_st _ (proj1 H)) in Hl. split; [lia|exact Hv]. }
  pose proof (remove_dead_streams_tinv _ H) as H1.
  set (st1 := remove_dead_streams st) in *.
  destruct (first_invalid_stream st1 >=? 0) eqn:E2; cbn [fst snd].
  { rewrite Z.geb_leb, Z.leb_le in E2. split; [exact H1|right].
    destruct (first_invalid_stream_spec _ E2) as [Hl Hv].
    rewrite (ginv_slen_st _ (proj1 H1)) in Hl. split; [lia|exact Hv]. }
  assert (Hv : -1 <= select_victim_stream st1 < Z.of_nat STREAM_TABLE_SIZE).
  { unfold select_victim_stream. apply select_victim_from_range; [unfold INT_MAX, STREAM_TABLE_SIZE; lia|].
    rewrite (ginv_slen_st _ (proj1 H1)). lia. }
  destruct (select_victim_stream st1 >=? 0) eqn:E3; cbn [fst snd].
  - rewrite Z.geb_leb, Z.leb_le in E3.
    destruct (terminate_stream_tinv st1 (select_victim_stream st1) H1) as [Ht Hi].
    split; [exact Ht|right]. split; [lia|]. apply Hi. lia.
  - rewrite Z.geb_leb, Z.leb_gt in E3. split; [exact H1|left; exact E3].
Qed.

Lemma sview_lookup_inv st s b gid :
  sview st !! s = Some (b, gid) ->
  (s < length (stream_table st))%nat /\ se_valid (stream_table st !!! s) = b /\
  se_group_id (stream_table st !!! s) = gid.
Proof.
  intros H. pose proof (lookup_lt _ _ _ H) as Hl. unfold sview in Hl. rewrite length_fmap in Hl.
  rewrite sview_lookup in H by exact Hl. injection H as H1 H2. auto.
Qed.

Lemma clear_member_group_ids_spec ms st :
  stream_groups (clear_member_group_ids ms st) = stream_groups st /\
  phase_state (clear_member_group_ids ms st) = phase_state st /\
  length (sview (clear_member_group_ids ms st)) = length (sview st) /\
  (forall s, ~ In (Z.of_nat s) ms -> sview (clear_member_group_ids ms st) !! s = sview st !! s) /\
  (forall s b gid, sview st !! s = Some (b, gid) ->
     exists gid', sview (clear_member_group_ids ms st) !! s = Some (b, gid')).
Proof.
  unfold clear_member_group_ids. revert st. induction ms as [|m ms IH]; intros st; simpl.
  { split; [reflexivity|split; [reflexivity|split; [reflexivity|split; [auto|eauto]]]]. }
  destruct ((0 <=? m) && (m <? Z.of_nat STREAM_TABLE_SIZE)) eqn:Em.
  - destruct (IH (upd_stream st (Z.to_nat m) (set_se_group_id (-1)))) as (H1&H2&H3&H4&H5).
    apply andb_true_iff in Em as [Em _]. apply Z.leb_le in Em.
    rewrite H1, H2, H3. split; [reflexivity|split; [reflexivity|]].
    rewrite sview_upd_stream, length_insert. split; [reflexivity|split].
    + intros s Hs. rewrite H4 by tauto. rewrite sview_upd_stream.
      apply list_lookup_insert_ne. intros E. apply Hs. left. rewrite <- E, Z2Nat.id by lia. reflexivity.
    + intros s b gid Hs. apply H5 with (gid := if decide (s = Z.to_nat m) then -1 else gid).
      rewrite sview_upd_stream. destruct (decide (s = Z.to_nat m)) as [->|Hne].
      * destruct (sview_lookup_inv _ _ _ _ Hs) as (Hl&Hb&_).
        rewrite list_lookup_insert_eq by (unfold sview; rewrite length_fmap; exact Hl).
        rewrite stream_view_set_group_id, Hb. reflexivity.
      * rewrite list_lookup_insert_ne by congruence. exact Hs.
  - destruct (IH st) as (H1&H2&H3&H4&H5). split; [exact H1|split; [exact H2|split; [exact H3|split]]].
    + intros s Hs. apply H4. tauto.
    + exact H5.
Qed.

Lemma group_ok_frame sv sv' g x :
  group_ok sv g x ->
  (forall m, In m x.2 -> 0 <= m -> sv' !! Z.to_nat m = sv !! Z.to_nat m) ->
  group_ok sv' g x.
Proof.
  destruct x as [[v c] ms]. simpl. intros (H1&H2&H3&H4&H5) Hf.
  repeat split; auto. intros m Hm Hm0. rewrite Hf by auto. auto.
Qed.


Lemma in_repeat_neg m n : In m (repeat (-1) n) -> m = -1.
Proof. intros H. apply repeat_spec in H. exact H. Qed.

Lemma group_ok_fresh sv g dir stride ts G :
  group_ok sv g (group_view (fresh_group dir stride ts G)).
Proof.
  unfold group_view, fresh_group. cbn [sg_valid sg_member_count sg_members group_ok].
  rewrite nonneg_slots_repeat_neg.
  split; [apply repeat_length|split; [reflexivity|split; [discriminate|split; [constructor|]]]].
  intros m Hm Hm0. apply in_repeat_neg in Hm. lia.
Qed.

Lemma not_in_fresh m dir stride ts G :
  0 <= m -> ~ In m (group_view (fresh_group dir stride ts G)).2.
Proof. intros Hm Hin. apply in_repeat_neg in Hin. lia. Qed.

Lemma invalid_group_empty sv gv g c ms m :
  ginv sv gv -> gv !! g = Some (false, c, ms) -> 0 <= m -> ~ In m ms.
Proof.
  intros Hi Hg Hm Hin. destruct (ginv_ok _ _ Hi g _ Hg) as (_&Hc&Hv&_&_).
  specialize (Hv eq_refl). subst c.
  assert (Hin' : In m (nonneg_slots ms))
    by (unfold nonneg_slots; apply filter_In; split; [exact Hin|apply Z.leb_le; exact Hm]).
  destruct (nonneg_slots ms); [contradiction|simpl in Hv; lia].
Qed.

Lemma find_or_create_stream_group_spec st dir stride :
  ginv (sview st) (gview st) ->
  let r := find_or_create_stream_group st dir stride in
  ginv (sview r.2) (gview r.2) /\ phase_state r.2 = phase_state st /\
  0 <= r.1 < Z.of_nat MAX_STREAM_GROUPS /\
  (exists c ms, gview r.2 !! Z.to_nat r.1 = Some (true, c, ms)) /\
  (forall m, 0 <= m -> unlisted (gview st) m -> unlisted (gview r.2) m) /\
  (forall s b gid, sview st !! s = Some (b, gid) -> exists gid', sview r.2 !! s = Some (b, gid')).
Proof.
  intros Hi. cbv zeta. unfold find_or_create_stream_group. cbv zeta.
  pose proof (ginv_glen_st _ Hi) as Hgl.
  destruct (find_stream_group st dir stride >=? 0) eqn:E1; cbn [fst snd].
  { rewrite Z.geb_leb, Z.leb_le in E1. destruct (find_first_nonneg _ _ E1) as (G&HG&Hp).
    fold (find_stream_group st dir stride) in HG.
    set (k := find_stream_group st dir stride) in *.
    assert (Hsame : same_view st (upd_group st (Z.to_nat k) (set_sg_last_seen_timestamp (current_timestamp st))))
      by (apply same_view_upd_group; intros; reflexivity).
    destruct Hsame as (Hs1&Hs2&Hs3). rewrite Hs1, Hs2, Hs3.
    pose proof (lookup_lt _ _ _ HG) as Hlt. rewrite Hgl in Hlt.
    split; [exact Hi|split; [reflexivity|split; [unfold MAX_STREAM_GROUPS in *; lia|split]]].
    - apply andb_true_iff in Hp as [Hp _]. apply andb_true_iff in Hp as [Hp _].
      exists (sg_member_count G), (sg_members G). unfold gview. rewrite list_lookup_fmap, HG.
      simpl. unfold group_view. rewrite Hp. reflexivity.
    - split; [auto|eauto]. }
  destruct (find_first (fun g => negb (sg_valid g)) (stream_groups st) >=? 0) eqn:E2; cbn [fst snd].
  { rewrite Z.geb_leb, Z.leb_le in E2. destruct (find_first_nonneg _ _ E2) as (G&HG&Hp).
    set (k := find_first (fun g => negb (sg_valid g)) (stream_groups st)) in *.
    pose proof (lookup_lt _ _ _ HG) as Hlt.
    assert (HGv : gview st !! Z.to_nat k = Some (false, sg_member_count G, sg_members G)).
    { unfold gview. rewrite list_lookup_fmap, HG. apply negb_true_iff in Hp. simpl.
      unfold group_view. rewrite Hp. reflexivity. }
    rewrite sview_upd_group, gview_upd_group.
    split; [apply ginv_update_group; [exact Hi|unfold gview; rewrite length_fmap; exact Hlt|apply group_ok_fresh]|].
    split; [reflexivity|]. split; [rewrite Hgl in Hlt; unfold MAX_STREAM_GROUPS in *; lia|]. split.
    - do 2 eexists. rewrite list_lookup_insert_eq by (unfold gview; rewrite length_fmap; exact Hlt).
      reflexivity.
    - split; [|eauto]. intros m Hm Hu g x Hg. destruct (decide (g = Z.to_nat k)) as [->|Hne].
      + rewrite list_lookup_insert_eq in Hg by (unfold gview; rewrite length_fmap; exact Hlt).
        injection Hg as <-. apply not_in_fresh. exact Hm.
      + rewrite list_lookup_insert_ne in Hg by congruence. exact (Hu g x Hg). }
  set (oi := oldest_group (stream_groups st) 0 0 UINT64_MAX).
  assert (Hoi : (oi < length (stream_groups st))%nat)
    by (apply oldest_group_lt; rewrite Hgl; unfold MAX_STREAM_GROUPS; lia).
  pose proof (gview_lookup _ _ Hoi) as HGo.
  set (Go := stream_groups st !!! oi) in *.
  destruct (clear_member_group_ids_spec (sg_members Go) st) as (C1&C2&C3&C4&C5).
  set (st1 := clear_member_group_ids (sg_members Go) st) in *.
  rewrite sview_upd_group, gview_upd_group.
  assert (Hg1 : gview st1 = gview st) by (unfold gview; rewrite C1; reflexivity).
  rewrite Hg1. rewrite C1. fold Go.
  assert (Hglen : (oi < length (gview st))%nat) by (unfold gview; rewrite length_fmap; exact Hoi).
  split; [|split; [exact C2|split; [rewrite Hgl in Hoi; unfold MAX_STREAM_GROUPS in *; lia|split]]].
  - constructor.
    + rewrite C3. apply Hi.
    + rewrite length_insert. apply Hi.
    + intros g x Hg. destruct (decide (g = oi)) as [->|Hne].
      * rewrite list_lookup_insert_eq in Hg by exact Hglen. injection Hg as <-. apply group_ok_fresh.
      * rewrite list_lookup_insert_ne in Hg by congruence.
        apply group_ok_frame with (sv := sview st); [exact (ginv_ok _ _ Hi g x Hg)|].
        intros m Hm Hm0. rewrite C4; [reflexivity|]. rewrite Z2Nat.id by lia.
        intros Hin. destruct x as [[v c] ms]. simpl in Hm.
        pose proof (ginv_listed _ _ _ _ _ _ _ Hi Hg Hm Hm0) as L1.
        pose proof (ginv_listed _ _ _ _ _ _ _ Hi HGo Hin Hm0) as L2.
        rewrite L1 in L2. injection L2 as L2. lia.
  - do 2 eexists. rewrite Nat2Z.id. rewrite list_lookup_insert_eq by exact Hglen. reflexivity.
  - split; [|exact C5]. intros m Hm Hu g x Hg. destruct (decide (g = oi)) as [->|Hne].
    + rewrite list_lookup_insert_eq in Hg by exact Hglen. injection Hg as <-. apply not_in_fresh. exact Hm.
    + rewrite list_lookup_insert_ne in Hg by congruence. exact (Hu g x Hg).
Qed.

Lemma stream_view_set_class c e : stream_view (set_se_stream_class c e) = stream_view e.
Proof. reflexivity. Qed.

Lemma add_stream_to_group_tinv st s gi :
  ginv (sview st) (gview st) ->
  0 <= gi < Z.of_nat MAX_STREAM_GROUPS ->
  (exists c ms, gview st !! Z.to_nat gi = Some (true, c, ms)) ->
  0 <= s -> (exists gid, sview st !! Z.to_nat s = Some (true, gid)) ->
  unlisted (gview st) s ->
  ginv (sview (add_stream_to_group st s gi)) (gview (add_stream_to_group st s gi)) /\
  phase_state (add_stream_to_group st s gi) = phase_state st.
Proof.
  intros Hi Hgi (c&ms&Hg) Hs (gid&Hsv) Hu.
  destruct (sview_lookup_inv _ _ _ _ Hsv) as (Hsl&Hv&_).
  assert (Hs32 : s < Z.of_nat STREAM_TABLE_SIZE)
    by (rewrite (ginv_slen_st _ Hi) in Hsl; lia).
  unfold add_stream_to_group.
  rewrite (range_false gi) by exact Hgi. rewrite (range_false s) by lia. cbv zeta.
  pose proof (lookup_lt _ _ _ Hg) as Hgl. unfold gview in Hgl. rewrite length_fmap in Hgl.
  pose proof (gview_lookup _ _ Hgl) as HG. rewrite Hg in HG.
  set (G := stream_groups st !!! Z.to_nat gi) in *.
  unfold group_view in HG. injection HG as HGv HGc HGm.
  destruct (find_first_spec (fun m => m <? 0) (sg_members G)) as [[Hk _]|(k&x&Hk&Hx&Hxn)].
  - rewrite Hk. change (-1 >=? 0) with false. cbv iota.
    rewrite sview_upd_stream, stream_view_set_group_id, Hv. rewrite ?stream_groups_upd_stream, ?stream_table_upd_group, ?gview_upd_stream,
      ?sview_upd_group, ?phase_upd_stream, ?phase_upd_group, ?stream_view_set_group_id,
      ?group_view_set_members, ?group_view_set_valid, ?sg_member_count_set_members,
      ?sg_members_set_members.
    split; [|reflexivity]. apply ginv_stream_unlisted; [exact Hi|].
    rewrite Z2Nat.id by lia. exact Hu.
  - rewrite Hk. replace (Z.of_nat k >=? 0) with true
      by (symmetry; rewrite Z.geb_leb; apply Z.leb_le; lia).
    cbv iota. rewrite Nat2Z.id.
    rewrite sview_upd_stream, gview_upd_stream, gview_upd_group. rewrite ?stream_groups_upd_stream, ?stream_table_upd_group, ?gview_upd_stream,
      ?sview_upd_group, ?phase_upd_stream, ?phase_upd_group, ?stream_view_set_group_id,
      ?group_view_set_members, ?group_view_set_valid, ?sg_member_count_set_members,
      ?sg_members_set_members.
    rewrite stream_view_set_class, stream_view_set_group_id, Hv. fold G.
    rewrite <- HGv, <- HGc, <- HGm. rewrite <- HGm in Hx.
    apply Z.ltb_lt in Hxn.
    pose proof (ginv_add_slot _ _ (Z.to_nat s) (Z.to_nat gi) _ _ k x gid Hi Hg Hsv
                  ltac:(rewrite Z2Nat.id by lia; exact Hu) Hx Hxn) as H.
    rewrite !Z2Nat.id in H by lia. split; [exact H|reflexivity].
Qed.

Lemma generate_prefetches_tinv h st si : tinv st -> tinv (generate_prefetches h st si).
Proof. apply same_view_tinv, generate_prefetches_view. Qed.

Lemma group_then_add_tinv st dir stride s :
  tinv st -> 0 <= s -> (exists gid, sview st !! Z.to_nat s = Some (true, gid)) ->
  unlisted (gview st) s ->
  tinv (add_stream_to_group (find_or_create_stream_group st dir stride).2 s
          (find_or_create_stream_group st dir stride).1).
Proof.
  intros [Hg Hp] Hs (gid&Hsv) Hu.
  destruct (find_or_create_stream_group_spec st dir stride Hg) as (F1&F2&F3&F4&F5&F6).
  destruct (add_stream_to_group_tinv _ s _ F1 F3 F4 Hs ltac:(eapply F6; exact Hsv)
              ltac:(apply F5; assumption)) as [A1 A2].
  split; [exact A1|]. rewrite A2, F2. exact Hp.
Qed.

Lemma create_stream_tinv h st trained : tinv st -> tinv (create_stream h st trained).
Proof.
  intros H. unfold create_stream.
  destruct (allocate_stream_entry_spec st H) as [H1 Hidx].
  destruct (allocate_stream_entry st) as [idx st1]. cbn [fst snd] in H1, Hidx.
  destruct (idx <? 0) eqn:E; [exact H1|]. apply Z.ltb_ge in E.
  destruct Hidx as [Hn|(Hr&gid&Hsv)]; [lia|].
  cbv zeta.
  assert (Hu : unlisted (gview st1) idx)
    by (apply (unlisted_of_view _ _ _ false gid (proj1 H1) E Hsv); left; reflexivity).
  set (st2 := upd_stream st1 (Z.to_nat idx) _).
  assert (H2 : tinv st2).
  { destruct H1 as [Hg Hp]. split; [|exact Hp].
    unfold st2. rewrite sview_upd_stream, gview_upd_stream.
    apply ginv_stream_unlisted; [exact Hg|]. rewrite Z2Nat.id by lia. exact Hu. }
  assert (Hv2 : exists gid, sview st2 !! Z.to_nat idx = Some (true, gid)).
  { eexists. unfold st2. rewrite sview_upd_stream. apply list_lookup_insert_eq.
    rewrite (ginv_slen _ _ (proj1 H1)). unfold STREAM_TABLE_SIZE in *. lia. }
  pose proof (group_then_add_tinv st2 (te_direction trained) (te_stride trained) idx H2 E Hv2 Hu) as H3.
  destruct (find_or_create_stream_group st2 (te_direction trained) (te_stride trained)) as [gi st3].
  apply generate_prefetches_tinv. exact H3.
Qed.

Lemma reactivate_stream_tinv h st i tb :
  tinv st -> (i < length (stream_table st))%nat -> se_valid (stream_table st !!! i) = true ->
  tinv (reactivate_stream h st i tb).
Proof.
  intros H Hi Hv. unfold reactivate_stream. cbv zeta.
  set (e := stream_table st !!! i) in *.
  set (st1 := upd_stream st i _).
  assert (Hs1 : sview st1 = sview st).
  { unfold st1. rewrite sview_upd_stream. apply list_insert_id.
    rewrite sview_lookup by exact Hi. reflexivity. }
  assert (H1 : tinv st1) by (apply (tinv_frame st); [exact Hs1|reflexivity|reflexivity|exact H]).
  apply generate_prefetches_tinv. cbn [se_group_id se_direction se_stride].
  destruct (se_group_id e <? 0) eqn:E; [|exact H1].
  apply Z.ltb_lt in E.
  assert (Hsv : sview st1 !! Z.to_nat (Z.of_nat i) = Some (true, se_group_id e))
    by (rewrite Hs1, Nat2Z.id, sview_lookup by exact Hi; unfold stream_view; fold e; rewrite Hv; reflexivity).
  pose proof (group_then_add_tinv st1 (se_direction e) (se_stride e) (Z.of_nat i) H1
                ltac:(lia) ltac:(eexists; exact Hsv)
                ltac:(apply (unlisted_of_view _ _ _ true (se_group_id e) (proj1 H1)); [lia|exact Hsv|right; exact E]))
    as H2.
  destruct (find_or_create_stream_group st1 (se_direction e) (se_stride e)) as [gi st2].
  exact H2.
Qed.

Lemma try_relaunch_stream_tinv h st mb dir stride :
  tinv st -> tinv (try_relaunch_stream h st mb dir stride).2.
Proof.
  intros H. unfold try_relaunch_stream. cbv zeta.
  destruct (find_matching_inactive_stream st dir stride (compute_region_base mb) >=? 0) eqn:E;
    cbn [snd]; [|exact H].
  rewrite Z.geb_leb, Z.leb_le in E. destruct (find_first_nonneg _ _ E) as (x&Hx&Hp).
  fold (find_matching_inactive_stream st dir stride (compute_region_base mb)) in Hx.
  apply reactivate_stream_tinv; [exact H|eapply lookup_lt; exact Hx|].
  rewrite (list_lookup_total_correct _ _ _ Hx).
  repeat (apply andb_true_iff in Hp as [Hp _]). exact Hp.
Qed.

Lemma set_counters_view ts cc st : same_view st (set_counters ts cc st).
Proof. split; [reflexivity|split; reflexivity]. Qed.

Lemma upd_training_view st i f : same_view st (upd_training st i f).
Proof. split; [reflexivity|split; reflexivity]. Qed.

Lemma stream_view_trigger ts e : stream_view (se_trigger ts e) = stream_view e.
Proof. reflexivity. Qed.

Lemma prefetcher_cache_operate_tinv h st addr ip hit useful type md :
  tinv st -> tinv (fst (prefetcher_cache_operate h st addr ip hit useful type md)).
Proof.
  intros H. unfold prefetcher_cache_operate.
  destruct hit; [exact H|]. cbv zeta.
  set (ts := u64 (current_timestamp st + 1)).
  set (s1 := set_counters ts (cleanup_counter st) st).
  assert (H1 : tinv s1) by (eapply same_view_tinv; [apply set_counters_view|exact H]).
  set (s2 := update_phase_state s1 false).
  assert (H2 : tinv s2) by (apply update_phase_state_tinv; exact H1).
  set (cc := u64 (cleanup_counter s2 + 1)).
  set (s3 := set_counters ts cc s2).
  assert (H3 : tinv s3) by (eapply same_view_tinv; [apply set_counters_view|exact H2]).
  set (s4 := if cc >=? CLEANUP_INTERVAL then _ else s3).
  assert (H4 : tinv s4).
  { unfold s4. destruct (cc >=? CLEANUP_INTERVAL); [|exact H3].
    eapply same_view_tinv; [apply set_counters_view|]. apply remove_dead_streams_tinv. exact H3. }
  clearbody s4.
  destruct (find_stream_for_block s4 (block_of_address addr) >=? 0).
  { cbn [fst]. apply generate_prefetches_tinv.
    eapply same_view_tinv; [apply reinforce_stream_confidence_view|].
    eapply same_view_tinv; [apply same_view_upd_stream; apply stream_view_trigger|]. exact H4. }
  set (p := if _ <? 0 then _ else _).
  assert (H5 : tinv p.2).
  { unfold p. destruct (_ <? 0); cbn [snd]; [|exact H4].
    unfold allocate_training_entry. cbn [snd].
    eapply same_view_tinv; [apply upd_training_view|exact H4]. }
  clearbody p. destruct p as [ti s5]. cbn [snd] in H5.
  set (s6 := update_training_entry s5 ti (block_of_address addr)).
  assert (H6 : tinv s6).
  { unfold s6, update_training_entry. eapply same_view_tinv; [apply upd_training_view|exact H5]. }
  clearbody s6.
  destruct (_ && _ && _); [|exact H6].
  pose proof (try_relaunch_stream_tinv h s6 (block_of_address addr)
                (te_direction (training_table s6 !!! ti)) (te_stride (training_table s6 !!! ti)) H6) as H7.
  destruct (try_relaunch_stream _ _ _ _ _) as [rl s7]. cbn [snd] in H7. cbn [fst].
  eapply same_view_tinv; [apply upd_training_view|].
  destruct rl; [exact H7|]. apply create_stream_tinv. exact H7.
Qed.

Lemma prefetcher_cycle_operate_tinv h st : tinv st -> tinv (prefetcher_cycle_operate h st).
Proof.
  unfold prefetcher_cycle_operate. generalize (seq 0 STREAM_TABLE_SIZE) as l.
  intros l. revert st. induction l as [|i l IH]; intros st H; simpl; [exact H|].
  apply IH. destruct (_ && _); [apply generate_prefetches_tinv; exact H|exact H].
Qed.

Lemma lookup_repeat_eq {A} (a x : A) n i : repeat a n !! i = Some x -> x = a.
Proof.
  intros H. apply list_elem_of_lookup_2, list_elem_of_In in H. apply repeat_spec in H. exact H.
Qed.

Lemma tinv_init : tinv tstate_init.
Proof.
  split.
  - constructor.
    + reflexivity.
    + reflexivity.
    + intros g x Hg. unfold gview, tstate_init in Hg. cbn [stream_groups] in Hg.
      rewrite list_lookup_fmap in Hg.
      destruct (repeat default_stream_group MAX_STREAM_GROUPS !! g) eqn:E; [|discriminate].
      simpl in Hg. injection Hg as <-. apply lookup_repeat_eq in E. subst s.
      unfold group_view, default_stream_group. cbn [sg_valid sg_member_count sg_members group_ok].
      rewrite nonneg_slots_repeat_neg.
      split; [apply repeat_length|split; [reflexivity|split; [reflexivity|split; [constructor|]]]].
      intros m Hm Hm0. apply in_repeat_neg in Hm. lia.
  - unfold PInv. simpl. unfold PHASE_WINDOW_SIZE. split; [lia|discriminate].
Qed.

Lemma treachable_tinv st : treachable st -> tinv st.
Proof.
  induction 1.
  - exact tinv_init.
  - apply prefetcher_cache_operate_tinv. assumption.
  - exact IHtreachable.
  - apply prefetcher_cycle_operate_tinv. assumption.
Qed.

Lemma nonneg_slots_nodup_index (ms : list Z) k k' m :
  List.NoDup (nonneg_slots ms) -> ms !! k = Some m -> ms !! k' = Some m -> 0 <= m -> k = k'.
Proof.
  revert k k'. induction ms as [|a ms IH]; intros k k' Hnd Hk Hk' Hm; [discriminate|].
  rewrite nonneg_slots_cons in Hnd.
  destruct k as [|k], k' as [|k']; simpl in Hk, Hk'; auto.
  - injection Hk as ->. rewrite (proj2 (Z.leb_le 0 m) Hm) in Hnd. inversion Hnd as [|? ? Hn _]; subst.
    exfalso. apply Hn. unfold nonneg_slots. apply filter_In. split; [|apply Z.leb_le; exact Hm].
    apply list_elem_of_In. eapply list_elem_of_lookup_2. exact Hk'.
  - injection Hk' as ->. rewrite (proj2 (Z.leb_le 0 m) Hm) in Hnd. inversion Hnd as [|? ? Hn _]; subst.
    exfalso. apply Hn. unfold nonneg_slots. apply filter_In. split; [|apply Z.leb_le; exact Hm].
    apply list_elem_of_In. eapply list_elem_of_lookup_2. exact Hk.
  - f_equal. apply IH; auto. destruct (0 <=? a); [inversion Hnd; assumption|exact Hnd].
Qed.

(** C4 (corrected): in every reachable state the group-to-stream direction of the membership
    invariant holds: each group's member_count is the number of non-negative slots of its member
    list, and each non-negative member is the index of a valid stream whose group_id is that group,
    the group is valid, and the index occupies exactly one slot of exactly one group. *)
Lemma group_membership_invariant st :
  treachable st ->
  length (stream_table st) = STREAM_TABLE_SIZE /\
  length (stream_groups st) = MAX_STREAM_GROUPS /\
  forall g G, stream_groups st !! g = Some G ->
    sg_member_count G = Z.of_nat (length (nonneg_slots (sg_members G))) /\
    forall k m, sg_members G !! k = Some m -> 0 <= m ->
      sg_valid G = true /\
      (Z.to_nat m < STREAM_TABLE_SIZE)%nat /\
      se_valid (stream_table st !!! Z.to_nat m) = true /\
      se_group_id (stream_table st !!! Z.to_nat m) = Z.of_nat g /\
      (forall g' G' k', stream_groups st !! g' = Some G' -> sg_members G' !! k' = Some m ->
         g' = g /\ k' = k).
Proof.
  intros Hr. destruct (treachable_tinv _ Hr) as [Hi _].
  split; [exact (ginv_slen_st _ Hi)|split; [exact (ginv_glen_st _ Hi)|]].
  assert (Hok : forall g G, stream_groups st !! g = Some G ->
            group_ok (sview st) g (sg_valid G, sg_member_count G, sg_members G)).
  { intros g G HG. apply (ginv_ok _ _ Hi). unfold gview. rewrite list_lookup_fmap, HG. reflexivity. }
  intros g G HG. destruct (Hok g G HG) as (Hlen&Hc&Hv&Hnd&Hm).
  split; [exact Hc|]. intros k m Hk Hm0.
  assert (Hin : In m (sg_members G))
    by (apply list_elem_of_In; eapply list_elem_of_lookup_2; exact Hk).
  pose proof (Hm m Hin Hm0) as Hs.
  destruct (sview_lookup_inv _ _ _ _ Hs) as (Hsl&Hsv&Hsg).
  split.
  { destruct (sg_valid G) eqn:EV; [reflexivity|]. specialize (Hv eq_refl).
    assert (Hin' : In m (nonneg_slots (sg_members G)))
      by (unfold nonneg_slots; apply filter_In; split; [exact Hin|apply Z.leb_le; exact Hm0]).
    destruct (nonneg_slots (sg_members G)); [contradiction|simpl in Hc; lia]. }
  split; [rewrite (ginv_slen_st _ Hi) in Hsl; exact Hsl|].
  split; [exact Hsv|split; [exact Hsg|]].
  intros g' G' k' HG' Hk'.
  assert (Hin2 : In m (sg_members G'))
    by (apply list_elem_of_In; eapply list_elem_of_lookup_2; exact Hk').
  destruct (Hok g' G' HG') as (_&_&_&Hnd'&Hm').
  pose proof (Hm' m Hin2 Hm0) as Hs'. rewrite Hs in Hs'. injection Hs' as Hgg.
  apply Nat2Z.inj in Hgg. subst g'. rewrite HG in HG'. injection HG' as <-.
  split; [reflexivity|]. symmetry. eapply nonneg_slots_nodup_index; eauto.
Qed.

Lemma miss_run_reachable h bs st : treachable st -> treachable (miss_run h bs st).
Proof.
  unfold miss_run. revert st. induction bs as [|b bs IH]; intros st H; cbn [fold_left]; [exact H|].
  apply IH. apply treach_operate. exact H.
Qed.



(** C4 (counterexample): after nine consecutive misses from block 0, stream 8 is valid and keeps
    group_id 0, group 0 is valid, yet stream 8 is not in group 0's member list. *)
Lemma stale_group_id_unlisted :
  let st := miss_run idle_host (blocksN 9) tstate_init in
  treachable st /\
  se_valid (stream_table st !!! 8%nat) = true /\ se_group_id (stream_table st !!! 8%nat) = 0 /\
  sg_valid (stream_groups st !!! 0%nat) = true /\ ~ In 8 (sg_members (stream_groups st !!! 0%nat)).
Proof.
  cbv zeta. split; [apply miss_run_reachable; constructor|].
  vm_compute. split; [reflexivity|split; [reflexivity|split; [reflexivity|]]].
  intros H. repeat (destruct H as [H|H]; [discriminate|]). exact H.
Qed.

Lemma group_membership_invariant_witness :
  let st := miss_run idle_host (blocksN 9) tstate_init in
  treachable st /\
  sg_member_count (stream_groups st !!! 0%nat) =
    Z.of_nat (length (nonneg_slots (sg_members (stream_groups st !!! 0%nat)))).
Proof.
  intros st. assert (H : treachable st) by (apply miss_run_reachable; constructor).
  clearbody st. split; [exact H|].
  destruct (group_membership_invariant st H) as (_&Hg&Hall).
  apply (Hall 0%nat). apply list_lookup_lookup_total_lt. rewrite Hg. unfold MAX_STREAM_GROUPS. lia.
Defined.

(** C5: in a reachable state that is in phase transition, one phase update either increments
    recovery_counter and stays in transition (degree unchanged), or, when the counter reaches
    PHASE_RECOVERY_WINDOW = 32, leaves the transition, resets the counter and restores
    current_prefetch_degree to BASE_PREFETCH_DEGREE = 2. *)
Lemma phase_recovery_step st b :
  treachable st -> ph_in_phase_transition (phase_state st) = true ->
  let p := phase_state st in
  let p' := phase_state (update_phase_state st b) in
  (ph_recovery_counter p + 1 < PHASE_RECOVERY_WINDOW /\
   ph_in_phase_transition p' = true /\
   ph_recovery_counter p' = ph_recovery_counter p + 1 /\
   ph_current_prefetch_degree p' = ph_current_prefetch_degree p) \/
  (ph_recovery_counter p + 1 = PHASE_RECOVERY_WINDOW /\
   ph_in_phase_transition p' = false /\
   ph_current_prefetch_degree p' = BASE_PREFETCH_DEGREE /\
   ph_recovery_counter p' = 0).
Proof.
  intros Hr Ht. destruct (treachable_tinv _ Hr) as [_ Hp]. cbv zeta.
  unfold update_phase_state, set_phase_state. cbn [phase_state].
  destruct (phase_state st) as [ws term miss succ deg tr rec]. cbn in Ht. subst tr.
  unfold PInv in Hp. cbn [ph_misses_in_window ph_in_phase_transition ph_recovery_counter] in Hp.
  destruct Hp as [Hm Ht]. specialize (Ht eq_refl).
  unfold phase_update, PHASE_WINDOW_SIZE, PHASE_RECOVERY_WINDOW in *. cbn [ph_misses_in_window].
  rewrite (u32_small (miss + 1)) by lia.
  replace (miss + 1 >=? 64) with false by (symmetry; rewrite Z.geb_leb; apply Z.leb_gt; lia).
  cbn. unfold try_phase_recovery, PHASE_RECOVERY_WINDOW. cbn. rewrite u32_small by lia.
  destruct (Z.leb_spec 32 (rec + 1)) as [E|E].
  - replace (rec + 1 >=? 32) with true by (symmetry; rewrite Z.geb_leb; apply Z.leb_le; lia).
    right. cbn. split; [lia|]. repeat split.
  - replace (rec + 1 >=? 32) with false by (symmetry; rewrite Z.geb_leb; apply Z.leb_gt; lia).
    left. cbn. split; [lia|]. repeat split.
Qed.


(** C7: both tagging functions preserve the low 30 bits of the metadata word; the Transformer tag
    sets bit 30 and clears bit 31, the Pythia tag clears bit 30 and sets bit 31. *)
Lemma tag_metadata_bits : forall m,
  Z.land (tag_metadata_transformer m) (Z.ones 30) = Z.land m (Z.ones 30) /\
  Z.land (tag_metadata_pythia m) (Z.ones 30) = Z.land m (Z.ones 30) /\
  Z.testbit (tag_metadata_transformer m) 30 = true /\ Z.testbit (tag_metadata_transformer m) 31 = false /\
  Z.testbit (tag_metadata_pythia m) 30 = false /\ Z.testbit (tag_metadata_pythia m) 31 = true.
Proof.
  intro m.
  assert (HP : forall n, 0 <= n -> Z.testbit METADATA_PRESERVE_MASK n = (n <? 30) || ((31 <? n) && (n <? 32))).
  { intros n Hn. unfold METADATA_PRESERVE_MASK, METADATA_SOURCE_MASK, METADATA_TRANSFORMER_BIT, METADATA_PYTHIA_BIT.
    rewrite Z.land_spec, Z.lnot_spec, Z.lor_spec by lia.
    rewrite !Z.shiftl_1_l, !Z.pow2_bits_eqb by lia.
    replace (2 ^ 32 - 1) with (Z.ones 32) by reflexivity.
    rewrite Z.testbit_ones_nonneg by lia.
    destruct (Z.ltb_spec n 30), (Z.ltb_spec 31 n), (Z.ltb_spec n 32), (Z.eqb_spec 30 n), (Z.eqb_spec 31 n); simpl; try reflexivity; lia. }
  unfold tag_metadata_transformer, tag_metadata_pythia, METADATA_TRANSFORMER_BIT, METADATA_PYTHIA_BIT.
  rewrite !Z.shiftl_1_l.
  repeat split.
  - apply Z.bits_inj'; intros n Hn.
    rewrite !Z.land_spec, Z.lor_spec, Z.land_spec, HP, Z.pow2_bits_eqb, Z.testbit_ones_nonneg by lia.
    destruct (Z.ltb_spec n 30), (Z.eqb_spec 30 n); simpl; try lia; rewrite ?andb_true_r, ?andb_false_r, ?orb_false_r; try reflexivity.
    all: destruct (Z.testbit m n); reflexivity.
  - apply Z.bits_inj'; intros n Hn.
    rewrite !Z.land_spec, Z.lor_spec, Z.land_spec, HP, Z.pow2_bits_eqb, Z.testbit_ones_nonneg by lia.
    destruct (Z.ltb_spec n 30), (Z.eqb_spec 31 n); simpl; try lia; rewrite ?andb_true_r, ?andb_false_r, ?orb_false_r; try reflexivity.
    all: destruct (Z.testbit m n); reflexivity.
  - rewrite Z.lor_spec, Z.land_spec, HP, Z.pow2_bits_eqb by lia. simpl. apply orb_true_r.
  - rewrite Z.lor_spec, Z.land_spec, HP, Z.pow2_bits_eqb by lia. simpl. rewrite andb_false_r. reflexivity.
  - rewrite Z.lor_spec, Z.land_spec, HP, Z.pow2_bits_eqb by lia. simpl. rewrite andb_false_r. reflexivity.
  - rewrite Z.lor_spec, Z.land_spec, HP, Z.pow2_bits_eqb by lia. simpl. apply orb_true_r.
Qed.


(** C8: on a cache hit the transformer prefetcher's prefetcher_cache_operate returns metadata_in
    and leaves the whole prefetcher state unchanged. *)
Lemma cache_hit_no_effect : forall h st addr ip useful ty md,
  prefetcher_cache_operate h st addr ip true useful ty md = (st, md).
Proof. reflexivity. Qed.

(** C10: on every input the transformer prefetcher's prefetcher_cache_operate returns exactly
    metadata_in. *)
Lemma cache_operate_returns_metadata : forall h st addr ip hit useful ty md,
  snd (prefetcher_cache_operate h st addr ip hit useful ty md) = md.
Proof.
  intros. unfold prefetcher_cache_operate. destruct hit; [reflexivity|].
  cbv zeta. repeat case_match; reflexivity.
Qed.

Lemma is_noise_spec : forall g1 g2, is_noise g1 g2 = (g1 * g2 <? 0) && ((Z.abs g1 =? 1) || (Z.abs g2 =? 1)).
Proof.
  intros g1 g2. unfold is_noise.
  destruct (Z.eqb_spec g1 1), (Z.eqb_spec g1 (-1)), (Z.eqb_spec g2 1), (Z.eqb_spec g2 (-1)),
    (Z.ltb_spec g1 0), (Z.ltb_spec g2 0), (Z.gtb_spec g1 0), (Z.gtb_spec g2 0),
    (Z.ltb_spec (g1 * g2) 0), (Z.eqb_spec (Z.abs g1) 1), (Z.eqb_spec (Z.abs g2) 1),
    (Z.leb_spec (Z.abs g1) 1), (Z.leb_spec (Z.abs g2) 1); simpl; try reflexivity; subst; try nia.
Qed.


(** C1 (counterexample): with NUM_SET = 2048 the sample rate is 8, not 32. *)
Lemma sample_rate_2048 : get_set_sample_rate 2048 = 8.
Proof. reflexivity. Qed.



(** C2 (counterexample): a prefetch fill into sampler set 0 whose metadata carries the Pythia
    bit 31 (and not bit 30) increments the sampler's transformer_issued, and pythia_issued stays 0. *)
Lemma sampler_credit_ignores_metadata :
  let s0 := selector_initialize 2048 16 tstate_init tt in
  let s1 := fst (selector_cache_fill idle_host s0 0 0 0 true 0 (2 ^ 31)) in
  is_sampler_set 2048 0 = true /\ Z.testbit (2 ^ 31) 31 = true /\ Z.testbit (2 ^ 31) 30 = false /\
  pythia_issued (samplers s1 !!! 0%nat) = 0 /\ transformer_issued (samplers s1 !!! 0%nat) = 1.
Proof. vm_compute. repeat split; reflexivity. Qed.


Section SelectorFacts.
Context {T P : Type} `{PT : Prefetcher T} `{PP : Prefetcher P}.

Lemma should_allow_prefetch_frame (h : host) (s : selector T P) :
  let s' := snd (should_allow_prefetch h s) in
  pref_transformer s' = pref_transformer s /\ pref_pythia s' = pref_pythia s /\
  NUM_SET s' = NUM_SET s /\ samplers s' = samplers s /\ dedicated_stats s' = dedicated_stats s /\
  policy_selector s' = policy_selector s /\
  transformer_selected_count s' = transformer_selected_count s /\
  pythia_selected_count s' = pythia_selected_count s.
Proof. unfold should_allow_prefetch. cbv zeta. repeat case_match; simpl; repeat split. Qed.

Lemma credit_frame incr_t incr_p (s : selector T P) set :
  let s' := credit incr_t incr_p s set in
  pref_transformer s' = pref_transformer s /\ pref_pythia s' = pref_pythia s /\
  NUM_SET s' = NUM_SET s /\ policy_selector s' = policy_selector s /\
  prefetch_allowed_count s' = prefetch_allowed_count s /\
  prefetch_throttled_count s' = prefetch_throttled_count s /\
  transformer_selected_count s' = transformer_selected_count s /\
  pythia_selected_count s' = pythia_selected_count s.
Proof. unfold credit. cbv zeta. repeat case_match; simpl; repeat split. Qed.

Lemma credit_sampler incr_t incr_p (s : selector T P) set :
  is_sampler_set (NUM_SET s) set = true ->
  Z.quot set (get_set_sample_rate (NUM_SET s)) < Z.of_nat (length (samplers s)) ->
  let i := Z.to_nat (Z.quot set (get_set_sample_rate (NUM_SET s))) in
  samplers (credit incr_t incr_p s set) = <[i := incr_t (samplers s !!! i)]> (samplers s).
Proof.
  intros Hs Hi. unfold credit. rewrite Hs. apply Z.ltb_lt in Hi. rewrite Hi. reflexivity.
Qed.

Lemma should_allow_prefetch_decision (h : host) (s : selector T P) :
  fst (should_allow_prefetch h s) =
  qltb (get_bandwidth_utilization h) BW_UTIL_THRESHOLD &&
  (qltb (get_bandwidth_utilization h) (get_prefetch_accuracy s) ||
   qltb MIN_ACCURACY_THRESHOLD (get_prefetch_accuracy s)).
Proof. unfold should_allow_prefetch. cbv zeta. repeat case_match; simpl; congruence. Qed.

Lemma should_allow_prefetch_throttled (h : host) (s : selector T P) :
  fst (should_allow_prefetch h s) = false ->
  let s' := snd (should_allow_prefetch h s) in
  prefetch_throttled_count s' = u64 (prefetch_throttled_count s + 1) /\
  prefetch_allowed_count s' = prefetch_allowed_count s.
Proof. unfold should_allow_prefetch. cbv zeta. repeat case_match; simpl; try discriminate; auto. Qed.

Lemma selector_cache_operate_throttled (h : host) (s : selector T P) addr ip hit useful ty md :
  let set := Z.land (Z.shiftr addr LOG2_BLOCK_SIZE) (NUM_SET s - 1) in
  let s1 := if useful && hit then credit incr_transformer_useful incr_pythia_useful s set else s in
  fst (should_allow_prefetch h s1) = false ->
  selector_cache_operate h s addr ip hit useful ty md = (snd (should_allow_prefetch h s1), md).
Proof.
  cbv zeta. intros Hno. unfold selector_cache_operate. cbv zeta.
  destruct (should_allow_prefetch h _) as [[|] s2]; simpl in *; congruence.
Qed.

Lemma selector_cache_operate_frame (h : host) (s : selector T P) addr ip hit useful ty md :
  let set := Z.land (Z.shiftr addr LOG2_BLOCK_SIZE) (NUM_SET s - 1) in
  let s1 := if useful && hit then credit incr_transformer_useful incr_pythia_useful s set else s in
  let s' := fst (selector_cache_operate h s addr ip hit useful ty md) in
  samplers s' = samplers s1 /\ policy_selector s' = policy_selector s.
Proof.
  assert (Hp : policy_selector (if useful && hit then credit incr_transformer_useful incr_pythia_useful s
      (Z.land (Z.shiftr addr LOG2_BLOCK_SIZE) (NUM_SET s - 1)) else s) = policy_selector s).
  { destruct (useful && hit); [apply credit_frame | reflexivity]. }
  cbv zeta. unfold selector_cache_operate. cbv zeta. revert Hp.
  set (s1 := if useful && hit then _ else _). intros Hp.
  pose proof (should_allow_prefetch_frame h s1) as Fr.
  destruct (should_allow_prefetch h s1) as [allow s2]. simpl in Fr.
  destruct Fr as (_&_&_&F1&_&F2&_&_).
  destruct allow; simpl; [|split; congruence].
  repeat case_match; simpl; split; congruence.
Qed.

Lemma selector_cache_fill_frame (h : host) (s : selector T P) (addr set way : Z) (pf : bool) (ev md : Z) :
  let s1 := if pf then credit incr_transformer_issued incr_pythia_issued s set else s in
  let s' := fst (selector_cache_fill h s addr set way pf ev md) in
  samplers s' = samplers s1 /\ policy_selector s' = policy_selector s.
Proof.
  assert (Hp : policy_selector (if pf then credit incr_transformer_issued incr_pythia_issued s set
                                else s) = policy_selector s).
  { destruct pf; [apply credit_frame | reflexivity]. }
  cbv zeta. unfold selector_cache_fill. cbv zeta. revert Hp.
  set (s1 := if pf then _ else _). intros Hp.
  repeat case_match; simpl; split; congruence.
Qed.


End SelectorFacts.

(** C6: the selector allows a prefetch iff bw_util < 0.9 and (accuracy > bw_util or
    accuracy > 0.1), with accuracy computed after the useful-credit of this call; when it is not
    allowed, the call returns metadata_in, increments prefetch_throttled_count and leaves both
    underlying prefetchers and the selection counters untouched. *)
Theorem throttle_decision {T P : Type} `{PT : Prefetcher T} `{PP : Prefetcher P}
  (h : host) (s : selector T P) addr ip hit useful ty md :
  let set := Z.land (Z.shiftr addr LOG2_BLOCK_SIZE) (NUM_SET s - 1) in
  let s1 := if useful && hit then credit incr_transformer_useful incr_pythia_useful s set else s in
  let bw := get_bandwidth_utilization h in
  let acc := get_prefetch_accuracy s1 in
  let allow := qltb bw BW_UTIL_THRESHOLD && (qltb bw acc || qltb MIN_ACCURACY_THRESHOLD acc) in
  let r := selector_cache_operate h s addr ip hit useful ty md in
  fst (should_allow_prefetch h s1) = allow /\
  (allow = false ->
   snd r = md /\
   prefetch_throttled_count (fst r) = u64 (prefetch_throttled_count s + 1) /\
   prefetch_allowed_count (fst r) = prefetch_allowed_count s /\
   pref_transformer (fst r) = pref_transformer s /\ pref_pythia (fst r) = pref_pythia s /\
   transformer_selected_count (fst r) = transformer_selected_count s /\
   pythia_selected_count (fst r) = pythia_selected_count s).
Proof.
  cbv zeta. split; [apply should_allow_prefetch_decision|].
  intros Hno. rewrite <- should_allow_prefetch_decision in Hno.
  rewrite (selector_cache_operate_throttled h s addr ip hit useful ty md Hno). simpl.
  destruct (should_allow_prefetch_throttled h _ Hno) as [H1 H2].
  destruct (should_allow_prefetch_frame h
    (if useful && hit then credit incr_transformer_useful incr_pythia_useful s
        (Z.land (Z.shiftr addr LOG2_BLOCK_SIZE) (NUM_SET s - 1)) else s)) as (S1&S2&_&_&_&_&S3&S4).
  rewrite H1, H2, S1, S2, S3, S4.
  destruct (useful && hit); [|repeat split].
  destruct (credit_frame incr_transformer_useful incr_pythia_useful s
      (Z.land (Z.shiftr addr LOG2_BLOCK_SIZE) (NUM_SET s - 1))) as (G1&G2&_&_&G3&G4&G5&G6).
  rewrite G1, G2, G3, G4, G5, G6. repeat split.
Qed.


(** C2 (corrected): in a sampler set whose sampler index is in range, a prefetch fill always
    increments that sampler's transformer_issued, and a useful-prefetch hit always increments its
    transformer_useful, whatever the metadata bits are. *)
Theorem sampler_sets_credit_transformer {T P : Type} `{PT : Prefetcher T} `{PP : Prefetcher P}
  (h : host) (s : selector T P) addr ip ty set way ev md :
  let i := Z.to_nat (Z.quot set (get_set_sample_rate (NUM_SET s))) in
  is_sampler_set (NUM_SET s) set = true ->
  Z.quot set (get_set_sample_rate (NUM_SET s)) < Z.of_nat (length (samplers s)) ->
  samplers (fst (selector_cache_fill h s addr set way true ev md)) =
    <[i := incr_transformer_issued (samplers s !!! i)]> (samplers s) /\
  (set = Z.land (Z.shiftr addr LOG2_BLOCK_SIZE) (NUM_SET s - 1) ->
   samplers (fst (selector_cache_operate h s addr ip true true ty md)) =
    <[i := incr_transformer_useful (samplers s !!! i)]> (samplers s)).
Proof.
  cbv zeta. intros Hs Hi. split.
  - destruct (selector_cache_fill_frame h s addr set way true ev md) as [-> _].
    apply credit_sampler; assumption.
  - intros ->. destruct (selector_cache_operate_frame h s addr ip true true ty md) as [-> _].
    apply credit_sampler; assumption.
Qed.


(** C1 (code bug): for every NUM_SET >= 1024 the code's sample rate is 8, because the >= 64
    branch is reached before any branch returning 32. *)
Lemma sample_rate_at_least_1024 n : 1024 <= n -> get_set_sample_rate n = 8.
Proof.
  intros H. unfold get_set_sample_rate.
  replace (n <? 1024) with false by (symmetry; apply Z.ltb_ge; lia).
  replace (n >=? 64) with true by (symmetry; rewrite Z.geb_leb; apply Z.leb_le; lia).
  reflexivity.
Qed.

Lemma sample_rate_at_least_1024_witness : 1024 <= 2048 /\ get_set_sample_rate 2048 = 8.
Proof. split; [lia|apply (sample_rate_at_least_1024 2048); lia]. Defined.

(** C3 (code bug): as written, the noise predicate holds iff the gaps have opposite signs and at
    least one of them has absolute value 1; its inner test [abs gap1 <= 1 || abs gap2 <= 1] is
    implied by the outer one, so the intended exclusive or (the large gap > 1) is never checked.
    On noise the history is shifted by the new miss, while miss_count, direction, stride,
    validity, region and confidence are kept. *)
Lemma noise_filter_spec :
  (forall gap1 gap2, is_noise gap1 gap2 =
     (gap1 * gap2 <? 0) && ((Z.abs gap1 =? 1) || (Z.abs gap2 =? 1))) /\
  (forall st idx miss_block,
     (idx < length (training_table st))%nat ->
     let e := training_table st !!! idx in
     te_miss_count e <> 0 -> te_miss_count e <> 1 ->
     is_noise (offset (te_second_last_miss_block e) (te_last_miss_block e))
              (offset (te_last_miss_block e) miss_block) = true ->
     let e' := training_table (update_training_entry st idx miss_block) !!! idx in
     te_last_miss_block e' = miss_block /\
     te_second_last_miss_block e' = te_last_miss_block e /\
     te_third_last_miss_block e' = te_second_last_miss_block e /\
     te_miss_count e' = te_miss_count e /\
     te_direction e' = te_direction e /\ te_stride e' = te_stride e /\
     te_valid e' = te_valid e /\ te_region_base e' = te_region_base e /\
     te_pattern_confidence e' = te_pattern_confidence e /\
     te_last_access_timestamp e' = current_timestamp st).
Proof.
  split; [exact is_noise_spec|].
  intros st idx mb Hidx. cbv zeta. intros H0 H1 Hn.
  unfold update_training_entry. cbv zeta.
  apply Z.eqb_neq in H0, H1. rewrite H0, H1, Hn.
  unfold upd_training, set_training_table. cbn [training_table].
  rewrite list_lookup_total_insert_eq by exact Hidx.
  repeat split.
Qed.

Lemma noise_filter_spec_witness :
  let st := miss_run idle_host [100; 101] tstate_init in
  let e := training_table st !!! 0%nat in
  (0 < length (training_table st))%nat /\
  te_miss_count e <> 0 /\ te_miss_count e <> 1 /\
  is_noise (offset (te_second_last_miss_block e) (te_last_miss_block e))
           (offset (te_last_miss_block e) 100) = true /\
  te_last_miss_block (training_table (update_training_entry st 0 100) !!! 0%nat) = 100.
Proof.
  intros st e.
  assert (H1 : (0 < length (training_table st))%nat) by (vm_compute; lia).
  assert (H2 : te_miss_count e <> 0) by (vm_compute; discriminate).
  assert (H3 : te_miss_count e <> 1) by (vm_compute; discriminate).
  assert (H4 : is_noise (offset (te_second_last_miss_block e) (te_last_miss_block e))
                        (offset (te_last_miss_block e) 100) = true) by (vm_compute; reflexivity).
  split; [exact H1|split; [exact H2|split; [exact H3|split; [exact H4|]]]].
  apply (proj2 noise_filter_spec st 0%nat 100 H1 H2 H3 H4).
Defined.

(** C3 (failing input): the gap pair (1, -1) is noise although both gaps satisfy |gap| <= 1,
    and after the misses 100, 101, 100 the entry's history has been shifted. *)
Lemma noise_both_unit_gaps :
  let st := miss_run idle_host [100; 101; 100] tstate_init in
  let e := training_table st !!! 0%nat in
  is_noise 1 (-1) = true /\ Z.abs 1 <= 1 /\ Z.abs (-1) <= 1 /\
  te_last_miss_block e = 100 /\ te_second_last_miss_block e = 101 /\
  te_third_last_miss_block e = 100 /\ te_miss_count e = 2.
Proof. vm_compute. repeat split; discriminate. Qed.


Lemma sampler_sets_credit_transformer_witness :
  let s0 := selector_initialize 2048 16 tstate_init tt in
  is_sampler_set (NUM_SET s0) 0 = true /\
  Z.quot 0 (get_set_sample_rate (NUM_SET s0)) < Z.of_nat (length (samplers s0)) /\
  samplers (fst (selector_cache_fill idle_host s0 0 0 0 true 0 0)) =
    <[0%nat := incr_transformer_issued (samplers s0 !!! 0%nat)]> (samplers s0).
Proof.
  intros s0.
  assert (H1 : is_sampler_set (NUM_SET s0) 0 = true) by (vm_compute; reflexivity).
  assert (H2 : Z.quot 0 (get_set_sample_rate (NUM_SET s0)) < Z.of_nat (length (samplers s0)))
    by (vm_compute; reflexivity).
  split; [exact H1|split; [exact H2|]].
  exact (proj1 (sampler_sets_credit_transformer idle_host s0 0 0 LOAD 0 0 0 0 H1 H2)).
Defined.



Lemma throttle_decision_witness :
  let s0 := selector_initialize 2048 16 tstate_init tt in
  qltb (get_bandwidth_utilization busy_host) BW_UTIL_THRESHOLD = false /\
  snd (selector_cache_operate busy_host s0 0 0 false false LOAD 5) = 5.
Proof.
  intros s0.
  assert (H : qltb (get_bandwidth_utilization busy_host) BW_UTIL_THRESHOLD = false)
    by (vm_compute; reflexivity).
  split; [exact H|].
  refine (proj1 (proj2 (throttle_decision busy_host s0 0 0 false false LOAD 5) _)).
  vm_compute. reflexivity.
Defined.


Lemma phase_recovery_step_witness :
  let st := miss_run idle_host (blocksN 40) tstate_init in
  treachable st /\ ph_in_phase_transition (phase_state st) = true /\
  ph_recovery_counter (phase_state (update_phase_state st false)) = 2.
Proof.
  intros st.
  assert (H1 : treachable st) by (apply miss_run_reachable; constructor).
  assert (H2 : ph_in_phase_transition (phase_state st) = true) by (vm_compute; reflexivity).
  split; [exact H1|split; [exact H2|]].
  destruct (phase_recovery_step st false H1 H2) as [(_&_&E&_)|(E&_)].
  - rewrite E. vm_compute. reflexivity.
  - vm_compute in E. discriminate.
Defined.

(* ========================================================================= *)
(** * Further properties of the selector and of the stream prefetcher *)

Lemma sample_rate_cases n :
  get_set_sample_rate n = 4 \/ get_set_sample_rate n = 8 \/
  get_set_sample_rate n = 16 \/ get_set_sample_rate n = 32.
Proof. unfold get_set_sample_rate. repeat case_match; auto. Qed.

Lemma sample_rate_pow n : exists k, 2 <= k <= 5 /\ get_set_sample_rate n = 2 ^ k.
Proof.
  destruct (sample_rate_cases n) as [E|[E|[E|E]]]; rewrite E;
    [exists 2|exists 3|exists 4|exists 5]; split; try lia; reflexivity.
Qed.

Lemma sample_category_formula n set :
  get_set_sample_category n set =
  (set - set / get_set_sample_rate n) mod get_set_sample_rate n.
Proof.
  unfold get_set_sample_category, lg2.
  destruct (sample_rate_pow n) as (k&Hk&E). rewrite E.
  replace (2 ^ k - 1) with (Z.ones k) by (rewrite Z.ones_equiv; lia).
  rewrite Z.log2_pow2 by lia.
  rewrite !Z.land_ones by lia. rewrite Z.shiftr_div_pow2 by lia.
  assert (Hr : 2 ^ k <> 0) by lia.
  set (r := 2 ^ k) in *. set (q := set / r).
  replace (r + set mod r - q mod r) with ((set - q) + (1 - set / r + q / r) * r)
    by (rewrite (Z.mod_eq set r Hr), (Z.mod_eq q r Hr); lia).
  apply Z_mod_plus_full.
Qed.

(** X1: [get_set_sample_category] splits the sets into aligned blocks of r =
    [get_set_sample_rate n] consecutive sets; in block q each category c in [0, r) is taken
    by exactly one set, the one at offset (c + q) mod r. *)
Lemma sample_category_per_block n q c :
  let r := get_set_sample_rate n in
  0 <= c < r ->
  let j := (c + q) mod r in
  0 <= j < r /\ get_set_sample_category n (q * r + j) = c /\
  (forall j', 0 <= j' < r -> get_set_sample_category n (q * r + j') = c -> j' = j).
Proof.
  cbv zeta. intros Hc.
  assert (Hr : 0 < get_set_sample_rate n)
    by (destruct (sample_rate_cases n) as [E|[E|[E|E]]]; rewrite E; lia).
  set (r := get_set_sample_rate n) in *.
  assert (Hdiv : forall j, 0 <= j < r -> (q * r + j) / r = q).
  { intros j Hj. rewrite Z.add_comm, Z.div_add by lia.
    rewrite Z.div_small by lia. lia. }
  assert (Hcat : forall j, 0 <= j < r -> get_set_sample_category n (q * r + j) = (j - q) mod r).
  { intros j Hj. rewrite sample_category_formula. fold r. rewrite Hdiv by exact Hj.
    replace (q * r + j - q) with (j - q + q * r) by lia. apply Z_mod_plus_full. }
  assert (Hj : 0 <= (c + q) mod r < r) by (apply Z.mod_pos_bound; lia).
  split; [exact Hj|split].
  - rewrite Hcat by exact Hj. rewrite Zminus_mod_idemp_l.
    replace (c + q - q) with c by lia. apply Z.mod_small. exact Hc.
  - intros j' Hj' E. rewrite Hcat in E by exact Hj'.
    rewrite <- (Z.mod_small j' r Hj'). rewrite <- E.
    rewrite Zplus_mod_idemp_l. f_equal. lia.
Qed.

Section SelectorExtras.
Context {T P : Type} `{PT : Prefetcher T} `{PP : Prefetcher P}.

Lemma credit_num_set_len incr_t incr_p (s : selector T P) set :
  NUM_SET (credit incr_t incr_p s set) = NUM_SET s /\
  length (samplers (credit incr_t incr_p s set)) = length (samplers s).
Proof. unfold credit. cbv zeta. repeat case_match; simpl; rewrite ?length_insert; auto. Qed.

Lemma selector_cache_operate_num_set (h : host) (s : selector T P) addr ip hit useful ty md :
  NUM_SET (fst (selector_cache_operate h s addr ip hit useful ty md)) = NUM_SET s /\
  length (samplers (fst (selector_cache_operate h s addr ip hit useful ty md))) =
    length (samplers s).
Proof.
  destruct (selector_cache_operate_frame h s addr ip hit useful ty md) as [Hs _].
  cbv zeta in Hs. rewrite Hs.
  assert (H1 : NUM_SET (if useful && hit then credit incr_transformer_useful incr_pythia_useful s
      (Z.land (Z.shiftr addr LOG2_BLOCK_SIZE) (NUM_SET s - 1)) else s) = NUM_SET s /\
      length (samplers (if useful && hit then credit incr_transformer_useful incr_pythia_useful s
      (Z.land (Z.shiftr addr LOG2_BLOCK_SIZE) (NUM_SET s - 1)) else s)) = length (samplers s)).
  { destruct (useful && hit); [apply credit_num_set_len|split; reflexivity]. }
  destruct H1 as [H1 H2]. rewrite H2. split; [|reflexivity].
  unfold selector_cache_operate. cbv zeta. revert H1.
  set (s1 := if useful && hit then _ else _). intros H1.
  pose proof (should_allow_prefetch_frame h s1) as Fr.
  destruct (should_allow_prefetch h s1) as [allow s2]. simpl in Fr.
  destruct Fr as (_&_&F&_).
  destruct allow; simpl; [|congruence].
  repeat case_match; simpl; congruence.
Qed.

Lemma selector_cache_fill_num_set (h : host) (s : selector T P) addr set way pf ev md :
  NUM_SET (fst (selector_cache_fill h s addr set way pf ev md)) = NUM_SET s /\
  length (samplers (fst (selector_cache_fill h s addr set way pf ev md))) =
    length (samplers s).
Proof.
  destruct (selector_cache_fill_frame h s addr set way pf ev md) as [Hs _].
  cbv zeta in Hs. rewrite Hs.
  assert (H1 : NUM_SET (if pf then credit incr_transformer_issued incr_pythia_issued s set else s)
                 = NUM_SET s /\
      length (samplers (if pf then credit incr_transformer_issued incr_pythia_issued s set else s))
                 = length (samplers s)).
  { destruct pf; [apply credit_num_set_len|split; reflexivity]. }
  destruct H1 as [H1 H2]. rewrite H2. split; [|reflexivity].
  unfold selector_cache_fill. cbv zeta. revert H1.
  set (s1 := if pf then _ else _). intros H1.
  repeat case_match; simpl; congruence.
Qed.

Lemma selector_cycle_operate_num_set (ln : Q -> Q) (h : host) (s : selector T P) :
  NUM_SET (selector_cycle_operate ln h s) = NUM_SET s /\
  samplers (selector_cycle_operate ln h s) = samplers s.
Proof.
  unfold selector_cycle_operate, update_policy_selector. cbv zeta.
  repeat case_match; simpl; split; reflexivity.
Qed.

Lemma sel_reachable_samplers_len (ln : Q -> Q) (s : selector T P) :
  sel_reachable ln s ->
  length (samplers s) = Z.to_nat (get_num_sampled_sets (NUM_SET s)).
Proof.
  induction 1 as [ns nw t0 p0|h s addr ip hit useful ty md _ IH
                 |h s addr set way pf ev md _ IH|h s _ IH].
  - simpl. apply repeat_length.
  - destruct (selector_cache_operate_num_set h s addr ip hit useful ty md) as [-> ->]. exact IH.
  - destruct (selector_cache_fill_num_set h s addr set way pf ev md) as [-> ->]. exact IH.
  - destruct (selector_cycle_operate_num_set ln h s) as [-> ->]. exact IH.
Qed.

End SelectorExtras.

(** X2: in a reachable selector whose NUM_SET is a power of two 2^k with k >= 3, the set
    index computed from any address lies in [0, NUM_SET) and its sampler index [set / rate]
    is a valid index of [samplers]. *)
Theorem sampler_index_in_range {T P : Type} `{PT : Prefetcher T} `{PP : Prefetcher P}
  (ln : Q -> Q) (s : selector T P) (k : Z) :
  sel_reachable ln s -> 3 <= k -> NUM_SET s = 2 ^ k ->
  forall addr,
  let set := Z.land (Z.shiftr addr LOG2_BLOCK_SIZE) (NUM_SET s - 1) in
  0 <= set < NUM_SET s /\
  Z.quot set (get_set_sample_rate (NUM_SET s)) < Z.of_nat (length (samplers s)).
Proof.
  intros R Hk En addr. cbv zeta.
  rewrite (sel_reachable_samplers_len ln s R). rewrite En.
  assert (Hn : 8 <= 2 ^ k) by (change 8 with (2 ^ 3); apply Z.pow_le_mono_r; lia).
  replace (2 ^ k - 1) with (Z.ones k) by (rewrite Z.ones_equiv; lia).
  rewrite Z.land_ones by lia.
  set (x := Z.shiftr addr LOG2_BLOCK_SIZE mod 2 ^ k).
  assert (Hx : 0 <= x < 2 ^ k) by (apply Z.mod_pos_bound; lia).
  split; [exact Hx|].
  destruct (sample_rate_pow (2 ^ k)) as (j&Hj&Er).
  assert (Hle : get_set_sample_rate (2 ^ k) <= 2 ^ k).
  { unfold get_set_sample_rate.
    destruct (Z.ltb_spec (2 ^ k) 1024), (Z.geb_spec (2 ^ k) 256), (Z.geb_spec (2 ^ k) 64),
      (Z.geb_spec (2 ^ k) 8); simpl; lia. }
  rewrite Er in *. unfold get_num_sampled_sets. rewrite Er.
  assert (Hjk : j <= k) by (apply (Z.pow_le_mono_r_iff 2); lia).
  replace (2 ^ k) with (2 ^ j * 2 ^ (k - j)) in *
    by (rewrite <- Z.pow_add_r by lia; f_equal; lia).
  assert (Hpj : 0 < 2 ^ j) by lia.
  rewrite !Z.quot_div_nonneg by lia.
  rewrite Z.mul_comm, Z.div_mul by lia.
  rewrite Z2Nat.id by (apply Z.pow_nonneg; lia).
  apply Z.div_lt_upper_bound; lia.
Qed.

(** X3: in a reachable selector with fewer than 8 sets, the sampler table is empty. *)
Theorem small_cache_no_samplers {T P : Type} `{PT : Prefetcher T} `{PP : Prefetcher P}
  (ln : Q -> Q) (s : selector T P) :
  sel_reachable ln s -> 0 <= NUM_SET s < 8 -> samplers s = [].
Proof.
  intros R Hn. pose proof (sel_reachable_samplers_len ln s R) as L.
  unfold get_num_sampled_sets, get_set_sample_rate in L.
  replace ((NUM_SET s <? 1024) && (NUM_SET s >=? 256)) with false in L
    by (symmetry; apply andb_false_iff; right; rewrite Z.geb_leb; apply Z.leb_gt; lia).
  replace (NUM_SET s >=? 64) with false in L by (symmetry; rewrite Z.geb_leb; apply Z.leb_gt; lia).
  replace (NUM_SET s >=? 8) with false in L by (symmetry; rewrite Z.geb_leb; apply Z.leb_gt; lia).
  rewrite Z.quot_small in L by lia. destruct (samplers s); [reflexivity|discriminate].
Qed.

Lemma preserve_mask_bits n :
  0 <= n -> Z.testbit METADATA_PRESERVE_MASK n = (n <? 30) || ((31 <? n) && (n <? 32)).
Proof.
  intros Hn. unfold METADATA_PRESERVE_MASK, METADATA_SOURCE_MASK, METADATA_TRANSFORMER_BIT,
    METADATA_PYTHIA_BIT.
  rewrite Z.land_spec, Z.lnot_spec, Z.lor_spec by lia.
  rewrite !Z.shiftl_1_l, !Z.pow2_bits_eqb by lia.
  replace (2 ^ 32 - 1) with (Z.ones 32) by reflexivity.
  rewrite Z.testbit_ones_nonneg by lia.
  destruct (Z.ltb_spec n 30), (Z.ltb_spec 31 n), (Z.ltb_spec n 32), (Z.eqb_spec 30 n),
    (Z.eqb_spec 31 n); simpl; try reflexivity; lia.
Qed.

Lemma tag_bits m n : 0 <= n ->
  Z.testbit (tag_metadata_transformer m) n =
    (((n <? 30) || ((31 <? n) && (n <? 32))) && Z.testbit m n) || (n =? 30) /\
  Z.testbit (tag_metadata_pythia m) n =
    (((n <? 30) || ((31 <? n) && (n <? 32))) && Z.testbit m n) || (n =? 31).
Proof.
  intros Hn. unfold tag_metadata_transformer, tag_metadata_pythia, METADATA_TRANSFORMER_BIT,
    METADATA_PYTHIA_BIT.
  rewrite !Z.shiftl_1_l, !Z.lor_spec, !Z.land_spec, preserve_mask_bits, !Z.pow2_bits_eqb by lia.
  rewrite (Z.eqb_sym 30 n), (Z.eqb_sym 31 n), !(andb_comm (Z.testbit m n)). split; reflexivity.
Qed.

(** every bit of a result of [tag_metadata_*] above bit 31 is clear *)
Lemma tag_range_helper (x : Z) :
  (forall n, 0 <= n -> Z.testbit x n = true -> n < 32) -> 0 <= x -> x < 2 ^ 32.
Proof.
  intros Hb Hx. destruct (Z.eq_dec x 0) as [->|Hnz]; [lia|].
  apply Z.log2_lt_pow2; [lia|].
  pose proof (Z.bit_log2 x ltac:(lia)) as B. apply Hb in B; [lia|]. apply Z.log2_nonneg.
Qed.

(** X4: tagging metadata for one prefetcher replaces the tag of the other (bits 30 and 31),
    and both tagged values fit in 32 bits. *)
Theorem retag_metadata m :
  tag_metadata_transformer (tag_metadata_pythia m) = tag_metadata_transformer m /\
  tag_metadata_pythia (tag_metadata_transformer m) = tag_metadata_pythia m /\
  0 <= tag_metadata_transformer m < 2 ^ 32 /\ 0 <= tag_metadata_pythia m < 2 ^ 32.
Proof.
  assert (Hnn : forall x, 0 <= Z.land x METADATA_PRESERVE_MASK)
    by (intros x; apply Z.land_nonneg; right; vm_compute; discriminate).
  split; [|split; [|split]].
  - apply Z.bits_inj'; intros n Hn. destruct (tag_bits (tag_metadata_pythia m) n Hn) as [-> _].
    destruct (tag_bits m n Hn) as [-> ->]. 
    destruct (Z.ltb_spec n 30), (Z.ltb_spec 31 n), (Z.ltb_spec n 32), (Z.eqb_spec n 30),
      (Z.eqb_spec n 31); simpl; rewrite ?andb_false_r, ?orb_false_r; reflexivity || lia.
  - apply Z.bits_inj'; intros n Hn. destruct (tag_bits (tag_metadata_transformer m) n Hn) as [_ ->].
    destruct (tag_bits m n Hn) as [-> ->].
    destruct (Z.ltb_spec n 30), (Z.ltb_spec 31 n), (Z.ltb_spec n 32), (Z.eqb_spec n 30),
      (Z.eqb_spec n 31); simpl; rewrite ?andb_false_r, ?orb_false_r; reflexivity || lia.
  - assert (H0 : 0 <= tag_metadata_transformer m)
      by (unfold tag_metadata_transformer; apply Z.lor_nonneg; split; [apply Hnn|vm_compute; discriminate]).
    split; [exact H0|]. apply tag_range_helper; [|exact H0].
    intros n Hn Hb. destruct (tag_bits m n Hn) as [E _]. rewrite E in Hb.
    destruct (Z.ltb_spec n 30), (Z.ltb_spec 31 n), (Z.ltb_spec n 32), (Z.eqb_spec n 30);
      simpl in Hb; lia || discriminate.
  - assert (H0 : 0 <= tag_metadata_pythia m)
      by (unfold tag_metadata_pythia; apply Z.lor_nonneg; split; [apply Hnn|vm_compute; discriminate]).
    split; [exact H0|]. apply tag_range_helper; [|exact H0].
    intros n Hn Hb. destruct (tag_bits m n Hn) as [_ E]. rewrite E in Hb.
    destruct (Z.ltb_spec n 30), (Z.ltb_spec 31 n), (Z.ltb_spec n 32), (Z.eqb_spec n 31);
      simpl in Hb; lia || discriminate.
Qed.

Lemma sample_category_nonneg n set : 0 <= get_set_sample_category n set.
Proof.
  rewrite sample_category_formula. apply Z.mod_pos_bound.
  destruct (sample_rate_cases n) as [E|[E|[E|E]]]; rewrite E; lia.
Qed.

Lemma use_transformer_for_set_route {T P : Type} `{PT : Prefetcher T} `{PP : Prefetcher P}
  (s : selector T P) set :
  let cat := get_set_sample_category (NUM_SET s) set in
  use_transformer_for_set s set =
    negb (cat =? 2) && ((cat <? 2) || (policy_selector s >=? 0)) /\
  (is_sampler_set (NUM_SET s) set = true -> use_transformer_for_set s set = true).
Proof.
  cbv zeta. pose proof (sample_category_nonneg (NUM_SET s) set) as Hc.
  unfold use_transformer_for_set, is_transformer_dedicated_set, is_pythia_dedicated_set,
    is_sampler_set.
  destruct (Z.eqb_spec (get_set_sample_category (NUM_SET s) set) 1) as [E|E];
    [rewrite E; split; reflexivity|].
  destruct (Z.eqb_spec (get_set_sample_category (NUM_SET s) set) 2) as [E2|E2];
    [rewrite E2; simpl; split; [reflexivity|discriminate]|].
  destruct (Z.eqb_spec (get_set_sample_category (NUM_SET s) set) 0) as [E0|E0];
    [rewrite E0; simpl; split; reflexivity|].
  simpl. replace (get_set_sample_category (NUM_SET s) set <? 2) with false
    by (symmetry; apply Z.ltb_ge; lia).
  split; [reflexivity|discriminate].
Qed.

(** X5: when [should_allow_prefetch] lets the access through, [prefetcher_cache_operate] of
    the selector calls exactly one prefetcher: the transformer when the set is a transformer
    sampler set, or a follower set with policy_selector >= 0; otherwise Pythia. The other
    prefetcher is untouched, the returned metadata is the called one's output tagged with
    its bit, and only its selection counter is incremented. *)
Theorem selector_routing {T P : Type} `{PT : Prefetcher T} `{PP : Prefetcher P}
  (h : host) (s : selector T P) addr ip hit useful ty md :
  let set := Z.land (Z.shiftr addr LOG2_BLOCK_SIZE) (NUM_SET s - 1) in
  let s1 := if useful && hit then credit incr_transformer_useful incr_pythia_useful s set else s in
  let cat := get_set_sample_category (NUM_SET s) set in
  let to_transformer := negb (cat =? 2) && ((cat <? 2) || (policy_selector s >=? 0)) in
  let r := selector_cache_operate h s addr ip hit useful ty md in
  fst (should_allow_prefetch h s1) = true ->
  (to_transformer = true ->
     let t := pf_cache_operate h (pref_transformer s) addr ip hit useful ty md in
     pref_transformer (fst r) = fst t /\ pref_pythia (fst r) = pref_pythia s /\
     snd r = tag_metadata_transformer (snd t) /\
     transformer_selected_count (fst r) = u64 (transformer_selected_count s + 1) /\
     pythia_selected_count (fst r) = pythia_selected_count s) /\
  (to_transformer = false ->
     let p := pf_cache_operate h (pref_pythia s) addr ip hit useful ty md in
     pref_pythia (fst r) = fst p /\ pref_transformer (fst r) = pref_transformer s /\
     snd r = tag_metadata_pythia (snd p) /\
     pythia_selected_count (fst r) = u64 (pythia_selected_count s + 1) /\
     transformer_selected_count (fst r) = transformer_selected_count s).
Proof.
  cbv zeta. intros Hal.
  set (set := Z.land (Z.shiftr addr LOG2_BLOCK_SIZE) (NUM_SET s - 1)) in *.
  assert (F1 : let s1 := if useful && hit then credit incr_transformer_useful incr_pythia_useful s set
                         else s in
    pref_transformer s1 = pref_transformer s /\ pref_pythia s1 = pref_pythia s /\
    NUM_SET s1 = NUM_SET s /\ policy_selector s1 = policy_selector s /\
    transformer_selected_count s1 = transformer_selected_count s /\
    pythia_selected_count s1 = pythia_selected_count s).
  { destruct (useful && hit); [|repeat split].
    destruct (credit_frame incr_transformer_useful incr_pythia_useful s set) as (A&B&C&D&_&_&E&F).
    repeat split; assumption. }
  cbv zeta in F1. unfold selector_cache_operate. fold set. revert Hal F1.
  set (s1 := if useful && hit then _ else _). intros Hal (A&B&C&D&E&F).
  pose proof (should_allow_prefetch_frame h s1) as Fr.
  destruct (should_allow_prefetch h s1) as [allow s2]. simpl in Hal, Fr. subst allow.
  destruct Fr as (A2&B2&C2&_&_&D2&E2&F2).
  assert (Hu : use_transformer_for_set s2 set = use_transformer_for_set s set)
    by (unfold use_transformer_for_set, is_transformer_dedicated_set, is_pythia_dedicated_set,
          is_sampler_set; rewrite C2, C, D2, D; reflexivity).
  destruct (use_transformer_for_set_route s set) as [Hr Hs].
  rewrite C2, C. rewrite Hu. simpl negb. cbv iota.
  destruct (is_sampler_set (NUM_SET s) set) eqn:ES.
  - rewrite (Hs eq_refl) in Hr. simpl orb. cbv iota.
    split; [|intros Hf; rewrite <- Hr in Hf; discriminate].
    intros _. destruct (pf_cache_operate h (pref_transformer _) addr ip hit useful ty md) eqn:Et.
    simpl in Et |- *. rewrite A2, A in Et. rewrite Et. simpl. rewrite B2, B, E2, E, F2, F. repeat split.
  - simpl orb. rewrite Hr.
    destruct (negb _ && _); cbv iota.
    + split; [|discriminate]. intros _.
      destruct (pf_cache_operate h (pref_transformer _) addr ip hit useful ty md) eqn:Et.
      simpl in Et |- *. rewrite A2, A in Et. rewrite Et. simpl. rewrite B2, B, E2, E, F2, F. repeat split.
    + split; [discriminate|]. intros _.
      destruct (pf_cache_operate h (pref_pythia _) addr ip hit useful ty md) eqn:Et.
      simpl in Et |- *. rewrite B2, B in Et. rewrite Et. simpl. rewrite A2, A, E2, E, F2, F. repeat split.
Qed.

(** X6: the metadata returned by [prefetcher_cache_operate] of the selector is the input
    metadata, or a value tagged for exactly one of the two prefetchers (bit 30 set and bit
    31 clear, or the reverse). *)
Theorem selector_metadata_source {T P : Type} `{PT : Prefetcher T} `{PP : Prefetcher P}
  (h : host) (s : selector T P) addr ip hit useful ty md :
  let out := snd (selector_cache_operate h s addr ip hit useful ty md) in
  out = md \/
  (Z.testbit out 30 = true /\ Z.testbit out 31 = false) \/
  (Z.testbit out 30 = false /\ Z.testbit out 31 = true).
Proof.
  cbv zeta. unfold selector_cache_operate. cbv zeta.
  destruct (should_allow_prefetch h _) as [[|] s2]; cbn [negb]; [|left; reflexivity].
  right. destruct (_ || _).
  - destruct (pf_cache_operate h _ addr ip hit useful ty md) as [t m]. cbn [snd]. left.
    destruct (tag_bits m 30 ltac:(lia)) as [-> _]. destruct (tag_bits m 31 ltac:(lia)) as [-> _].
    split; reflexivity.
  - destruct (pf_cache_operate h _ addr ip hit useful ty md) as [p m]. cbn [snd]. right.
    destruct (tag_bits m 30 ltac:(lia)) as [_ ->]. destruct (tag_bits m 31 ltac:(lia)) as [_ ->].
    split; reflexivity.
Qed.

Lemma issued_fold_zero (l : list sampler_entry) u :
  Forall (fun e => transformer_issued e = 0 /\ pythia_issued e = 0) l ->
  snd (fold_left (fun '(u, i) (e : sampler_entry) =>
                 (u64 (u + u64 (transformer_useful e + pythia_useful e)),
                  u64 (i + u64 (transformer_issued e + pythia_issued e)))) l (u, 0)) = 0.
Proof.
  revert u. induction l as [|e l IH]; intros u H; [reflexivity|].
  inversion H as [|? ? [E1 E2] H']; subst. simpl. rewrite E1, E2. apply IH. exact H'.
Qed.

(** X7: while no prefetch has been counted as issued (dedicated and sampler statistics),
    [get_prefetch_accuracy] is 1, and [should_allow_prefetch] decides on bandwidth alone: it
    allows exactly when dram_bw < 15. *)
Theorem accuracy_before_any_issue {T P : Type} `{PT : Prefetcher T} `{PP : Prefetcher P}
  (h : host) (s : selector T P) :
  transformer_issued (dedicated_stats s) = 0 -> pythia_issued (dedicated_stats s) = 0 ->
  Forall (fun e => transformer_issued e = 0 /\ pythia_issued e = 0) (samplers s) ->
  get_prefetch_accuracy s = 1%Q /\
  fst (should_allow_prefetch h s) = (dram_bw h <? 15).
Proof.
  intros H1 H2 H3.
  assert (Ha : get_prefetch_accuracy s = 1%Q).
  { unfold get_prefetch_accuracy. rewrite H1, H2.
    pose proof (issued_fold_zero (samplers s)
      (u64 (transformer_useful (dedicated_stats s) + pythia_useful (dedicated_stats s))) H3) as E.
    replace (u64 (0 + 0)) with 0 by reflexivity.
    destruct (fold_left _ _ _) as [u i]. simpl in E. subst i. reflexivity. }
  split; [exact Ha|]. rewrite should_allow_prefetch_decision, Ha.
  unfold qltb, get_bandwidth_utilization, BW_UTIL_THRESHOLD, MIN_ACCURACY_THRESHOLD.
  replace (negb (Qle_bool 1 (1 # 10))) with true by reflexivity. rewrite orb_true_r, andb_true_r.
  unfold Qle_bool, Qdiv, Qmult, Qinv, inject_Z. simpl.
  change (Z.pos (1 * 16)) with 16.
  destruct (Z.ltb_spec (dram_bw h) 15); destruct (Z.leb_spec (9 * 16) (dram_bw h * 1 * 10)); simpl; reflexivity || lia.
Qed.

(** X8: policy_selector is only changed by [prefetcher_cycle_operate] at an epoch boundary:
    operate and fill never change it, and a cycle whose new cycle count is not a multiple of
    5000 leaves it unchanged and increments cycles. *)
Theorem policy_changes_only_on_epoch {T P : Type} `{PT : Prefetcher T} `{PP : Prefetcher P}
  (ln : Q -> Q) (h : host) (s : selector T P) :
  (forall addr ip hit useful ty md,
     policy_selector (fst (selector_cache_operate h s addr ip hit useful ty md)) =
     policy_selector s) /\
  (forall addr set way pf ev md,
     policy_selector (fst (selector_cache_fill h s addr set way pf ev md)) = policy_selector s) /\
  (u64 (cycles s + 1) mod 5000 <> 0 ->
     policy_selector (selector_cycle_operate ln h s) = policy_selector s /\
     cycles (selector_cycle_operate ln h s) = u64 (cycles s + 1)).
Proof.
  split; [intros; apply selector_cache_operate_frame|].
  split; [intros; apply selector_cache_fill_frame|].
  intros Hc. unfold selector_cycle_operate. cbv zeta.
  apply Z.eqb_neq in Hc. rewrite Hc. simpl. split; reflexivity.
Qed.

(** X9: for a set that is not a sampler set of category 0, a prefetch fill leaves the
    samplers unchanged and increments the dedicated issued counter of the prefetcher that
    serves the set; a useful hit does the same with the useful counter. *)
Theorem credit_outside_sampler_sets {T P : Type} `{PT : Prefetcher T} `{PP : Prefetcher P}
  (h : host) (s : selector T P) addr ip ty set way ev md :
  let cat := get_set_sample_category (NUM_SET s) set in
  cat <> 0 ->
  let to_t := (cat =? 1) || (negb (cat =? 2) && (policy_selector s >=? 0)) in
  (samplers (fst (selector_cache_fill h s addr set way true ev md)) = samplers s /\
   dedicated_stats (fst (selector_cache_fill h s addr set way true ev md)) =
     (if to_t then incr_transformer_issued else incr_pythia_issued) (dedicated_stats s)) /\
  (set = Z.land (Z.shiftr addr LOG2_BLOCK_SIZE) (NUM_SET s - 1) ->
   samplers (fst (selector_cache_operate h s addr ip true true ty md)) = samplers s /\
   dedicated_stats (fst (selector_cache_operate h s addr ip true true ty md)) =
     (if to_t then incr_transformer_useful else incr_pythia_useful) (dedicated_stats s)).
Proof.
  cbv zeta. intros H0.
  assert (Hc : forall (it ip' : sampler_entry -> sampler_entry),
    samplers (credit it ip' s set) = samplers s /\
    dedicated_stats (credit it ip' s set) =
      (if (get_set_sample_category (NUM_SET s) set =? 1) ||
          (negb (get_set_sample_category (NUM_SET s) set =? 2) && (policy_selector s >=? 0))
       then it else ip') (dedicated_stats s)).
  { intros it ip'. unfold credit, is_sampler_set, is_transformer_dedicated_set,
      is_pythia_dedicated_set.
    apply Z.eqb_neq in H0. rewrite H0.
    destruct (get_set_sample_category (NUM_SET s) set =? 1); [split; reflexivity|].
    destruct (get_set_sample_category (NUM_SET s) set =? 2); [split; reflexivity|].
    simpl. destruct (policy_selector s >=? 0); split; reflexivity. }
  split.
  - unfold selector_cache_fill. cbv iota.
    destruct (Hc incr_transformer_issued incr_pythia_issued) as [E1 E2].
    repeat case_match; simpl; split; congruence.
  - intros ->. unfold selector_cache_operate. cbv zeta. simpl andb. cbv iota.
    destruct (Hc incr_transformer_useful incr_pythia_useful) as [E1 E2].
    pose proof (should_allow_prefetch_frame h (credit incr_transformer_useful incr_pythia_useful s
       (Z.land (Z.shiftr addr LOG2_BLOCK_SIZE) (NUM_SET s - 1)))) as Fr.
    destruct (should_allow_prefetch h _) as [allow s2]. simpl in Fr.
    destruct Fr as (_&_&_&F1&F2&_).
    destruct allow; simpl; [|split; congruence].
    repeat case_match; simpl; split; congruence.
Qed.

(** X10: [compute_region_base] rounds a block number down to a multiple of
    REGION_SIZE_BLOCKS = 4, the block lies less than 4 blocks after it, and rounding twice
    is rounding once. *)
Theorem region_base_align b :
  compute_region_base b = REGION_SIZE_BLOCKS * (b / REGION_SIZE_BLOCKS) /\
  0 <= b - compute_region_base b < REGION_SIZE_BLOCKS /\
  compute_region_base (compute_region_base b) = compute_region_base b.
Proof.
  assert (E : forall x, compute_region_base x = 4 * (x / 4)).
  { intros x. unfold compute_region_base, REGION_SIZE_BLOCKS.
    change (4 - 1) with (Z.ones 2). rewrite <- Z.ldiff_land, Z.ldiff_ones_r by lia.
    rewrite Z.shiftl_mul_pow2, Z.shiftr_div_pow2 by lia. change (2 ^ 2) with 4. lia. }
  unfold REGION_SIZE_BLOCKS. rewrite !E. split; [reflexivity|split].
  - pose proof (Z.mod_pos_bound b 4 ltac:(lia)). rewrite (Z.mod_eq b 4) in H by lia. lia.
  - rewrite (Z.mul_comm 4 (b / 4)), Z.div_mul by lia. lia.
Qed.

(** X11: [is_noise] does not depend on the order of its two gaps. *)
Theorem is_noise_symmetric g1 g2 : is_noise g1 g2 = is_noise g2 g1.
Proof.
  unfold is_noise.
  destruct (Z.eqb_spec g1 1), (Z.eqb_spec g1 (-1)), (Z.eqb_spec g2 1), (Z.eqb_spec g2 (-1)),
    (Z.ltb_spec g1 0), (Z.ltb_spec g2 0), (Z.gtb_spec g1 0), (Z.gtb_spec g2 0);
    simpl; subst; try reflexivity; try lia; apply orb_comm.
Qed.

Lemma update_training_entry_at st idx mb :
  (idx < length (training_table st))%nat ->
  let e := training_table st !!! idx in
  te_miss_count e <> 0 -> te_miss_count e <> 1 ->
  let gap1 := offset (te_second_last_miss_block e) (te_last_miss_block e) in
  let gap2 := offset (te_last_miss_block e) mb in
  training_table (update_training_entry st idx mb) !!! idx =
    if is_noise gap1 gap2 then
      te_train e (current_timestamp st) mb (te_last_miss_block e) (te_second_last_miss_block e)
        (te_miss_count e) (te_direction e) (te_stride e) (te_pattern_confidence e)
    else if StreamDirection.eqb (detect_direction gap1 gap2) StreamDirection.UNKNOWN then
      te_train e (current_timestamp st) mb (te_last_miss_block e) (te_second_last_miss_block e)
        1 StreamDirection.UNKNOWN 1 (te_pattern_confidence e)
    else if detect_stride gap1 gap2 <=? 0 then
      te_train e (current_timestamp st) mb (te_last_miss_block e) (te_second_last_miss_block e)
        1 StreamDirection.UNKNOWN 1 (te_pattern_confidence e)
    else
      te_train e (current_timestamp st) mb (te_last_miss_block e) (te_second_last_miss_block e)
        3 (detect_direction gap1 gap2) (detect_stride gap1 gap2)
        (get_pattern_confidence st (detect_direction gap1 gap2) (detect_stride gap1 gap2)
           (te_region_base e)).
Proof.
  intros Hidx. cbv zeta. intros H0 H1.
  unfold update_training_entry. cbv zeta.
  apply Z.eqb_neq in H0, H1. rewrite H0, H1.
  unfold upd_training, set_training_table. cbn [training_table].
  rewrite list_lookup_total_insert_eq by exact Hidx. reflexivity.
Qed.

(** X12: on a training entry that has seen at least two misses, a miss that repeats the
    previous nonzero gap g (|g| < 2^31) confirms the pattern: miss_count 3, direction the
    sign of g, stride |g|, the miss history shifted, and the pattern confidence looked up
    for that direction and stride. *)
Theorem training_confirms_equal_gaps st idx mb :
  (idx < length (training_table st))%nat ->
  let e := training_table st !!! idx in
  te_miss_count e <> 0 -> te_miss_count e <> 1 ->
  let g := offset (te_second_last_miss_block e) (te_last_miss_block e) in
  offset (te_last_miss_block e) mb = g -> g <> 0 -> Z.abs g < 2 ^ 31 ->
  let dir := if g >? 0 then StreamDirection.POSITIVE else StreamDirection.NEGATIVE in
  let e' := training_table (update_training_entry st idx mb) !!! idx in
  te_miss_count e' = 3 /\ te_direction e' = dir /\ te_stride e' = Z.abs g /\
  te_last_miss_block e' = mb /\ te_second_last_miss_block e' = te_last_miss_block e /\
  te_third_last_miss_block e' = te_second_last_miss_block e /\
  te_pattern_confidence e' = get_pattern_confidence st dir (Z.abs g) (te_region_base e).
Proof.
  intros Hidx. cbv zeta. intros H0 H1 Hg Hnz Hlt.
  rewrite (update_training_entry_at st idx mb Hidx H0 H1). cbv zeta. rewrite Hg.
  set (g := offset (te_second_last_miss_block (training_table st !!! idx)) (te_last_miss_block (training_table st !!! idx))) in *.
  replace (is_noise g g) with false
    by (rewrite is_noise_spec; replace (g * g <? 0) with false by (symmetry; apply Z.ltb_ge; nia);
        reflexivity).
  assert (Hd : detect_direction g g = if g >? 0 then StreamDirection.POSITIVE
                                      else StreamDirection.NEGATIVE).
  { unfold detect_direction. destruct (Z.gtb_spec g 0); simpl; [reflexivity|].
    replace (g <? 0) with true by (symmetry; apply Z.ltb_lt; lia). reflexivity. }
  assert (Hs : detect_stride g g = Z.abs g).
  { unfold detect_stride. rewrite Z.eqb_refl. simpl.
    replace (Z.abs g <? 1) with false by (symmetry; apply Z.ltb_ge; lia).
    unfold to_i32. rewrite Z.mod_small by lia.
    replace (Z.abs g <? 2 ^ 31) with true by (symmetry; apply Z.ltb_lt; lia). reflexivity. }
  rewrite Hd, Hs.
  replace (StreamDirection.eqb (if g >? 0 then StreamDirection.POSITIVE else StreamDirection.NEGATIVE)
             StreamDirection.UNKNOWN) with false by (destruct (g >? 0); reflexivity).
  replace (Z.abs g <=? 0) with false by (symmetry; apply Z.leb_gt; lia).
  repeat split.
Qed.

(** X13: on a training entry that has seen at least two misses, a miss that is not noise and
    whose gap differs from the previous gap (or follows a zero gap) restarts training:
    miss_count 1, direction UNKNOWN, stride 1, the miss history shifted and the confidence
    kept. *)
Theorem training_resets_unequal_gaps st idx mb :
  (idx < length (training_table st))%nat ->
  let e := training_table st !!! idx in
  te_miss_count e <> 0 -> te_miss_count e <> 1 ->
  let gap1 := offset (te_second_last_miss_block e) (te_last_miss_block e) in
  let gap2 := offset (te_last_miss_block e) mb in
  is_noise gap1 gap2 = false -> gap1 <> gap2 \/ gap1 = 0 ->
  let e' := training_table (update_training_entry st idx mb) !!! idx in
  te_miss_count e' = 1 /\ te_direction e' = StreamDirection.UNKNOWN /\ te_stride e' = 1 /\
  te_last_miss_block e' = mb /\ te_second_last_miss_block e' = te_last_miss_block e /\
  te_third_last_miss_block e' = te_second_last_miss_block e /\
  te_pattern_confidence e' = te_pattern_confidence e.
Proof.
  intros Hidx. cbv zeta. intros H0 H1 Hn Hne.
  rewrite (update_training_entry_at st idx mb Hidx H0 H1). cbv zeta. rewrite Hn.
  set (g1 := offset (te_second_last_miss_block (training_table st !!! idx)) (te_last_miss_block (training_table st !!! idx))) in *.
  set (g2 := offset (te_last_miss_block (training_table st !!! idx)) mb) in *.
  unfold detect_direction.
  destruct (Z.gtb_spec g1 0), (Z.gtb_spec g2 0); simpl;
    [|destruct (Z.ltb_spec g1 0); simpl; [|repeat split];
      destruct (Z.ltb_spec g2 0); simpl; [lia|repeat split]
     |destruct (Z.ltb_spec g1 0); simpl; [|repeat split];
      destruct (Z.ltb_spec g2 0); simpl; [lia|repeat split]
     |].
  - unfold detect_stride.
    replace (Z.abs g1 =? Z.abs g2) with false
      by (symmetry; apply Z.eqb_neq; destruct Hne; lia).
    simpl. repeat split.
  - destruct (Z.ltb_spec g1 0), (Z.ltb_spec g2 0); simpl; try (repeat split; fail).
    unfold detect_stride.
    replace (Z.abs g1 =? Z.abs g2) with false
      by (symmetry; apply Z.eqb_neq; destruct Hne; lia).
    simpl. repeat split.
Qed.

Lemma find_first_from_insert_none {A} (p : A -> bool) (l : list A) (i : nat) (x : A) (k : Z) :
  (forall y, In y l -> p y = false) -> (i < length l)%nat -> p x = true ->
  find_first_from p (<[i := x]> l) k = k + Z.of_nat i.
Proof.
  revert i k. induction l as [|a l IH]; intros i k Hn Hi Hx; simpl in Hi; [lia|].
  destruct i as [|i]; simpl.
  - rewrite Hx. lia.
  - rewrite (Hn a (or_introl eq_refl)). rewrite IH; [lia| |lia|exact Hx].
    intros y Hy. apply Hn. right. exact Hy.
Qed.

Lemma lru_index_lt (l : list TrainingEntry) i li ot n :
  (li < n)%nat -> (i + length l <= n)%nat -> (lru_index l i li ot < n)%nat.
Proof.
  revert i li ot. induction l as [|e l IH]; intros i li ot H1 H2; simpl in *; [lia|].
  destruct (_ <? _); apply IH; lia.
Qed.

(** X14: when no valid training entry covers a region, [allocate_training_entry] returns an
    index of the 32-entry table whose entry is then valid, fresh (miss_count 0, UNKNOWN,
    stride 1, confidence 0) and the one [find_training_entry] returns for the region; the
    other entries are unchanged. *)
Theorem training_allocate_then_find st rb :
  length (training_table st) = TRAINING_TABLE_SIZE ->
  find_training_entry st rb = -1 ->
  let r := allocate_training_entry st rb in
  let e := training_table r.2 !!! r.1 in
  (r.1 < TRAINING_TABLE_SIZE)%nat /\
  find_training_entry r.2 rb = Z.of_nat r.1 /\
  te_valid e = true /\ te_region_base e = rb /\ te_miss_count e = 0 /\
  te_direction e = StreamDirection.UNKNOWN /\ te_stride e = 1 /\ te_pattern_confidence e = 0 /\
  (forall j, j <> r.1 -> training_table r.2 !! j = training_table st !! j).
Proof.
  intros Hl Hf. cbv zeta. unfold allocate_training_entry. cbv zeta. cbn [fst snd].
  set (idx := if _ >=? 0 then _ else _).
  assert (Hi : (idx < TRAINING_TABLE_SIZE)%nat).
  { subst idx. destruct (_ >=? 0) eqn:E.
    - rewrite Z.geb_leb, Z.leb_le in E. destruct (find_first_nonneg _ _ E) as (x&Hx&_).
      rewrite <- Hl. eapply lookup_lt_Some. exact Hx.
    - apply lru_index_lt; unfold TRAINING_TABLE_SIZE in *; lia. }
  unfold upd_training, set_training_table. cbn [training_table].
  assert (Hi' : (idx < length (training_table st))%nat) by lia.
  rewrite list_lookup_total_insert_eq by exact Hi'.
  split; [exact Hi|]. split.
  - unfold find_training_entry, find_first. cbn [training_table].
    apply (find_first_from_insert_none (fun e => te_valid e && (te_region_base e =? rb)) _ idx
             (reset_training_entry rb (current_timestamp st) (training_table st !!! idx)) 0) in Hi'.
    + rewrite Hi'. lia.
    + unfold find_training_entry, find_first in Hf.
      destruct (find_first_from_spec (fun e => te_valid e && (te_region_base e =? rb))
                  (training_table st) 0) as [[_ H]|(k&x&E&_)]; [exact H|lia].
    + simpl. apply Z.eqb_refl.
  - unfold reset_training_entry. simpl. repeat split.
    intros j Hj. apply list_lookup_insert_ne. congruence.
Qed.

Lemma find_first_cases {A} (p : A -> bool) (l : list A) :
  find_first p l = -1 \/ 0 <= find_first p l.
Proof. destruct (find_first_spec p l) as [[E _]|(k&x&E&_)]; rewrite E; lia. Qed.

(** X15: [get_pattern_confidence] is between 0 and MAX_CONFIDENCE / 2, and it is 0 exactly
    when no pattern of the history matches. *)
Theorem pattern_confidence_range st dir stride region :
  let c := get_pattern_confidence st dir stride region in
  0 <= c <= MAX_CONFIDENCE / 2 /\ (c = 0 <-> find_matching_pattern st dir stride region = -1).
Proof.
  cbv zeta. unfold get_pattern_confidence. cbv zeta.
  assert (Hf : find_matching_pattern st dir stride region = -1 \/
               0 <= find_matching_pattern st dir stride region).
  { unfold find_matching_pattern. apply find_first_cases. }
  destruct (Z.ltb_spec (find_matching_pattern st dir stride region) 0) as [H|H].
  - change (MAX_CONFIDENCE / 2) with 4. split; [lia|]. split; intros; lia.
  - change (MAX_CONFIDENCE / 2) with 4. unfold DENSE_LENGTH_MIN, REUSE_WINDOW_SIZE.
    repeat case_match; (split; [lia|split; intros; lia]).
Qed.

Lemma direction_eqb_eq a b : StreamDirection.eqb a b = true -> a = b.
Proof. destruct a, b; cbv; congruence. Qed.

(** X16: [find_or_create_stream_group] on the 8-entry group table returns an index in range
    whose group is valid, has the requested direction and stride and is stamped with the
    current timestamp; an existing matching group is returned with its members, otherwise
    the group is fresh with no members. *)
Theorem stream_group_lookup_or_create st dir stride :
  length (stream_groups st) = MAX_STREAM_GROUPS ->
  let r := find_or_create_stream_group st dir stride in
  let g := stream_groups r.2 !!! Z.to_nat r.1 in
  0 <= r.1 < Z.of_nat MAX_STREAM_GROUPS /\
  sg_valid g = true /\ sg_direction g = dir /\ sg_stride g = stride /\
  sg_last_seen_timestamp g = current_timestamp st /\
  (0 <= find_stream_group st dir stride ->
     r.1 = find_stream_group st dir stride /\
     sg_members g = sg_members (stream_groups st !!! Z.to_nat r.1) /\
     sg_member_count g = sg_member_count (stream_groups st !!! Z.to_nat r.1)) /\
  (find_stream_group st dir stride < 0 -> sg_member_count g = 0 /\
     sg_members g = repeat (-1) MAX_STREAMS_PER_GROUP).
Proof.
  intros Hl. cbv zeta. unfold find_or_create_stream_group. cbv zeta.
  destruct (Z.geb_spec (find_stream_group st dir stride) 0) as [E1|E1]; cbn [fst snd].
  - destruct (find_first_nonneg _ _ E1) as (G&HG&Hp). unfold find_stream_group in *.
    set (k := find_first _ (stream_groups st)) in *.
    assert (Hk : (Z.to_nat k < length (stream_groups st))%nat)
      by (eapply lookup_lt_Some; exact HG).
    rewrite stream_groups_upd_group, list_lookup_total_insert_eq by exact Hk.
    rewrite (list_lookup_total_correct _ _ _ HG).
    apply andb_true_iff in Hp as [Hp Hs]. apply andb_true_iff in Hp as [Hv Hd].
    apply Z.eqb_eq in Hs. apply direction_eqb_eq in Hd.
    split; [rewrite Hl in Hk; lia|]. simpl.
    split; [exact Hv|split; [exact Hd|split; [exact Hs|split; [reflexivity|]]]].
    split; [intros _; split; [reflexivity|split; reflexivity]|intros; lia].
  - destruct (Z.geb_spec (find_first (fun g => negb (sg_valid g)) (stream_groups st)) 0) as [E2|E2];
      cbn [fst snd].
    + destruct (find_first_nonneg _ _ E2) as (G&HG&_).
      set (k := find_first _ (stream_groups st)) in *.
      assert (Hk : (Z.to_nat k < length (stream_groups st))%nat)
        by (eapply lookup_lt_Some; exact HG).
      rewrite stream_groups_upd_group, list_lookup_total_insert_eq by exact Hk.
      split; [rewrite Hl in Hk; lia|]. simpl.
      split; [reflexivity|split; [reflexivity|split; [reflexivity|split; [reflexivity|]]]].
      split; [intros; lia|intros _; split; reflexivity].
    + destruct (clear_member_group_ids_spec
        (sg_members (stream_groups st !!! oldest_group (stream_groups st) 0 0 UINT64_MAX)) st)
        as (Hg&_).
      assert (Ho : (oldest_group (stream_groups st) 0 0 UINT64_MAX < length (stream_groups st))%nat)
        by (apply oldest_group_lt; rewrite Hl; unfold MAX_STREAM_GROUPS; lia).
      rewrite Nat2Z.id, stream_groups_upd_group, list_lookup_total_insert_eq by (rewrite Hg; exact Ho).
      split; [rewrite Hl in Ho; lia|]. simpl.
      split; [reflexivity|split; [reflexivity|split; [reflexivity|split; [reflexivity|]]]].
      split; [intros; lia|intros _; split; reflexivity].
Qed.

Lemma in_stream_range z : 0 <= z < Z.of_nat STREAM_TABLE_SIZE ->
  ((z <? 0) || (z >=? Z.of_nat STREAM_TABLE_SIZE)) = false.
Proof. intros H. apply orb_false_iff. split; [apply Z.ltb_ge|rewrite Z.geb_leb; apply Z.leb_gt]; lia. Qed.

Lemma remove_stream_from_group_frame st si :
  0 <= si < Z.of_nat STREAM_TABLE_SIZE ->
  let st' := remove_stream_from_group st si in
  stream_table st' =
    <[Z.to_nat si := set_se_group_id (-1) (stream_table st !!! Z.to_nat si)]> (stream_table st) /\
  pattern_history st' = pattern_history st /\ pattern_history_head st' = pattern_history_head st /\
  training_table st' = training_table st /\ current_timestamp st' = current_timestamp st /\
  phase_state st' = phase_state st.
Proof.
  intros H. cbv zeta. unfold remove_stream_from_group. rewrite in_stream_range by exact H.
  cbv zeta. destruct (_ || _); [repeat split|].
  destruct (_ =? 0); repeat split.
Qed.

(** X17: terminating a valid stream invalidates and deactivates it and clears its group id,
    leaves the other streams, the training table and the timestamp unchanged, and records
    the stream (direction, stride, start, length, timestamp) at the head of the pattern
    history, which advances modulo 16. *)
Theorem terminate_stream_effect st si :
  0 <= si < Z.of_nat STREAM_TABLE_SIZE ->
  (Z.to_nat si < length (stream_table st))%nat ->
  0 <= pattern_history_head st < Z.of_nat (length (pattern_history st)) ->
  let e := stream_table st !!! Z.to_nat si in
  se_valid e = true ->
  let st' := terminate_stream st si in
  let e' := stream_table st' !!! Z.to_nat si in
  let p := pattern_history st' !!! Z.to_nat (pattern_history_head st) in
  se_valid e' = false /\ se_active e' = false /\ se_group_id e' = -1 /\
  se_stream_start_block e' = se_stream_start_block e /\ se_stride e' = se_stride e /\
  (forall j, j <> Z.to_nat si -> stream_table st' !! j = stream_table st !! j) /\
  pa_valid p = true /\ pa_direction p = se_direction e /\ pa_stride p = se_stride e /\
  pa_region_base p = se_stream_start_block e /\ pa_stream_length p = se_stream_length e /\
  pa_termination_timestamp p = current_timestamp st /\
  pattern_history_head st' = (pattern_history_head st + 1) mod Z.of_nat PATTERN_HISTORY_SIZE /\
  training_table st' = training_table st /\ current_timestamp st' = current_timestamp st.
Proof.
  intros Hr Hl Hh. cbv zeta. intros Hv.
  unfold terminate_stream. rewrite in_stream_range by exact Hr. rewrite Hv. cbv zeta. simpl negb.
  cbv iota.
  destruct (remove_stream_from_group_frame (record_pattern st (stream_table st !!! Z.to_nat si)) si Hr)
    as (F1&F2&F3&F4&F5&_).
  cbv zeta in F1, F2, F3, F4, F5.
  set (st2 := remove_stream_from_group _ si) in *.
  unfold update_phase_state, upd_stream, set_phase_state, set_stream_table. cbn.
  assert (R1 : stream_table (record_pattern st (stream_table st !!! Z.to_nat si)) = stream_table st)
    by reflexivity.
  rewrite F1, R1.
  rewrite list_lookup_total_insert_eq by (rewrite length_insert; exact Hl).
  rewrite list_lookup_total_insert_eq by exact Hl.
  rewrite F2, F3, F4, F5. unfold record_pattern, set_pattern_history. cbn.
  assert (Hh' : (Z.to_nat (pattern_history_head st) < length (pattern_history st))%nat) by lia.
  rewrite list_lookup_total_insert_eq by exact Hh'. cbn.
  repeat split.
  intros j Hj. rewrite !list_lookup_insert_ne by congruence. reflexivity.
Qed.

Lemma insert_total_key {A B} `{Inhabited A} (key : A -> B) (f : A -> A) (l : list A) j i :
  (forall x, key (f x) = key x) ->
  key (<[j := f (l !!! j)]> l !!! i) = key (l !!! i).
Proof.
  intros Hf. destruct (decide (i = j)) as [->|Hne].
  - destruct (decide (j < length l)%nat) as [Hl|Hl].
    + rewrite list_lookup_total_insert_eq by exact Hl. apply Hf.
    + rewrite list_insert_ge by lia. reflexivity.
  - rewrite list_lookup_total_insert_ne by congruence. reflexivity.
Qed.

Lemma insert_total_other {A} `{Inhabited A} (x : A) (l : list A) j i :
  i <> j -> <[j := x]> l !!! i = l !!! i.
Proof. intros Hne. apply list_lookup_total_insert_ne. congruence. Qed.

Lemma terminate_stream_keys st j :
  let st' := terminate_stream st j in
  current_timestamp st' = current_timestamp st /\
  (forall i, se_age_key (stream_table st' !!! i) = se_age_key (stream_table st !!! i)) /\
  (forall i, i <> Z.to_nat j -> se_valid (stream_table st' !!! i) = se_valid (stream_table st !!! i)).
Proof.
  cbv zeta. unfold terminate_stream.
  destruct ((j <? 0) || (j >=? Z.of_nat STREAM_TABLE_SIZE)) eqn:Er;
    [split; [reflexivity|split; intros; reflexivity]|].
  assert (Hr : 0 <= j < Z.of_nat STREAM_TABLE_SIZE)
    by (apply orb_false_iff in Er as [E1 E2]; apply Z.ltb_ge in E1;
        rewrite Z.geb_leb in E2; apply Z.leb_gt in E2; lia).
  destruct (negb _); [split; [reflexivity|split; intros; reflexivity]|]. cbv zeta.
  destruct (remove_stream_from_group_frame (record_pattern st (stream_table st !!! Z.to_nat j)) j Hr)
    as (F1&_&_&_&F5&_).
  cbv zeta in F1, F5.
  set (st2 := remove_stream_from_group _ j) in *.
  unfold update_phase_state, upd_stream, set_phase_state, set_stream_table. cbn.
  rewrite F1. split; [exact F5|split].
  - intros i.
    rewrite (insert_total_key se_age_key (fun e => set_se_active false (set_se_valid false e)))
      by reflexivity.
    rewrite (insert_total_key se_age_key (set_se_group_id (-1))) by reflexivity.
    reflexivity.
  - intros i Hi. rewrite !insert_total_other by exact Hi. reflexivity.
Qed.

Lemma remove_dead_step_kills st a i :
  se_valid (stream_table st !!! i) = true ->
  se_valid (stream_table (remove_dead_step st a) !!! i) = false ->
  let e := stream_table st !!! i in
  u64 (current_timestamp st - se_last_trigger_timestamp e) > DEAD_STREAM_THRESHOLD /\
  se_stream_length e < SHORT_STREAM_THRESHOLD.
Proof.
  intros Hv Hv'. cbv zeta. unfold remove_dead_step in Hv'. cbv zeta in Hv'.
  destruct (negb (se_valid (stream_table st !!! a))); [congruence|].
  set (c := (u64 (current_timestamp st - se_last_trigger_timestamp (stream_table st !!! a))
                >? DEAD_STREAM_THRESHOLD) &&
            (se_stream_length (stream_table st !!! a) <? SHORT_STREAM_THRESHOLD)) in *.
  assert (Hc : forall b, (if c && b then (if se_confidence_score (stream_table st !!! a) >=?
                FAST_TRACK_CONFIDENCE then false else c) else c) = true -> c = true).
  { intros b. destruct c; [reflexivity|]. simpl. discriminate. }
  destruct (if c && is_group_protected st (Z.of_nat a) then _ else c) eqn:Ed; [|congruence].
  apply Hc in Ed. subst c. apply andb_true_iff in Ed as [E1 E2].
  apply Z.gtb_lt in E1. apply Z.ltb_lt in E2.
  destruct (terminate_stream_keys st (Z.of_nat a)) as (_&_&Hval).
  destruct (decide (i = a)) as [->|Hne]; [split; lia|].
  rewrite Hval in Hv' by lia. congruence.
Qed.

Lemma remove_dead_step_keys st a :
  current_timestamp (remove_dead_step st a) = current_timestamp st /\
  forall i, se_age_key (stream_table (remove_dead_step st a) !!! i) =
            se_age_key (stream_table st !!! i).
Proof.
  unfold remove_dead_step. cbv zeta.
  destruct (negb _); [split; reflexivity|].
  match goal with |- context [if ?c then terminate_stream _ _ else _] => destruct c end;
    [|split; reflexivity].
  destruct (terminate_stream_keys st (Z.of_nat a)) as (H1&H2&_). split; assumption.
Qed.

(** X18: [remove_dead_streams] only invalidates a stream that was older than
    DEAD_STREAM_THRESHOLD since its last trigger and shorter than SHORT_STREAM_THRESHOLD. *)
Theorem remove_dead_streams_only_stale_short st i :
  let e := stream_table st !!! i in
  se_valid e = true -> se_valid (stream_table (remove_dead_streams st) !!! i) = false ->
  u64 (current_timestamp st - se_last_trigger_timestamp e) > DEAD_STREAM_THRESHOLD /\
  se_stream_length e < SHORT_STREAM_THRESHOLD.
Proof.
  cbv zeta. unfold remove_dead_streams. generalize (seq 0 STREAM_TABLE_SIZE) as l.
  intros l. revert st. induction l as [|a l IH]; intros st Hv Hv'; simpl in Hv'; [congruence|].
  destruct (se_valid (stream_table (remove_dead_step st a) !!! i)) eqn:Hv1.
  - destruct (IH _ Hv1 Hv') as [H1 H2].
    destruct (remove_dead_step_keys st a) as [Ht Hk]. specialize (Hk i).
    unfold se_age_key in Hk. injection Hk as Hk1 Hk2. rewrite Ht, Hk1, Hk2 in *. split; assumption.
  - exact (remove_dead_step_kills st a i Hv Hv1).
Qed.

Lemma select_victim_from_invalid st l i vi lp :
  (find_first_from (fun e => negb (se_valid e)) l (Z.of_nat i) = -1 /\
   Forall (fun e => se_valid e = true) l) \/
  (0 <= find_first_from (fun e => negb (se_valid e)) l (Z.of_nat i) /\
   select_victim_from st l i vi lp = find_first_from (fun e => negb (se_valid e)) l (Z.of_nat i)).
Proof.
  revert i vi lp. induction l as [|e l IH]; intros i vi lp; simpl; [left; auto|].
  destruct (se_valid e) eqn:Ev; simpl; [|right; lia].
  replace (Z.of_nat i + 1) with (Z.of_nat (S i)) by lia.
  destruct (IH (S i) (Z.of_nat i) (compute_eviction_priority st (Z.of_nat i))) as [[H1 H2]|[H1 H2]].
  - left. auto.
  - right. split; [exact H1|].
    destruct (compute_eviction_priority st (Z.of_nat i) <? lp); [exact H2|].
    destruct (IH (S i) vi lp) as [[H3 _]|[_ H4]]; [lia|exact H4].
Qed.

Lemma select_victim_from_min st l i vi lp :
  Forall (fun e => se_valid e = true) l ->
  let P := fun j : nat => compute_eviction_priority st (Z.of_nat j) in
  let r := select_victim_from st l i vi lp in
  (r = vi /\ forall k, (k < length l)%nat -> lp <= P (i + k)%nat) \/
  (exists k, (k < length l)%nat /\ r = Z.of_nat (i + k) /\ P (i + k)%nat < lp /\
   forall k', (k' < length l)%nat ->
     P (i + k)%nat <= P (i + k')%nat /\ ((k' < k)%nat -> P (i + k)%nat < P (i + k')%nat)).
Proof.
  intros HF P. subst P. cbv zeta. revert i vi lp.
  induction HF as [|e l Ev HF IH]; intros i vi lp; simpl.
  { left. split; [reflexivity|intros; lia]. }
  rewrite Ev. simpl.
  assert (Hs : forall k, (i + S k = S i + k)%nat) by (intros; lia).
  destruct (compute_eviction_priority st (Z.of_nat i) <? lp) eqn:Ep.
  - apply Z.ltb_lt in Ep.
    destruct (IH (S i) (Z.of_nat i) (compute_eviction_priority st (Z.of_nat i)))
      as [[H1 H2]|(k&Hk&H1&H2&H3)].
    + right. exists 0%nat. rewrite Nat.add_0_r. split; [lia|]. split; [exact H1|].
      split; [exact Ep|]. intros [|k'] Hk'; [rewrite Nat.add_0_r; split; [lia|lia]|].
      rewrite Hs. split; [apply H2; lia|lia].
    + right. exists (S k). rewrite Hs. split; [lia|]. split; [exact H1|].
      split; [lia|].
      intros [|k'] Hk'.
      * rewrite Nat.add_0_r. lia.
      * rewrite Hs. destruct (H3 k' ltac:(lia)) as [H4 H5]. split; [exact H4|].
        intros Hlt. apply H5. lia.
  - apply Z.ltb_ge in Ep.
    destruct (IH (S i) vi lp) as [[H1 H2]|(k&Hk&H1&H2&H3)].
    + left. split; [exact H1|]. intros [|k] Hk; [rewrite Nat.add_0_r; exact Ep|].
      rewrite Hs. apply H2. lia.
    + right. exists (S k). rewrite Hs. split; [lia|]. split; [exact H1|].
      split; [exact H2|].
      intros [|k'] Hk'.
      * rewrite Nat.add_0_r. lia.
      * rewrite Hs. destruct (H3 k' ltac:(lia)) as [H4 H5]. split; [exact H4|].
        intros Hlt. apply H5. lia.
Qed.

(** X19: [select_victim_stream] returns the first invalid stream when there is one;
    otherwise it returns the stream of least eviction priority (the first on ties), or -1
    when every priority is at least INT_MAX. *)
Theorem select_victim_stream_choice st :
  let P := fun j : nat => compute_eviction_priority st (Z.of_nat j) in
  let n := length (stream_table st) in
  let v := select_victim_stream st in
  (0 <= first_invalid_stream st /\ v = first_invalid_stream st) \/
  (first_invalid_stream st = -1 /\
   ((v = -1 /\ forall k, (k < n)%nat -> INT_MAX <= P k) \/
    (exists k, (k < n)%nat /\ v = Z.of_nat k /\
     forall k', (k' < n)%nat -> P k <= P k' /\ ((k' < k)%nat -> P k < P k')))).
Proof.
  intros P n v. unfold v, select_victim_stream, first_invalid_stream, find_first.
  destruct (select_victim_from_invalid st (stream_table st) 0 (-1) INT_MAX)
    as [[H1 H2]|[H1 H2]]; [right|left; auto].
  split; [exact H1|].
  destruct (select_victim_from_min st (stream_table st) 0 (-1) INT_MAX H2)
    as [[H3 H4]|(k&Hk&H3&_&H4)]; [left|right].
  - split; [exact H3|]. intros k Hk. apply (H4 k Hk).
  - exists k. split; [exact Hk|]. split; [exact H3|]. exact H4.
Qed.

(** X20: in every reachable state, [allocate_stream_entry] returns a negative index or the
    index of a stream slot that is invalid in the returned state. *)
Theorem allocate_stream_entry_free_slot st :
  treachable st ->
  let r := allocate_stream_entry st in
  r.1 < 0 \/
  (0 <= r.1 < Z.of_nat STREAM_TABLE_SIZE /\
   (Z.to_nat r.1 < length (stream_table r.2))%nat /\
   se_valid (stream_table r.2 !!! Z.to_nat r.1) = false).
Proof.
  intros H. cbv zeta.
  destruct (allocate_stream_entry_spec st (treachable_tinv st H)) as [_ [Hn|(Hr&gid&Hg)]];
    [left; exact Hn|right].
  split; [exact Hr|]. unfold sview in Hg. rewrite list_lookup_fmap in Hg.
  destruct (stream_table (allocate_stream_entry st).2 !! Z.to_nat (allocate_stream_entry st).1)
    as [e|] eqn:He; [|discriminate]. simpl in Hg. injection Hg as Hv _.
  split; [apply lookup_lt_Some in He; exact He|].
  rewrite (list_lookup_total_correct _ _ _ He). exact Hv.
Qed.

Lemma fmap_insert_same {A B} `{Inhabited A} (key : A -> B) (f : A -> A) (l : list A) j :
  (forall x, key (f x) = key x) ->
  key <$> <[j := f (l !!! j)]> l = key <$> l.
Proof.
  intros Hf. rewrite list_fmap_insert, Hf.
  destruct (decide (j < length l)%nat) as [Hl|Hl].
  - apply list_insert_id. rewrite list_lookup_fmap.
    destruct (lookup_lt_is_Some_2 l j Hl) as [x Hx].
    rewrite Hx, (list_lookup_total_correct _ _ _ Hx). reflexivity.
  - apply list_insert_ge. rewrite length_fmap. lia.
Qed.

Lemma background_frame_refl st : background_frame st st.
Proof. repeat split. Qed.

Lemma background_frame_trans s1 s2 s3 :
  background_frame s1 s2 -> background_frame s2 s3 -> background_frame s1 s3.
Proof.
  intros (A1&A2&A3&A4&A5&A6&A7&A8) (B1&B2&B3&B4&B5&B6&B7&B8).
  repeat split; congruence.
Qed.

Lemma upd_stream_background st i f :
  (forall e, stream_identity (f e) = stream_identity e) ->
  background_frame st (upd_stream st i f).
Proof.
  intros Hf. repeat split. apply fmap_insert_same. exact Hf.
Qed.

Lemma update_stream_classification_background st j :
  background_frame st (update_stream_classification st j).
Proof.
  unfold update_stream_classification.
  destruct (_ || _); [apply background_frame_refl|]. cbv zeta.
  destruct (negb _); [apply background_frame_refl|].
  set (st1 := upd_stream st _ _).
  assert (H1 : background_frame st st1) by (apply upd_stream_background; reflexivity).
  destruct (_ && _); [|exact H1].
  eapply background_frame_trans; [exact H1|].
  repeat split. unfold gview, upd_group. cbn. apply fmap_insert_same. reflexivity.
Qed.

Lemma prefetch_loop_background h fuel i si st :
  background_frame st (prefetch_loop h fuel i si st).
Proof.
  revert i st. induction fuel as [|fuel IH]; intros i st; simpl.
  - apply upd_stream_background. reflexivity.
  - destruct (if is_POSITIVE _ then _ else _).
    { apply upd_stream_background. reflexivity. }
    destruct (_ && _). { apply upd_stream_background. reflexivity. }
    destruct (negb _); [apply background_frame_refl|].
    destruct (prefetch_line_accepts h _); [|apply background_frame_refl].
    set (st1 := upd_stream st si _).
    assert (H1 : background_frame st st1) by (apply upd_stream_background; reflexivity).
    eapply background_frame_trans; [exact H1|].
    destruct (_ =? 0).
    + eapply background_frame_trans; [apply update_stream_classification_background|apply IH].
    + apply IH.
Qed.

Lemma generate_prefetches_background h st si :
  background_frame st (generate_prefetches h st si).
Proof.
  unfold generate_prefetches. cbv zeta.
  destruct (negb _); [apply background_frame_refl|apply prefetch_loop_background].
Qed.

Lemma prefetcher_cycle_operate_background h st :
  background_frame st (prefetcher_cycle_operate h st).
Proof.
  unfold prefetcher_cycle_operate. generalize (seq 0 STREAM_TABLE_SIZE) as l.
  intros l. cut (forall s, background_frame st s -> background_frame st (fold_left (fun st i =>
      let e := stream_table st !!! i in
      if se_valid e && se_active e then generate_prefetches h st i else st) l s)).
  { intros Hc. apply Hc, background_frame_refl. }
  induction l as [|a l IH]; intros s Hs; simpl; [exact Hs|].
  apply IH. destruct (_ && _); [|exact Hs].
  eapply background_frame_trans; [exact Hs|apply generate_prefetches_background].
Qed.
(** X21: [prefetcher_cycle_operate] only advances active streams: the training table,
    pattern history, phase state, counters and group membership are unchanged, and so is
    every stream's validity, direction, stride, bounds and group id. *)
Theorem cycle_operate_background_only h st :
  let st' := prefetcher_cycle_operate h st in
  training_table st' = training_table st /\ pattern_history st' = pattern_history st /\
  pattern_history_head st' = pattern_history_head st /\ phase_state st' = phase_state st /\
  current_timestamp st' = current_timestamp st /\ cleanup_counter st' = cleanup_counter st /\
  gview st' = gview st /\ stream_identity <$> stream_table st' = stream_identity <$> stream_table st.
Proof. exact (prefetcher_cycle_operate_background h st). Qed.

Lemma total_insert_prop {A} `{Inhabited A} (P : A -> Prop) (l : list A) j x :
  (forall i, P (l !!! i)) -> P x -> forall i, P (<[j := x]> l !!! i).
Proof.
  intros Hl Hx i. destruct (decide (i = j)) as [->|Hne].
  - destruct (decide (j < length l)%nat) as [Hj|Hj].
    + rewrite list_lookup_total_insert_eq by exact Hj. exact Hx.
    + rewrite list_insert_ge by lia. apply Hl.
  - rewrite list_lookup_total_insert_ne by congruence. apply Hl.
Qed.

Lemma fmap_eq_total {A B} `{Inhabited A} (f : A -> B) (l l' : list A) :
  f <$> l' = f <$> l -> forall i, f (l' !!! i) = f (l !!! i).
Proof.
  intros He i. rewrite !list_lookup_total_alt.
  assert (Hi : f <$> (l' !! i) = f <$> (l !! i)) by (rewrite <- !list_lookup_fmap, He; reflexivity).
  destruct (l' !! i), (l !! i); simpl in *; congruence.
Qed.

Lemma streamside_refl st : streamside st st.
Proof. split; auto. Qed.

Lemma streamside_trans s1 s2 s3 :
  streamside s1 s2 -> streamside s2 s3 -> streamside s1 s3.
Proof. intros [A1 A2] [B1 B2]. split; [congruence|auto]. Qed.

Lemma streamside_upd_stream st i f :
  (strides_ok st -> 1 <= se_stride (f (stream_table st !!! i))) ->
  streamside st (upd_stream st i f).
Proof.
  intros Hf. split; [reflexivity|]. intros [HS HP]. split; [|exact HP].
  apply (total_insert_prop (fun e => 1 <= se_stride e)); [exact HS|apply Hf; split; assumption].
Qed.

Lemma streamside_upd_group st i f : streamside st (upd_group st i f).
Proof. split; [reflexivity|]. intros H. exact H. Qed.

Lemma streamside_background st st' : background_frame st st' -> streamside st st'.
Proof.
  intros (A1&A2&_&_&_&_&_&A8). split; [exact A1|].
  intros [HS HP]. split.
  - intros i. pose proof (fmap_eq_total stream_identity _ _ A8 i) as E.
    unfold stream_identity in E. injection E as _ _ E _ _ _. rewrite E. apply HS.
  - rewrite A2. exact HP.
Qed.

Lemma streamside_record_pattern st k :
  streamside st (record_pattern st (stream_table st !!! k)).
Proof.
  split; [reflexivity|]. intros [HS HP]. split; [exact HS|].
  unfold record_pattern. cbn.
  apply (total_insert_prop (fun p => pa_valid p = true -> 1 <= pa_stride p)); [exact HP|].
  intros _. apply HS.
Qed.

Lemma streamside_remove_stream_from_group st j :
  streamside st (remove_stream_from_group st j).
Proof.
  unfold remove_stream_from_group.
  destruct (_ || _); [apply streamside_refl|]. cbv zeta.
  destruct (_ || _); [apply streamside_upd_stream; intros [HS _]; apply HS|].
  assert (H : forall g1, streamside st
     (upd_stream (upd_group st (Z.to_nat (se_group_id (stream_table st !!! Z.to_nat j)))
        (fun _ => g1)) (Z.to_nat j) (set_se_group_id (-1)))).
  { intros g1. eapply streamside_trans; [apply streamside_upd_group|].
    apply streamside_upd_stream. intros [HS _]. apply HS. }
  destruct (_ =? 0); [|apply H].
  eapply streamside_trans; [apply H|apply streamside_upd_group].
Qed.

Lemma streamside_terminate_stream st j : streamside st (terminate_stream st j).
Proof.
  unfold terminate_stream.
  destruct (_ || _); [apply streamside_refl|]. cbv zeta.
  destruct (negb _); [apply streamside_refl|].
  eapply streamside_trans; [apply streamside_record_pattern|].
  eapply streamside_trans; [apply streamside_remove_stream_from_group|].
  eapply streamside_trans; [|apply streamside_upd_stream; intros [HS _]; apply HS].
  split; [reflexivity|]. intros H. exact H.
Qed.

Lemma streamside_remove_dead_streams st : streamside st (remove_dead_streams st).
Proof.
  unfold remove_dead_streams. generalize (seq 0 STREAM_TABLE_SIZE) as l. intros l.
  cut (forall s, streamside st s -> streamside st (fold_left remove_dead_step l s)).
  { intros Hc. apply Hc, streamside_refl. }
  induction l as [|a l IH]; intros s Hs; simpl; [exact Hs|]. apply IH.
  unfold remove_dead_step. cbv zeta.
  destruct (negb _); [exact Hs|].
  match goal with |- context [if ?c then terminate_stream _ _ else _] => destruct c end;
    [|exact Hs].
  eapply streamside_trans; [exact Hs|apply streamside_terminate_stream].
Qed.

Lemma streamside_allocate_stream_entry st : streamside st (allocate_stream_entry st).2.
Proof.
  unfold allocate_stream_entry. cbv zeta.
  destruct (_ >=? 0); [apply streamside_refl|].
  destruct (_ >=? 0); [apply streamside_remove_dead_streams|].
  destruct (_ >=? 0); [|apply streamside_remove_dead_streams].
  eapply streamside_trans; [apply streamside_remove_dead_streams|apply streamside_terminate_stream].
Qed.

Lemma streamside_clear_member_group_ids ms st : streamside st (clear_member_group_ids ms st).
Proof.
  unfold clear_member_group_ids.
  cut (forall s, streamside st s -> streamside st (fold_left (fun st member_idx =>
      if (0 <=? member_idx) && (member_idx <? Z.of_nat STREAM_TABLE_SIZE)
      then upd_stream st (Z.to_nat member_idx) (set_se_group_id (-1))
      else st) ms s)).
  { intros Hc. apply Hc, streamside_refl. }
  induction ms as [|m ms IH]; intros s Hs; simpl; [exact Hs|]. apply IH.
  destruct (_ && _); [|exact Hs].
  eapply streamside_trans; [exact Hs|]. apply streamside_upd_stream. intros [HS _]. apply HS.
Qed.

Lemma streamside_find_or_create_stream_group st dir stride :
  streamside st (find_or_create_stream_group st dir stride).2.
Proof.
  unfold find_or_create_stream_group. cbv zeta.
  destruct (_ >=? 0); [apply streamside_upd_group|].
  destruct (_ >=? 0); [apply streamside_upd_group|]. cbn [snd].
  eapply streamside_trans; [apply streamside_clear_member_group_ids|apply streamside_upd_group].
Qed.

Lemma streamside_add_stream_to_group st si gi : streamside st (add_stream_to_group st si gi).
Proof.
  unfold add_stream_to_group.
  destruct (_ || _); [apply streamside_refl|].
  destruct (_ || _); [apply streamside_refl|]. cbv zeta.
  destruct (_ >=? 0).
  - eapply streamside_trans; [apply streamside_upd_group|].
    apply streamside_upd_stream. intros [HS _]. apply HS.
  - apply streamside_upd_stream. intros [HS _]. apply HS.
Qed.

Lemma streamside_generate_prefetches h st si : streamside st (generate_prefetches h st si).
Proof. apply streamside_background, generate_prefetches_background. Qed.

Lemma streamside_reactivate_stream h st i b : streamside st (reactivate_stream h st i b).
Proof.
  unfold reactivate_stream. cbv zeta.
  match goal with |- context [upd_stream st i ?f] =>
    assert (H1 : streamside st (upd_stream st i f))
      by (apply streamside_upd_stream; intros [HS _]; apply HS);
    set (st1 := upd_stream st i f) in * end.
  clearbody st1. eapply streamside_trans; [exact H1|].
  destruct (_ <? 0).
  - match goal with |- context [find_or_create_stream_group st1 ?d ?s] =>
      pose proof (streamside_find_or_create_stream_group st1 d s) as Hg;
      destruct (find_or_create_stream_group st1 d s) as [gi s'] end.
    cbn [snd] in Hg.
    eapply streamside_trans; [exact Hg|].
    eapply streamside_trans; [apply streamside_add_stream_to_group|apply streamside_generate_prefetches].
  - apply streamside_generate_prefetches.
Qed.

Lemma streamside_try_relaunch_stream h st b dir stride :
  streamside st (try_relaunch_stream h st b dir stride).2.
Proof.
  unfold try_relaunch_stream. cbv zeta.
  destruct (_ >=? 0); [apply streamside_reactivate_stream|apply streamside_refl].
Qed.

Lemma streamside_create_stream h st trained :
  1 <= te_stride trained -> streamside st (create_stream h st trained).
Proof.
  intros Ht. unfold create_stream.
  pose proof (streamside_allocate_stream_entry st) as H1.
  destruct (allocate_stream_entry st) as [idx st1]. cbn [snd] in H1.
  destruct (idx <? 0); [exact H1|]. cbv zeta.
  eapply streamside_trans; [exact H1|].
  match goal with |- context [upd_stream st1 ?i ?f] =>
    assert (H2 : streamside st1 (upd_stream st1 i f))
      by (apply streamside_upd_stream; intros _; exact Ht);
    set (st2 := upd_stream st1 i f) in * end.
  clearbody st2. eapply streamside_trans; [exact H2|].
  match goal with |- context [find_or_create_stream_group st2 ?d ?s] =>
    pose proof (streamside_find_or_create_stream_group st2 d s) as Hg;
    destruct (find_or_create_stream_group st2 d s) as [gi s'] end.
  cbn [snd] in Hg. eapply streamside_trans; [exact Hg|].
  eapply streamside_trans; [apply streamside_add_stream_to_group|apply streamside_generate_prefetches].
Qed.

Lemma pattern_confidence_stride0 st dir r :
  strides_ok st -> get_pattern_confidence st dir 0 r = 0.
Proof.
  intros [_ HP]. unfold get_pattern_confidence, find_matching_pattern. cbv zeta.
  match goal with |- context [find_first ?p ?l] =>
    destruct (find_first_spec p l) as [[E _]|(k&x&_&Hk&Hp)] end.
  - rewrite E. reflexivity.
  - exfalso. apply andb_true_iff in Hp as [Hp Hr].
    apply andb_true_iff in Hp as [Hp Hs]. apply andb_true_iff in Hp as [Hp _].
    apply andb_true_iff in Hp as [Hv _]. apply Z.eqb_eq in Hs.
    pose proof (HP k) as Hk'. rewrite (list_lookup_total_correct _ _ _ Hk) in Hk'.
    specialize (Hk' Hv). lia.
Qed.

Lemma allocate_training_entry_conf st rb :
  let r := allocate_training_entry st rb in
  stream_table r.2 = stream_table st /\ pattern_history r.2 = pattern_history st /\
  (conf_zero st -> conf_zero r.2).
Proof.
  cbv zeta. unfold allocate_training_entry. cbv zeta. cbn [snd].
  split; [reflexivity|split; [reflexivity|]]. intros HC.
  unfold conf_zero, upd_training. cbn.
  apply (total_insert_prop (fun t => te_valid t = true -> te_pattern_confidence t = 0));
    [exact HC|reflexivity].
Qed.

Lemma update_training_entry_conf st idx mb :
  conf_zero st -> strides_ok st ->
  let st1 := update_training_entry st idx mb in
  let t := training_table st1 !!! idx in
  stream_table st1 = stream_table st /\ pattern_history st1 = pattern_history st /\
  (forall i, i <> idx -> training_table st1 !!! i = training_table st !!! i) /\
  ((te_valid t = true -> te_pattern_confidence t = 0) \/
   (te_miss_count t = 3 /\
    StreamDirection.eqb (te_direction t) StreamDirection.UNKNOWN = false /\
    (te_stride t >=? 1) = true)).
Proof.
  intros HC HS. cbv zeta. unfold update_training_entry, upd_training. cbv zeta. cbn.
  split; [reflexivity|split; [reflexivity|split]].
  { intros i Hi. apply list_lookup_total_insert_ne. congruence. }
  destruct (decide (idx < length (training_table st))%nat) as [Hl|Hl];
    [|rewrite list_insert_ge by lia; left; apply HC].
  rewrite list_lookup_total_insert_eq by exact Hl.
  set (e := training_table st !!! idx).
  assert (He : te_valid e = true -> te_pattern_confidence e = 0) by apply HC.
  destruct (te_miss_count e =? 0).
  { left. intros _. cbn. apply pattern_confidence_stride0. exact HS. }
  destruct (te_miss_count e =? 1); [left; exact He|].
  destruct (is_noise _ _); [left; exact He|].
  destruct (StreamDirection.eqb (detect_direction _ _) StreamDirection.UNKNOWN) eqn:Ed;
    [left; exact He|].
  destruct (detect_stride _ _ <=? 0) eqn:Es; [left; exact He|].
  right. cbn. split; [reflexivity|split; [exact Ed|]].
  apply Z.leb_gt in Es. apply Z.geb_le. lia.
Qed.

Lemma streamside_inv st st' :
  streamside st st' -> strides_ok st -> conf_zero st -> strides_ok st' /\ conf_zero st'.
Proof.
  intros [Ht Hs] HS HC. split; [auto|]. unfold conf_zero. rewrite Ht. exact HC.
Qed.

Lemma streamside_reinforce st j : streamside st (reinforce_stream_confidence st j).
Proof.
  unfold reinforce_stream_confidence.
  destruct (_ || _); [apply streamside_refl|]. cbv zeta.
  destruct (negb _); [apply streamside_refl|].
  assert (H1 : forall f, streamside st (upd_stream st (Z.to_nat j) (set_se_confidence_score f)))
    by (intros f; apply streamside_upd_stream; intros [HS _]; apply HS).
  destruct (_ && _); [|apply H1].
  eapply streamside_trans; [apply H1|apply streamside_upd_group].
Qed.

Lemma streamside_counters st ts c : streamside st (set_counters ts c st).
Proof. split; [reflexivity|intros H; exact H]. Qed.

Lemma streamside_phase st b : streamside st (update_phase_state st b).
Proof. split; [reflexivity|intros H; exact H]. Qed.

Lemma prefetcher_cache_operate_fast_inv h st addr ip hit useful type md :
  strides_ok st -> conf_zero st ->
  let st' := fst (prefetcher_cache_operate h st addr ip hit useful type md) in
  strides_ok st' /\ conf_zero st'.
Proof.
  intros HS HC. cbv zeta. unfold prefetcher_cache_operate.
  destruct hit; [split; assumption|]. cbv zeta.
  set (ts := u64 (current_timestamp st + 1)).
  set (s1 := set_counters ts (cleanup_counter st) st).
  set (s2 := update_phase_state s1 false).
  set (cc := u64 (cleanup_counter s2 + 1)).
  set (s3 := set_counters ts cc s2).
  set (s4 := if cc >=? CLEANUP_INTERVAL then _ else s3).
  assert (H3 : streamside st s3).
  { eapply streamside_trans; [apply streamside_counters|].
    eapply streamside_trans; [apply streamside_phase|apply streamside_counters]. }
  assert (H4 : streamside st s4).
  { unfold s4. destruct (cc >=? CLEANUP_INTERVAL); [|exact H3].
    eapply streamside_trans; [exact H3|].
    eapply streamside_trans; [apply streamside_remove_dead_streams|apply streamside_counters]. }
  destruct (streamside_inv _ _ H4 HS HC) as [HS4 HC4].
  clearbody s4.
  destruct (find_stream_for_block s4 (block_of_address addr) >=? 0).
  { cbn [fst]. apply (streamside_inv s4); [|exact HS4|exact HC4].
    eapply streamside_trans;
      [apply (streamside_upd_stream s4 (Z.to_nat (find_stream_for_block s4 (block_of_address addr)))
                (se_trigger ts)); intros [HS' _]; apply HS'|].
    eapply streamside_trans; [apply streamside_reinforce|apply streamside_generate_prefetches]. }
  set (p := if _ <? 0 then _ else _).
  assert (H5 : strides_ok p.2 /\ conf_zero p.2).
  { unfold p. destruct (_ <? 0); cbn [snd]; [|split; assumption].
    destruct (allocate_training_entry_conf s4 (compute_region_base (block_of_address addr)))
      as (A1&A2&A3).
    split; [|exact (A3 HC4)]. destruct HS4 as [B1 B2]. unfold strides_ok. rewrite A1, A2.
    split; assumption. }
  clearbody p. destruct p as [ti s5]. cbn [snd] in H5. destruct H5 as [HS5 HC5].
  destruct (update_training_entry_conf s5 ti (block_of_address addr) HC5 HS5)
    as (U1&U2&U3&U4).
  set (s6 := update_training_entry s5 ti (block_of_address addr)) in *.
  assert (HS6 : strides_ok s6) by (destruct HS5; unfold strides_ok; rewrite U1, U2; split; assumption).
  clearbody s6.
  destruct ((te_miss_count (training_table s6 !!! ti) >=? CONFIRMATION_THRESHOLD) ||
            ((te_miss_count (training_table s6 !!! ti) >=? 2) &&
             can_fast_track_training (training_table s6 !!! ti))) eqn:Er.
  2: { destruct U4 as [U4|(M&_&_)]; [|rewrite M in Er; discriminate].
       cbn [andb fst]. split; [exact HS6|].
       intros i. destruct (decide (i = ti)) as [->|Hne]; [exact U4|].
       rewrite U3 by exact Hne. apply HC5. }
  cbn [andb].
  destruct (negb _ && _) eqn:Ec.
  2: { destruct U4 as [U4|(_&D&S)]; [|rewrite D, S in Ec; discriminate].
       cbn [fst]. split; [exact HS6|].
       intros i. destruct (decide (i = ti)) as [->|Hne]; [exact U4|].
       rewrite U3 by exact Hne. apply HC5. }
  assert (Hst : 1 <= te_stride (training_table s6 !!! ti))
    by (apply andb_true_iff in Ec as [_ Ec]; apply Z.geb_le in Ec; exact Ec).
  pose proof (streamside_try_relaunch_stream h s6 (block_of_address addr)
    (te_direction (training_table s6 !!! ti)) (te_stride (training_table s6 !!! ti))) as H7.
  destruct (try_relaunch_stream _ _ _ _ _) as [rl s7]. cbn [snd] in H7. cbn [fst].
  assert (H8 : streamside s6 (if rl then s7 else create_stream h s7 (training_table s6 !!! ti))).
  { destruct rl; [exact H7|]. eapply streamside_trans; [exact H7|].
    apply streamside_create_stream. exact Hst. }
  destruct H8 as [T8 S8].
  set (s8 := if rl then s7 else create_stream h s7 (training_table s6 !!! ti)) in *.
  clearbody s8. split.
  - unfold strides_ok, upd_training. cbn. apply S8. exact HS6.
  - unfold conf_zero, upd_training. cbn. rewrite T8. intros i.
    destruct (decide (i = ti)) as [->|Hne].
    + destruct (decide (ti < length (training_table s6))%nat) as [Hl|Hl].
      * rewrite list_lookup_total_insert_eq by exact Hl. cbn. discriminate.
      * rewrite list_insert_ge by lia. intros Hv.
        rewrite list_lookup_total_alt, lookup_ge_None_2 in Hv by lia. discriminate.
    + rewrite list_lookup_total_insert_ne by congruence. rewrite U3 by exact Hne. apply HC5.
Qed.

Lemma treachable_fast_inv st : treachable st -> strides_ok st /\ conf_zero st.
Proof.
  induction 1 as [|h s addr ip hit useful type md Hr IH|s addr set way pf ev md Hr IH|h s Hr IH].
  - split; [split|].
    + intros i. unfold tstate_init. cbn [stream_table]. rewrite list_lookup_total_alt.
      destruct (repeat initial_stream_entry STREAM_TABLE_SIZE !! i) eqn:E; [|cbn; lia].
      apply lookup_repeat_eq in E. subst. cbn. lia.
    + intros i. unfold tstate_init. cbn [pattern_history]. rewrite list_lookup_total_alt.
      destruct (repeat default_pattern PATTERN_HISTORY_SIZE !! i) eqn:E; [|cbn; discriminate].
      apply lookup_repeat_eq in E. subst. cbn. discriminate.
    + intros i. unfold tstate_init. cbn [training_table]. rewrite list_lookup_total_alt.
      destruct (repeat default_training_entry TRAINING_TABLE_SIZE !! i) eqn:E; [|cbn; discriminate].
      apply lookup_repeat_eq in E. subst. cbn. discriminate.
  - destruct IH as [HS HC]. apply prefetcher_cache_operate_fast_inv; assumption.
  - exact IH.
  - destruct IH as [HS HC]. apply (streamside_inv s); [|exact HS|exact HC].
    apply streamside_background. apply prefetcher_cycle_operate_background.
Qed.

(** X22: in every reachable state, every valid training entry has pattern confidence 0, so
    [can_fast_track_training] is false for it; the stride-0 confidence lookup of a first
    miss always yields 0. *)
Theorem fast_track_never_enabled st :
  treachable st ->
  (forall i, te_valid (training_table st !!! i) = true ->
     te_pattern_confidence (training_table st !!! i) = 0 /\
     can_fast_track_training (training_table st !!! i) = false) /\
  (forall dir region, get_pattern_confidence st dir 0 region = 0).
Proof.
  intros H. destruct (treachable_fast_inv st H) as [HS HC]. split.
  - intros i Hv. pose proof (HC i Hv) as E. split; [exact E|].
    unfold can_fast_track_training. rewrite E. reflexivity.
  - intros dir region. apply pattern_confidence_stride0. exact HS.
Qed.

Lemma sample_category_per_block_witness :
  0 <= 3 < get_set_sample_rate 2048 /\
  get_set_sample_category 2048
    (5 * get_set_sample_rate 2048 + (3 + 5) mod get_set_sample_rate 2048) = 3.
Proof.
  assert (Hr : 0 <= 3 < get_set_sample_rate 2048) by (split; [lia|vm_compute; reflexivity]).
  split; [exact Hr|].
  destruct (sample_category_per_block 2048 5 3 Hr) as (_&H&_). exact H.
Defined.

Lemma sampler_index_in_range_witness :
  let s0 := selector_initialize 2048 16 tstate_init tt in
  sel_reachable (fun q => q) s0 /\ 3 <= 11 /\ NUM_SET s0 = 2 ^ 11 /\
  Z.quot (Z.land (Z.shiftr 123456 LOG2_BLOCK_SIZE) (NUM_SET s0 - 1))
         (get_set_sample_rate (NUM_SET s0)) < Z.of_nat (length (samplers s0)).
Proof.
  intros s0. assert (H : sel_reachable (fun q => q) s0) by constructor.
  assert (Hn : NUM_SET s0 = 2 ^ 11) by reflexivity.
  split; [exact H|split; [lia|split; [exact Hn|]]].
  destruct (sampler_index_in_range (fun q => q) s0 11 H ltac:(lia) Hn 123456) as [_ A].
  exact A.
Defined.

Lemma small_cache_no_samplers_witness :
  let s0 := selector_initialize 4 16 tstate_init tt in
  sel_reachable (fun q => q) s0 /\ 0 <= NUM_SET s0 < 8 /\ samplers s0 = [].
Proof.
  intros s0. assert (H : sel_reachable (fun q => q) s0) by constructor.
  assert (Hn : 0 <= NUM_SET s0 < 8) by (simpl; lia).
  split; [exact H|split; [exact Hn|]]. exact (small_cache_no_samplers (fun q => q) s0 H Hn).
Defined.

Lemma selector_routing_witness :
  let s0 := selector_initialize 2048 16 tstate_init tt in
  fst (should_allow_prefetch idle_host s0) = true /\
  pythia_selected_count (fst (selector_cache_operate idle_host s0 0 0 false false LOAD 0)) =
    pythia_selected_count s0.
Proof.
  intros s0.
  assert (H : fst (should_allow_prefetch idle_host s0) = true) by (vm_compute; reflexivity).
  split; [exact H|].
  destruct (selector_routing idle_host s0 0 0 false false LOAD 0 H) as [Ht _].
  exact (proj2 (proj2 (proj2 (proj2 (Ht ltac:(vm_compute; reflexivity)))))).
Defined.

Lemma accuracy_before_any_issue_witness :
  let s0 := selector_initialize 2048 16 tstate_init tt in
  transformer_issued (dedicated_stats s0) = 0 /\ pythia_issued (dedicated_stats s0) = 0 /\
  Forall (fun e => transformer_issued e = 0 /\ pythia_issued e = 0) (samplers s0) /\
  get_prefetch_accuracy s0 = 1%Q.
Proof.
  intros s0.
  assert (H1 : transformer_issued (dedicated_stats s0) = 0) by reflexivity.
  assert (H2 : pythia_issued (dedicated_stats s0) = 0) by reflexivity.
  assert (H3 : Forall (fun e => transformer_issued e = 0 /\ pythia_issued e = 0) (samplers s0)).
  { apply Forall_forall. intros x Hx. apply list_elem_of_In, repeat_spec in Hx.
    subst x. split; reflexivity. }
  split; [exact H1|split; [exact H2|split; [exact H3|]]].
  exact (proj1 (accuracy_before_any_issue idle_host s0 H1 H2 H3)).
Defined.

Lemma credit_outside_sampler_sets_witness :
  let s0 := selector_initialize 2048 16 tstate_init tt in
  get_set_sample_category (NUM_SET s0) 1 <> 0 /\
  samplers (fst (selector_cache_fill idle_host s0 64 1 0 true 0 0)) = samplers s0.
Proof.
  intros s0.
  assert (H : get_set_sample_category (NUM_SET s0) 1 <> 0) by (vm_compute; discriminate).
  split; [exact H|].
  exact (proj1 (proj1 (credit_outside_sampler_sets idle_host s0 64 0 LOAD 1 0 0 0 H))).
Defined.

Lemma training_confirms_equal_gaps_witness :
  let e := {| te_valid := true; te_region_base := 0; te_last_miss_block := 20;
              te_second_last_miss_block := 10; te_third_last_miss_block := 0;
              te_miss_count := 2; te_direction := StreamDirection.UNKNOWN; te_stride := 1;
              te_last_access_timestamp := 0; te_pattern_confidence := 0 |} in
  let st := set_training_table [e] tstate_init in
  te_miss_count (training_table (update_training_entry st 0 30) !!! 0%nat) = 3.
Proof.
  intros e st.
  refine (proj1 (training_confirms_equal_gaps st 0 30 _ _ _ _ _ _)).
  - simpl. lia.
  - vm_compute. discriminate.
  - vm_compute. discriminate.
  - vm_compute. reflexivity.
  - vm_compute. discriminate.
  - vm_compute. reflexivity.
Defined.

Lemma training_resets_unequal_gaps_witness :
  let e := {| te_valid := true; te_region_base := 0; te_last_miss_block := 20;
              te_second_last_miss_block := 10; te_third_last_miss_block := 0;
              te_miss_count := 2; te_direction := StreamDirection.UNKNOWN; te_stride := 1;
              te_last_access_timestamp := 0; te_pattern_confidence := 0 |} in
  let st := set_training_table [e] tstate_init in
  te_miss_count (training_table (update_training_entry st 0 35) !!! 0%nat) = 1.
Proof.
  intros e st.
  refine (proj1 (training_resets_unequal_gaps st 0 35 _ _ _ _ _)).
  - simpl. lia.
  - vm_compute. discriminate.
  - vm_compute. discriminate.
  - vm_compute. reflexivity.
  - left. vm_compute. discriminate.
Defined.

Lemma training_allocate_then_find_witness :
  length (training_table tstate_init) = TRAINING_TABLE_SIZE /\
  find_training_entry tstate_init 100 = -1 /\
  ((allocate_training_entry tstate_init 100).1 < TRAINING_TABLE_SIZE)%nat.
Proof.
  assert (H1 : length (training_table tstate_init) = TRAINING_TABLE_SIZE) by reflexivity.
  assert (H2 : find_training_entry tstate_init 100 = -1) by (vm_compute; reflexivity).
  split; [exact H1|split; [exact H2|]].
  exact (proj1 (training_allocate_then_find tstate_init 100 H1 H2)).
Defined.

Lemma stream_group_lookup_or_create_witness :
  length (stream_groups tstate_init) = MAX_STREAM_GROUPS /\
  0 <= (find_or_create_stream_group tstate_init StreamDirection.POSITIVE 2).1
    < Z.of_nat MAX_STREAM_GROUPS.
Proof.
  assert (H : length (stream_groups tstate_init) = MAX_STREAM_GROUPS) by reflexivity.
  split; [exact H|].
  exact (proj1 (stream_group_lookup_or_create tstate_init StreamDirection.POSITIVE 2 H)).
Defined.

Lemma terminate_stream_effect_witness :
  let st := set_stream_table [set_se_valid true default_stream_entry] tstate_init in
  se_valid (stream_table st !!! 0%nat) = true /\
  se_valid (stream_table (terminate_stream st 0) !!! 0%nat) = false.
Proof.
  intros st.
  assert (Hv : se_valid (stream_table st !!! Z.to_nat 0) = true) by reflexivity.
  split; [exact Hv|].
  refine (proj1 (terminate_stream_effect st 0 _ _ _ Hv)).
  - vm_compute. split; [discriminate|reflexivity].
  - simpl. lia.
  - vm_compute. split; [discriminate|reflexivity].
Defined.

Lemma remove_dead_streams_only_stale_short_witness :
  let st := set_counters 5000 0
              (set_stream_table [set_se_valid true default_stream_entry] tstate_init) in
  se_valid (stream_table st !!! 0%nat) = true /\
  se_valid (stream_table (remove_dead_streams st) !!! 0%nat) = false /\
  se_stream_length (stream_table st !!! 0%nat) < SHORT_STREAM_THRESHOLD.
Proof.
  intros st.
  assert (H1 : se_valid (stream_table st !!! 0%nat) = true) by reflexivity.
  assert (H2 : se_valid (stream_table (remove_dead_streams st) !!! 0%nat) = false)
    by (vm_compute; reflexivity).
  split; [exact H1|split; [exact H2|]].
  exact (proj2 (remove_dead_streams_only_stale_short st 0 H1 H2)).
Defined.

Lemma allocate_stream_entry_free_slot_witness :
  treachable tstate_init /\
  ((allocate_stream_entry tstate_init).1 < 0 \/
   (0 <= (allocate_stream_entry tstate_init).1 < Z.of_nat STREAM_TABLE_SIZE /\
    (Z.to_nat (allocate_stream_entry tstate_init).1 <
       length (stream_table (allocate_stream_entry tstate_init).2))%nat /\
    se_valid (stream_table (allocate_stream_entry tstate_init).2 !!!
                Z.to_nat (allocate_stream_entry tstate_init).1) = false)).
Proof.
  assert (H : treachable tstate_init) by constructor.
  split; [exact H|]. exact (allocate_stream_entry_free_slot tstate_init H).
Defined.

Lemma fast_track_never_enabled_witness :
  let st := miss_run idle_host [10; 20; 30; 40] tstate_init in
  treachable st /\ get_pattern_confidence st StreamDirection.UNKNOWN 0 0 = 0.
Proof.
  intros st. assert (H : treachable st) by (apply miss_run_reachable; constructor).
  clearbody st. split; [exact H|].
  exact (proj2 (fast_track_never_enabled st H) StreamDirection.UNKNOWN 0).
Defined.
